(** * System Monitoring launcher: a shallow embedding of [MonitoringSystem]

    The launcher of [system-monitor-with-alert.py] is a sequential script
    that talks to the outside world (HTTP, the service manager, the file
    system, child processes).  It is embedded as a state-and-exception
    monad over

    - a [world]: the answers of the outside world, indexed by a clock that
      advances at every external call, so that answers may change over
      time, and
    - a [state]: the clock, the chronological trace of effects, and the two
      mutable process-handle attributes of the object.

    Conventions of the model:

    - exceptions enter a run through external calls only ([requests.get],
      [subprocess.run], [subprocess.Popen], [webbrowser.open]); they carry
      their Python class, so that [except Exception] and a bare [except] differ
      on [KeyboardInterrupt] and [SystemExit];
    - [time.sleep], [print], [log_message] and [terminate()] are effects
      that return: an interrupt is delivered in an external call, or in the
      sleep of the reporting loop; the append of [log_message] to the log
      file, whose failures the code swallows, is not recorded apart from the
      console line;
    - the endless reporting loop of [main] is run for a given number of
      rounds, after which the interrupt arrives;
    - a Python [str] is kept as its UTF-8 encoding; its length and its items
      are counted in characters, and [upper()] belongs to the world;
    - an exception carries [str(e)], with the texts of CPython 3.11 and
      later; the text of a JSON decoding error belongs to the response;
    - floats are kept as text: parsing and formatting them belong to the
      world. *)

From Stdlib Require Import String Ascii List ZArith Bool Arith Lia DecimalString.
Import ListNotations.
Local Open Scope string_scope.
Local Open Scope list_scope.

(** ** Python exceptions and results *)

Inductive exn_class : Type :=
| KeyError | TypeError | IndexError | ValueError | AttributeError
| OverflowError | JSONDecodeError | RequestException | OSError
| OtherException
| KeyboardInterrupt | SystemExit.

(** An exception: its class and its text, [str(e)]. *)
Record exn : Type := Exn { exn_cls : exn_class; exn_msg : string }.

(** [isinstance(e, Exception)]: what [except Exception] catches.  A bare
    [except:] catches every [exn]. *)
Definition is_Exception (e : exn) : bool :=
  match exn_cls e with
  | KeyboardInterrupt | SystemExit => false
  | _ => true
  end.

Definition any_exn (_ : exn) : bool := true.

Inductive result (A : Type) : Type :=
| Ok (a : A)
| Raise (e : exn).
Arguments Ok {A} a.
Arguments Raise {A} e.

(** ** JSON values as [response.json()] produces them *)

(** A Python float is kept as its [repr] text, which determines it. *)
Inductive pyfloat : Type := PyFloat (repr : string).

#[local] Set Warnings "-register-all".
Inductive json : Type :=
| JNull
| JBool (b : bool)
| JInt (z : Z)
| JFloat (f : pyfloat)
| JStr (s : string)
| JArr (items : list json)
| JObj (items : list (string * json)).

(** ** The outside world *)

Record response : Type := Response {
  status_code : Z;
  (** [None]: the body is not valid JSON, [response.json()] raises. *)
  body : option json;
  (** [str(e)] of the error [response.json()] raises on such a body *)
  json_error : string
}.

Inductive http_outcome : Type :=
| Responded (r : response)
| RequestRaises (e : exn).

Inductive run_outcome : Type :=
| Completed (stdout : string)
| RunRaises (e : exn).

Definition handle : Type := nat.

Inductive popen_outcome : Type :=
| Launched (h : handle)
| PopenRaises (e : exn).

Record world : Type := World {
  (** [requests.get(url, params={"query": q}, timeout=t)] at a clock value *)
  requests_get : nat -> string -> option string -> nat -> http_outcome;
  (** [subprocess.run(args, capture_output=True, text=True, ...)] *)
  subprocess_run : nat -> list string -> run_outcome;
  os_path_exists : nat -> string -> bool;
  (** [subprocess.Popen(cmd, cwd=...)] *)
  subprocess_Popen : nat -> list string -> string -> popen_outcome;
  webbrowser_open : nat -> string -> option exn;
  (** pure library functions whose results the launcher only passes on *)
  os_path_dirname : string -> string;
  os_path_join : string -> string -> string;
  os_path_abspath : string -> string;
  os_getcwd : string;
  (** [float(s)] on a [str]; [None] is [ValueError] *)
  float_of_string : string -> option pyfloat;
  (** [float(n)] on an [int]; [None] is [OverflowError] *)
  float_of_int : Z -> option pyfloat;
  (** [f"{v:.1f}"] *)
  format_1f : pyfloat -> string;
  (** [repr(x)] *)
  py_repr : json -> string;
  (** [s.upper()] on a [str] *)
  py_upper : string -> string
}.

(** ** Observable effects *)

Inductive event : Type :=
| EvLog (status message : string)
| EvPrint (line : string)
| EvSleep (seconds : nat)
| EvGet (url : string) (params : option string) (timeout : nat)
| EvRun (args : list string)
| EvExists (path : string)
| EvPopen (cmd : list string) (cwd : string)
| EvTerminate (h : handle)
| EvBrowser (url : string).

(** ** The object: constant attributes and mutable state *)

Record monitor : Type := Monitor {
  prometheus_path : string;
  alertmanager_path : string;
  dashboard_path : string;
  config_file : string;
  log_file : string
}.

Definition windows_exporter_service : string := "windows_exporter".
Definition prometheus_url : string := "http://localhost:9090".
Definition alertmanager_url : string := "http://localhost:9093".
Definition exporter_url : string := "http://localhost:9182/metrics".

Record state : Type := State {
  clock : nat;
  trace : list event;
  prometheus_process : option handle;
  alertmanager_process : option handle
}.

Definition init_state : state := State 0 [] None None.

(** ** The monad *)

Definition M (A : Type) : Type := world -> state -> result A * state.

Definition ret {A} (a : A) : M A := fun _ s => (Ok a, s).

Definition raise {A} (e : exn) : M A := fun _ s => (Raise e, s).

Definition bind {A B} (m : M A) (k : A -> M B) : M B :=
  fun w s =>
    match m w s with
    | (Ok a, s') => k a w s'
    | (Raise e, s') => (Raise e, s')
    end.

(** [try: body / except <catches> as e: handler e] *)
Definition try_except {A} (body : M A) (catches : exn -> bool)
    (handler : exn -> M A) : M A :=
  fun w s =>
    match body w s with
    | (Ok a, s') => (Ok a, s')
    | (Raise e, s') => if catches e then handler e w s' else (Raise e, s')
    end.

Declare Scope py_scope.
Delimit Scope py_scope with py.
Notation "x <- m ;; k" := (bind m (fun x => k))
  (at level 61, m at next level, right associativity) : py_scope.
Notation "m ;; k" := (bind m (fun _ => k))
  (at level 61, right associativity) : py_scope.
Local Open Scope py_scope.

Definition lift {A} (r : result A) : M A := fun _ s => (r, s).

Definition emit (ev : event) : M unit :=
  fun _ s =>
    (Ok tt, State (clock s) (trace s ++ [ev])
                  (prometheus_process s) (alertmanager_process s)).

(** An external call: recorded in the trace, answered by the world at the
    current clock, after which the clock advances. *)
Definition external {A} (ev : event) (answer : world -> nat -> result A) : M A :=
  fun w s =>
    (answer w (clock s),
     State (S (clock s)) (trace s ++ [ev])
           (prometheus_process s) (alertmanager_process s)).

Definition set_prometheus_process (h : handle) : M unit :=
  fun _ s => (Ok tt, State (clock s) (trace s) (Some h) (alertmanager_process s)).

Definition set_alertmanager_process (h : handle) : M unit :=
  fun _ s => (Ok tt, State (clock s) (trace s) (prometheus_process s) (Some h)).

Definition get_prometheus_process : M (option handle) :=
  fun _ s => (Ok (prometheus_process s), s).

Definition get_alertmanager_process : M (option handle) :=
  fun _ s => (Ok (alertmanager_process s), s).

Definition ask {A} (f : world -> A) : M A := fun w s => (Ok (f w), s).

(** A pure library call that may raise. *)
Definition ask_result {A} (f : world -> result A) : M A := fun w s => (f w, s).

(** ** Library calls *)

Definition time_sleep (seconds : nat) : M unit := emit (EvSleep seconds).

Definition print (line : string) : M unit := emit (EvPrint line).

Definition requests_get_call (url : string) (params : option string)
    (timeout : nat) : M response :=
  external (EvGet url params timeout)
    (fun w t => match requests_get w t url params timeout with
                | Responded r => Ok r
                | RequestRaises e => Raise e
                end).

Definition subprocess_run_call (args : list string) : M string :=
  external (EvRun args)
    (fun w t => match subprocess_run w t args with
                | Completed out => Ok out
                | RunRaises e => Raise e
                end).

Definition os_path_exists_call (path : string) : M bool :=
  external (EvExists path) (fun w t => Ok (os_path_exists w t path)).

Definition subprocess_Popen_call (cmd : list string) (cwd : string) : M handle :=
  external (EvPopen cmd cwd)
    (fun w t => match subprocess_Popen w t cmd cwd with
                | Launched h => Ok h
                | PopenRaises e => Raise e
                end).

Definition webbrowser_open_call (url : string) : M unit :=
  external (EvBrowser url)
    (fun w t => match webbrowser_open w t url with
                | None => Ok tt
                | Some e => Raise e
                end).

(** [sub in s] on strings *)
Definition str_in (sub s : string) : bool :=
  match String.index 0 sub s with
  | Some _ => true
  | None => false
  end.

Definition str_of_nat (n : nat) : string := NilZero.string_of_uint (Nat.to_uint n).

Definition str_of_Z (z : Z) : string := NilZero.string_of_int (Z.to_int z).

(** [str(e)] of a caught exception *)
Definition str_of_exn (e : exn) : string := exn_msg e.

(** ** [MonitoringSystem] methods *)

(** [log_message]: the append to the log file is best effort (its own bare
    [except: pass]); the console line of [print_status] is the effect kept. *)
Definition log_message (message status : string) : M unit :=
  emit (EvLog status message).

Definition check_service_running (service_name : string) : M bool :=
  try_except
    (out <- subprocess_run_call ["sc"; "query"; service_name] ;;
     ret (str_in "RUNNING" out))
    is_Exception
    (fun e =>
       log_message ("Error checking service " ++ service_name ++ ": "
                      ++ str_of_exn e) "ERROR" ;;
       ret false).

Definition start_windows_exporter : M bool :=
  log_message "Checking Windows Exporter service..." "INFO" ;;
  running <- check_service_running windows_exporter_service ;;
  if running then
    log_message "Windows Exporter is already running" "SUCCESS" ;;
    ret true
  else
    log_message "Starting Windows Exporter service..." "INFO" ;;
    try_except
      (out <- subprocess_run_call ["sc"; "start"; windows_exporter_service] ;;
       if str_in "START_PENDING" out || str_in "RUNNING" out then
         time_sleep 3 ;;
         log_message "Windows Exporter started successfully" "SUCCESS" ;;
         ret true
       else
         log_message ("Failed to start Windows Exporter: " ++ out) "ERROR" ;;
         ret false)
      is_Exception
      (fun e =>
         log_message ("Error starting Windows Exporter: " ++ str_of_exn e) "ERROR" ;;
         log_message "Try running this script as Administrator" "WARNING" ;;
         ret false).

Definition check_url_accessible (url : string) (timeout : nat) : M bool :=
  try_except
    (r <- requests_get_call url None timeout ;;
     ret (status_code r =? 200)%Z)
    any_exn
    (fun _ => ret false).

(** The retry loop shared, up to its constants, by [start_alertmanager]
    ([max_retries = 10]) and [start_prometheus] ([max_retries = 15]):
    [for i in range(max_retries): time.sleep(interval); if probe: return
    True; log waiting].  [poll_from] runs it over the remaining values of
    [i]. *)
Fixpoint poll_from (name url : string) (interval max_retries : nat)
    (range : list nat) : M bool :=
  match range with
  | [] =>
      log_message (name ++ " failed to start within timeout") "ERROR" ;;
      ret false
  | i :: range' =>
      time_sleep interval ;;
      ok <- check_url_accessible url 5 ;;
      if ok then
        log_message (name ++ " started successfully") "SUCCESS" ;;
        ret true
      else
        log_message ("Waiting for " ++ name ++ "... (" ++ str_of_nat (i + 1)
                       ++ "/" ++ str_of_nat max_retries ++ ")") "INFO" ;;
        poll_from name url interval max_retries range'
  end.

Definition wait_for_start (name url : string) (interval max_retries : nat) : M bool :=
  poll_from name url interval max_retries (seq 0 max_retries).

Definition start_alertmanager (self : monitor) : M bool :=
  log_message "Checking Alertmanager..." "INFO" ;;
  up <- check_url_accessible alertmanager_url 5 ;;
  if up then
    log_message "Alertmanager is already running" "SUCCESS" ;;
    ret true
  else
    found <- os_path_exists_call (alertmanager_path self) ;;
    if negb found then
      log_message ("Alertmanager not found at: " ++ alertmanager_path self) "ERROR" ;;
      ret false
    else
      log_message "Starting Alertmanager..." "INFO" ;;
      try_except
        (alertmanager_dir <- ask (fun w => os_path_dirname w (alertmanager_path self)) ;;
         config_path <- ask (fun w => os_path_join w alertmanager_dir "alertmanager.yml") ;;
         h <- subprocess_Popen_call
                [alertmanager_path self; ("--config.file=" ++ config_path)%string]
                alertmanager_dir ;;
         set_alertmanager_process h ;;
         wait_for_start "Alertmanager" alertmanager_url 2 10)
        is_Exception
        (fun e =>
           log_message ("Error starting Alertmanager: " ++ str_of_exn e) "ERROR" ;;
           ret false).

Definition start_prometheus (self : monitor) : M bool :=
  log_message "Checking Prometheus..." "INFO" ;;
  up <- check_url_accessible prometheus_url 5 ;;
  if up then
    log_message "Prometheus is already running" "SUCCESS" ;;
    ret true
  else
    found <- os_path_exists_call (prometheus_path self) ;;
    if negb found then
      log_message ("Prometheus not found at: " ++ prometheus_path self) "ERROR" ;;
      ret false
    else
      log_message "Starting Prometheus..." "INFO" ;;
      try_except
        (prom_dir <- ask (fun w => os_path_dirname w (prometheus_path self)) ;;
         cwd <- ask (fun w => if (prom_dir =? EmptyString)%string then os_getcwd w else prom_dir) ;;
         h <- subprocess_Popen_call
                [prometheus_path self; ("--config.file=" ++ config_file self)%string]
                cwd ;;
         set_prometheus_process h ;;
         wait_for_start "Prometheus" prometheus_url 2 15)
        is_Exception
        (fun e =>
           log_message ("Error starting Prometheus: " ++ str_of_exn e) "ERROR" ;;
           ret false).

(** The [services] dict of [verify_services], in insertion order. *)
Definition services : list (string * string) :=
  [ ("Windows Exporter", exporter_url);
    ("Prometheus", prometheus_url);
    ("Alertmanager", alertmanager_url) ].

(** [for name, url in services.items(): ...] with the running [all_ok]. *)
Fixpoint verify_loop (items : list (string * string)) (all_ok : bool) : M bool :=
  match items with
  | [] => ret all_ok
  | (name, url) :: items' =>
      ok <- check_url_accessible url 5 ;;
      if ok then
        log_message ("✓ " ++ name ++ " is accessible at " ++ url) "SUCCESS" ;;
        verify_loop items' all_ok
      else
        log_message ("✗ " ++ name ++ " is NOT accessible at " ++ url) "ERROR" ;;
        verify_loop items' false
  end.

Definition verify_services : M bool :=
  log_message "Verifying services..." "INFO" ;;
  verify_loop services true.

Definition start_all_services (self : monitor) : M bool :=
  log_message "Starting monitoring system..." "INFO" ;;
  exporter <- start_windows_exporter ;;
  if negb exporter then ret false else
  router <- start_alertmanager self ;;
  if negb router then ret false else
  engine <- start_prometheus self ;;
  if negb engine then ret false else
  verified <- verify_services ;;
  if verified then
    log_message "All services started successfully!" "SUCCESS" ;;
    ret true
  else
    log_message "Some services failed to start" "ERROR" ;;
    ret false.

(** [process.terminate()] on a handle *)
Definition terminate (h : handle) : M unit := emit (EvTerminate h).

Definition stop_services : M unit :=
  log_message "Stopping monitoring services..." "INFO" ;;
  p <- get_prometheus_process ;;
  match p with
  | Some h => terminate h ;; log_message "Prometheus stopped" "INFO"
  | None => ret tt
  end ;;
  a <- get_alertmanager_process ;;
  match a with
  | Some h => terminate h ;; log_message "Alertmanager stopped" "INFO"
  | None => ret tt
  end.

(** ** Python operations on decoded JSON *)

Fixpoint str_repeat (s : string) (n : nat) : string :=
  match n with
  | 0 => EmptyString
  | S n' => (s ++ str_repeat s n')%string
  end.

Definition newline : string := String (ascii_of_nat 10) EmptyString.
Definition dquote : string := String (ascii_of_nat 34) EmptyString.

Definition upper_ascii (c : ascii) : ascii :=
  let n := nat_of_ascii c in
  if ((97 <=? n)%nat && (n <=? 122)%nat)%bool then ascii_of_nat (n - 32) else c.

(** [s.upper()] on a text of ASCII characters; the sample worlds use it. *)
Fixpoint str_upper (s : string) : string :=
  match s with
  | EmptyString => EmptyString
  | String c s' => String (upper_ascii c) (str_upper s')
  end.

(** A Python [str] is kept as its UTF-8 encoding.  A byte [10xxxxxx]
    continues the character begun before it. *)
Definition is_continuation (c : ascii) : bool :=
  let n := nat_of_ascii c in ((128 <=? n)%nat && (n <? 192)%nat)%bool.

(** The bytes of the incomplete character at the head of [s], and the
    characters after it. *)
Fixpoint chars_from (s : string) : string * list string :=
  match s with
  | EmptyString => (EmptyString, [])
  | String c s' =>
      let (pending, cs) := chars_from s' in
      if is_continuation c
      then (String c pending, cs)
      else (EmptyString, String c pending :: cs)
  end.

(** The characters of [s], each as a [str] of length one. *)
Definition chars (s : string) : list string :=
  let (pending, cs) := chars_from s in
  match pending with
  | EmptyString => cs
  | _ => pending :: cs
  end.

(** [len(s)] *)
Definition py_len (s : string) : nat := List.length (chars s).

(** [f"{s:<20}"] on a [str]: padded to 20 characters *)
Definition ljust20 (s : string) : string :=
  (s ++ str_repeat " " (20 - py_len s))%string.

(** [type(v).__name__] *)
Definition type_name (v : json) : string :=
  match v with
  | JNull => "NoneType"
  | JBool _ => "bool"
  | JInt _ => "int"
  | JFloat _ => "float"
  | JStr _ => "str"
  | JArr _ => "list"
  | JObj _ => "dict"
  end.

(** The texts of the exceptions below are those of CPython 3.11 and later.
    [str(KeyError(key))] is the [repr] of the key: the key between single
    quotes, for keys such as this program's, which hold no quote and no
    escape. *)
Definition not_subscriptable (v : json) : exn :=
  Exn TypeError ("'" ++ type_name v ++ "' object is not subscriptable").

Definition no_attribute (v : json) (attr : string) : exn :=
  Exn AttributeError ("'" ++ type_name v ++ "' object has no attribute '" ++ attr ++ "'").

Fixpoint dict_get (key : string) (items : list (string * json)) : option json :=
  match items with
  | [] => None
  | (k, v) :: items' => if (k =? key)%string then Some v else dict_get key items'
  end.

(** [bool(v)] *)
Definition truthy (v : json) : bool :=
  match v with
  | JNull => false
  | JBool b => b
  | JInt z => negb (z =? 0)%Z
  | JFloat (PyFloat r) => negb ((r =? "0.0")%string || (r =? "-0.0")%string)
  | JStr s => negb (s =? EmptyString)%string
  | JArr items => match items with [] => false | _ => true end
  | JObj items => match items with [] => false | _ => true end
  end.

(** [v == s] for a [str] literal [s] *)
Definition eq_str (v : json) (s : string) : bool :=
  match v with
  | JStr s' => (s' =? s)%string
  | _ => false
  end.

(** [v[key]] with a [str] key *)
Definition subscript (v : json) (key : string) : result json :=
  match v with
  | JObj items =>
      match dict_get key items with
      | Some x => Ok x
      | None => Raise (Exn KeyError ("'" ++ key ++ "'"))
      end
  | JStr _ => Raise (Exn TypeError "string indices must be integers, not 'str'")
  | JArr _ => Raise (Exn TypeError "list indices must be integers or slices, not str")
  | _ => Raise (not_subscriptable v)
  end.

(** [v[i]] with a non-negative [int] index *)
Definition index (v : json) (i : nat) : result json :=
  match v with
  | JArr items =>
      match nth_error items i with
      | Some x => Ok x
      | None => Raise (Exn IndexError "list index out of range")
      end
  | JStr s =>
      match nth_error (chars s) i with
      | Some c => Ok (JStr c)
      | None => Raise (Exn IndexError "string index out of range")
      end
  | JObj _ => Raise (Exn KeyError (str_of_nat i))
  | _ => Raise (not_subscriptable v)
  end.

(** [v.get(key, default)] *)
Definition dot_get (v : json) (key : string) (default : json) : result json :=
  match v with
  | JObj items =>
      match dict_get key items with
      | Some x => Ok x
      | None => Ok default
      end
  | _ => Raise (no_attribute v "get")
  end.

(** [v.upper()] *)
Definition dot_upper (w : world) (v : json) : result string :=
  match v with
  | JStr s => Ok (py_upper w s)
  | _ => Raise (no_attribute v "upper")
  end.

(** [iter(v)], as far as the [for] loop consumes it *)
Definition iterate (v : json) : result (list json) :=
  match v with
  | JArr items => Ok items
  | JStr s => Ok (map JStr (chars s))
  | JObj items => Ok (map (fun kv => JStr (fst kv)) items)
  | _ => Raise (Exn TypeError ("'" ++ type_name v ++ "' object is not iterable"))
  end.

(** [float(v)] *)
Definition py_float (w : world) (v : json) : result pyfloat :=
  match v with
  | JStr s =>
      match float_of_string w s with
      | Some f => Ok f
      | None =>
          Raise (Exn ValueError ("could not convert string to float: "
                                   ++ py_repr w (JStr s)))
      end
  | JInt z =>
      match float_of_int w z with
      | Some f => Ok f
      | None => Raise (Exn OverflowError "int too large to convert to float")
      end
  | JBool b => Ok (PyFloat (if b then "1.0" else "0.0"))
  | JFloat f => Ok f
  | _ =>
      Raise (Exn TypeError ("float() argument must be a string or a real number, not '"
                              ++ type_name v ++ "'"))
  end.

(** [f"{v:<20}"] *)
Definition format_ljust20 (v : json) : result string :=
  match v with
  | JStr s => Ok (ljust20 s)
  | JInt z => Ok (ljust20 (str_of_Z z))
  | JBool b => Ok (ljust20 (if b then "1" else "0"))
  | JFloat (PyFloat r) => Ok (ljust20 r)
  | _ =>
      Raise (Exn TypeError ("unsupported format string passed to "
                              ++ type_name v ++ ".__format__"))
  end.

(** [f"{v}"]: [str(v)], which for a list or a dict is its [repr] *)
Definition py_str (w : world) (v : json) : string :=
  match v with
  | JStr s => s
  | JNull => "None"
  | JBool b => if b then "True" else "False"
  | JInt z => str_of_Z z
  | JFloat (PyFloat r) => r
  | _ => py_repr w v
  end.

(** [response.json()] *)
Definition response_json (r : response) : result json :=
  match body r with
  | Some v => Ok v
  | None => Raise (Exn JSONDecodeError (json_error r))
  end.

(** ** Telemetry *)

(** The [queries] dict of [get_system_metrics], in insertion order. *)
Definition queries : list (string * string) :=
  [ ("CPU Usage",
     "100 - (avg(rate(windows_cpu_time_total{mode=" ++ dquote ++ "idle" ++ dquote
       ++ "}[1m])) * 100)");
    ("Memory Usage",
     "100 - ((windows_memory_available_bytes / windows_memory_physical_total_bytes) * 100)");
    ("Disk Usage",
     "100 - ((windows_logical_disk_free_bytes{volume=" ++ dquote ++ "C:" ++ dquote
       ++ "} / windows_logical_disk_size_bytes{volume=" ++ dquote ++ "C:" ++ dquote
       ++ "}) * 100)") ]%string.

(** One pass of the loop body of [get_system_metrics]: the [try] block and
    its bare [except]. *)
Definition fetch_metric (name query : string) : M unit :=
  try_except
    (response <- requests_get_call (prometheus_url ++ "/api/v1/query") (Some query) 5 ;;
     data <- lift (response_json response) ;;
     status <- lift (subscript data "status") ;;
     nonempty <-
       (if eq_str status "success" then
          d <- lift (subscript data "data") ;;
          r <- lift (subscript d "result") ;;
          ret (truthy r)
        else ret false) ;;
     if (nonempty : bool) then
       d <- lift (subscript data "data") ;;
       r <- lift (subscript d "result") ;;
       r0 <- lift (index r 0) ;;
       v <- lift (subscript r0 "value") ;;
       v1 <- lift (index v 1) ;;
       value <- ask_result (fun w => py_float w v1) ;;
       text <- ask (fun w => format_1f w value) ;;
       print ("  " ++ name ++ ": " ++ text ++ "%")
     else ret tt)
    any_exn
    (fun _ => print ("  " ++ name ++ ": Unable to fetch")).

Fixpoint metrics_loop (items : list (string * string)) : M unit :=
  match items with
  | [] => ret tt
  | (name, query) :: items' => fetch_metric name query ;; metrics_loop items'
  end.

Definition get_system_metrics : M unit :=
  log_message "Fetching system metrics..." "INFO" ;;
  print (newline ++ str_repeat "=" 60) ;;
  print "  CURRENT SYSTEM METRICS" ;;
  print (str_repeat "=" 60) ;;
  metrics_loop queries ;;
  print (str_repeat "=" 60 ++ newline).

(** The body of [for alert in alerts] in [check_alerts]. *)
Definition print_alert (alert : json) : M unit :=
  status <- lift (subscript alert "state") ;;
  labels <- lift (subscript alert "labels") ;;
  name <- lift (subscript labels "alertname") ;;
  labels' <- lift (subscript alert "labels") ;;
  severity <- lift (dot_get labels' "severity" (JStr "unknown")) ;;
  name_text <- lift (format_ljust20 name) ;;
  status_text <- ask_result (fun w => dot_upper w status) ;;
  severity_text <- ask (fun w => py_str w severity) ;;
  print ("  " ++ name_text ++ ": " ++ status_text ++ " (" ++ severity_text ++ ")").

Fixpoint alerts_loop (alerts : list json) : M unit :=
  match alerts with
  | [] => ret tt
  | alert :: alerts' => print_alert alert ;; alerts_loop alerts'
  end.

Definition alerts_endpoint : string := (prometheus_url ++ "/api/v1/alerts")%string.

Definition check_alerts : M unit :=
  try_except
    (response <- requests_get_call alerts_endpoint None 5 ;;
     if (status_code response =? 200)%Z then
       data <- lift (response_json response) ;;
       d <- lift (subscript data "data") ;;
       alerts <- lift (subscript d "alerts") ;;
       print (newline ++ str_repeat "=" 60) ;;
       print "  ALERT STATUS" ;;
       print (str_repeat "=" 60) ;;
       (if negb (truthy alerts) then
          print "  No active alerts"
        else
          items <- lift (iterate alerts) ;;
          alerts_loop items) ;;
       print (str_repeat "=" 60)
     else
       log_message "Failed to fetch alerts" "ERROR")
    is_Exception
    (fun e => log_message ("Error checking alerts: " ++ str_of_exn e) "ERROR").

Definition open_dashboards (self : monitor) : M unit :=
  log_message "Opening monitoring dashboards..." "INFO" ;;
  try_except
    (dashboard_url <- ask (fun w => "file:///" ++ os_path_abspath w (dashboard_path self))%string ;;
     webbrowser_open_call dashboard_url ;;
     log_message ("Opened HTML Dashboard: " ++ dashboard_url) "SUCCESS")
    is_Exception
    (fun e => log_message ("Failed to open HTML dashboard: " ++ str_of_exn e) "ERROR").

(** ** Construction and [main] *)

(** [for path in possible_paths: if os.path.exists(path): return path],
    then [return possible_paths[0]]. *)
Fixpoint first_existing (paths : list string) (default : string) : M string :=
  match paths with
  | [] => ret default
  | path :: paths' =>
      found <- os_path_exists_call path ;;
      if found then ret path else first_existing paths' default
  end.

Definition find_prometheus_executable : M string :=
  p0 <- ask (fun w => os_path_join w
                        (os_path_join w (os_getcwd w) "prometheus-3.7.2.windows-amd64")
                        "prometheus.exe") ;;
  p2 <- ask (fun w => os_path_join w (os_getcwd w) "prometheus.exe") ;;
  first_existing
    [ p0;
      "E:\data\dsatm\7th sem\Workshop\Workshop-Project\prometheus-3.7.2.windows-amd64\prometheus.exe";
      p2;
      "C:\prometheus\prometheus.exe" ]
    p0.

Definition find_alertmanager_executable : M string :=
  p0 <- ask (fun w => os_path_join w
                        (os_path_join w (os_getcwd w) "alertmanager-0.28.1.windows-amd64")
                        "alertmanager.exe") ;;
  p1 <- ask (fun w => os_path_join w (os_getcwd w) "alertmanager.exe") ;;
  first_existing [ p0; p1; "C:\alertmanager\alertmanager.exe" ] p0.

Definition clear_handles : M unit :=
  fun _ s => (Ok tt, State (clock s) (trace s) None None).

(** [MonitoringSystem.__init__] *)
Definition init : M monitor :=
  prom <- find_prometheus_executable ;;
  am <- find_alertmanager_executable ;;
  dash <- ask (fun w => os_path_join w (os_getcwd w) "dashboard.html") ;;
  conf <- ask (fun w => os_path_join w (os_getcwd w) "prometheus.yml") ;;
  clear_handles ;;
  logf <- ask (fun w => os_path_join w (os_getcwd w) "monitoring.log") ;;
  ret (Monitor prom am dash conf logf).

(** [while True: time.sleep(30); monitor.check_alerts()].  The loop only
    ends by an exception; a run is indexed by the number of rounds completed
    before the interrupt is delivered in the following sleep. *)
Fixpoint report_loop (cycles : nat) : M unit :=
  match cycles with
  | 0 => time_sleep 30 ;; raise (Exn KeyboardInterrupt EmptyString)
  | S cycles' => time_sleep 30 ;; check_alerts ;; report_loop cycles'
  end.

Definition is_KeyboardInterrupt (e : exn) : bool :=
  match exn_cls e with
  | KeyboardInterrupt => true
  | _ => false
  end.

Definition main (cycles : nat) : M unit :=
  monitor <- init ;;
  try_except
    (print (newline ++ str_repeat "=" 60) ;;
     print "  SYSTEM MONITORING - AUTOMATED LAUNCHER" ;;
     print (str_repeat "=" 60) ;;
     started <- start_all_services monitor ;;
     if started then
       get_system_metrics ;;
       check_alerts ;;
       open_dashboards monitor ;;
       print (newline ++ "Monitoring system is running!") ;;
       print "Press Ctrl+C to stop..." ;;
       report_loop cycles
     else ret tt)
    (fun e => is_KeyboardInterrupt e || is_Exception e)
    (fun e =>
       if is_KeyboardInterrupt e then
         print (newline ++ "Shutting down...") ;;
         stop_services
       else
         log_message ("Unexpected error: " ++ str_of_exn e) "ERROR" ;;
         stop_services).

(** ** Reading a run *)

(** What one probe at clock [t] answers: [check_url_accessible] there. *)
Definition probe (w : world) (t : nat) (url : string) (timeout : nat) : bool :=
  match requests_get w t url None timeout with
  | Responded r => (status_code r =? 200)%Z
  | RequestRaises _ => false
  end.

(** What [check_service_running] answers at clock [t]. *)
Definition reports_running (w : world) (t : nat) (service_name : string) : bool :=
  match subprocess_run w t ["sc"; "query"; service_name] with
  | Completed out => str_in "RUNNING" out
  | RunRaises _ => false
  end.

Definition is_sleep (ev : event) : bool :=
  match ev with EvSleep _ => true | _ => false end.

Definition is_get (ev : event) : bool :=
  match ev with EvGet _ _ _ => true | _ => false end.

Definition is_popen (ev : event) : bool :=
  match ev with EvPopen _ _ => true | _ => false end.

Definition is_terminate (ev : event) : bool :=
  match ev with EvTerminate _ => true | _ => false end.

(** [subprocess.run(['sc', 'start', ...])] *)
Definition is_sc_start (ev : event) : bool :=
  match ev with
  | EvRun (_ :: verb :: _) => (verb =? "start")%string
  | _ => false
  end.

(** [subprocess.run(['sc', 'query', ...])] *)
Definition is_sc_query (ev : event) : bool :=
  match ev with
  | EvRun (_ :: verb :: _) => (verb =? "query")%string
  | _ => false
  end.

Definition count (p : event -> bool) (tr : list event) : nat :=
  List.length (filter p tr).

(** The events of one unsuccessful round of the retry loop. *)
Definition waiting_round (name url : string) (interval max_retries i : nat)
    : list event :=
  [ EvSleep interval;
    EvGet url None 5;
    EvLog "INFO" ("Waiting for " ++ name ++ "... (" ++ str_of_nat (i + 1)
                    ++ "/" ++ str_of_nat max_retries ++ ")") ].

(** The events of the successful round. *)
Definition ready_round (name url : string) (interval : nat) : list event :=
  [ EvSleep interval;
    EvGet url None 5;
    EvLog "SUCCESS" (name ++ " started successfully") ].

Definition with_trace (s : state) (tr : list event) (t : nat) : state :=
  State t tr (prometheus_process s) (alertmanager_process s).

(** ** What a method may do *)

(** How a process-handle attribute may change: not at all, or, where the
    method may launch, to a populated handle. *)
Definition handle_step (may_launch : bool) (h h' : option handle) : Prop :=
  h' = h \/ (may_launch = true /\ h' <> None).

(** [extends P lp la s s']: from [s] to [s'] the trace grew by events that
    all satisfy [P], and the handles moved by [handle_step]. *)
Definition extends (P : event -> Prop) (lp la : bool) (s s' : state) : Prop :=
  (exists new, trace s' = trace s ++ new /\ Forall P new)
  /\ handle_step lp (prometheus_process s) (prometheus_process s')
  /\ handle_step la (alertmanager_process s) (alertmanager_process s').

Definition respects (P : event -> Prop) (lp la : bool) {A} (m : M A) : Prop :=
  forall w s, extends P lp la s (snd (m w s)).

Definition is_log (ev : event) : Prop :=
  match ev with EvLog _ _ => True | _ => False end.

Definition is_print (ev : event) : Prop :=
  match ev with EvPrint _ => True | _ => False end.

(** The effects of the exporter stage. *)
Definition exporter_event (ev : event) : Prop :=
  match ev with
  | EvLog _ _ => True
  | EvSleep n => n = 3
  | EvRun args =>
      args = ["sc"; "query"; windows_exporter_service]
      \/ args = ["sc"; "start"; windows_exporter_service]
  | _ => False
  end.

(** The effects of a launch-and-poll stage for the executable [exe] behind
    [url]. *)
Definition stage_event (exe url : string) (ev : event) : Prop :=
  match ev with
  | EvLog _ _ => True
  | EvSleep n => n = 2
  | EvGet u params timeout => u = url /\ params = None /\ timeout = 5
  | EvExists path => path = exe
  | EvPopen cmd _ => exists arg, cmd = [exe; arg]
  | _ => False
  end.

Definition probe_event (ev : event) : Prop :=
  match ev with
  | EvLog _ _ => True
  | EvGet u params timeout =>
      In u [exporter_url; prometheus_url; alertmanager_url]
      /\ params = None /\ timeout = 5
  | _ => False
  end.

Definition metrics_event (ev : event) : Prop :=
  match ev with
  | EvLog _ _ => True
  | EvPrint _ => True
  | EvGet u params timeout =>
      u = (prometheus_url ++ "/api/v1/query")%string
      /\ (exists name query, In (name, query) queries /\ params = Some query)
      /\ timeout = 5
  | _ => False
  end.

Definition alerts_event (ev : event) : Prop :=
  match ev with
  | EvLog _ _ => True
  | EvPrint _ => True
  | EvGet u params timeout =>
      u = (prometheus_url ++ "/api/v1/alerts")%string /\ params = None /\ timeout = 5
  | _ => False
  end.

Definition shutdown_event (ev : event) : Prop :=
  match ev with
  | EvLog _ _ => True
  | EvTerminate _ => True
  | _ => False
  end.

(** The log line of [verify_services] for one endpoint. *)
Definition verdict (name url : string) (ok : bool) : event :=
  if ok
  then EvLog "SUCCESS" ("✓ " ++ name ++ " is accessible at " ++ url)
  else EvLog "ERROR" ("✗ " ++ name ++ " is NOT accessible at " ++ url).

(** The events of [verify_services] when the three probes answer [a], [b]
    and [c]. *)
Definition verify_events (a b c : bool) : list event :=
  [ EvLog "INFO" "Verifying services...";
    EvGet exporter_url None 5; verdict "Windows Exporter" exporter_url a;
    EvGet prometheus_url None 5; verdict "Prometheus" prometheus_url b;
    EvGet alertmanager_url None 5; verdict "Alertmanager" alertmanager_url c ].


(** The events of a stage that finds its dependency already up. *)
Definition exporter_already_events : list event :=
  [ EvLog "INFO" "Checking Windows Exporter service...";
    EvRun ["sc"; "query"; windows_exporter_service];
    EvLog "SUCCESS" "Windows Exporter is already running" ].

Definition stage_already_events (name url : string) : list event :=
  [ EvLog "INFO" ("Checking " ++ name ++ "...");
    EvGet url None 5;
    EvLog "SUCCESS" (name ++ " is already running") ].

(** The events of [start_all_services] when every stage finds its
    dependency already up and the verification probes answer [a], [b], [c]. *)
Definition already_up_events (a b c : bool) : list event :=
  [EvLog "INFO" "Starting monitoring system..."]
    ++ exporter_already_events
    ++ stage_already_events "Alertmanager" alertmanager_url
    ++ stage_already_events "Prometheus" prometheus_url
    ++ verify_events a b c
    ++ [if a && b && c
        then EvLog "SUCCESS" "All services started successfully!"
        else EvLog "ERROR" "Some services failed to start"].

(** [START_PENDING] or [RUNNING] in the answer to [sc start] *)
Definition start_accepted (out : string) : bool :=
  str_in "START_PENDING" out || str_in "RUNNING" out.

(** The events of [check_service_running] for the answer [o] to the query. *)
Definition query_events (name : string) (o : run_outcome) : list event :=
  EvRun ["sc"; "query"; name]
  :: match o with
     | Completed _ => []
     | RunRaises e =>
         [EvLog "ERROR" ("Error checking service " ++ name ++ ": " ++ str_of_exn e)]
     end.

(** What the exporter stage does after [sc start] answered [o]. *)
Definition after_start_events (o : run_outcome) : list event :=
  match o with
  | Completed out =>
      if start_accepted out
      then [EvSleep 3; EvLog "SUCCESS" "Windows Exporter started successfully"]
      else [EvLog "ERROR" ("Failed to start Windows Exporter: " ++ out)]
  | RunRaises e =>
      [EvLog "ERROR" ("Error starting Windows Exporter: " ++ str_of_exn e);
       EvLog "WARNING" "Try running this script as Administrator"]
  end.

Definition after_start_result (o : run_outcome) : bool :=
  match o with
  | Completed out => start_accepted out
  | RunRaises _ => false
  end.

(** The answer is not an interrupt: [except Exception] handles it. *)
Definition handled (o : run_outcome) : bool :=
  match o with
  | Completed _ => true
  | RunRaises e => is_Exception e
  end.

(** ** Reading the telemetry *)

Definition rbind {A B} (r : result A) (k : A -> result B) : result B :=
  match r with
  | Ok a => k a
  | Raise e => Raise e
  end.

(** What the [try] block of [get_system_metrics] computes from the outcome
    of one query: a value to print, nothing, or an exception. *)
Definition read_metric (w : world) (o : http_outcome) : result (option pyfloat) :=
  match o with
  | RequestRaises e => Raise e
  | Responded response =>
      rbind (response_json response) (fun data =>
      rbind (subscript data "status") (fun status =>
      if eq_str status "success" then
        rbind (subscript data "data") (fun d =>
        rbind (subscript d "result") (fun r =>
        if truthy r then
          rbind (index r 0) (fun r0 =>
          rbind (subscript r0 "value") (fun v =>
          rbind (index v 1) (fun v1 =>
          rbind (py_float w v1) (fun value => Ok (Some value)))))
        else Ok None))
      else Ok None))
  end.

(** What [get_system_metrics] displays for one entry. *)
Definition metric_line (w : world) (name : string) (o : http_outcome) : list event :=
  match read_metric w o with
  | Ok (Some value) => [EvPrint ("  " ++ name ++ ": " ++ format_1f w value ++ "%")]
  | Ok None => []
  | Raise _ => [EvPrint ("  " ++ name ++ ": Unable to fetch")]
  end.

Definition query_endpoint : string := (prometheus_url ++ "/api/v1/query")%string.





(** The request did not end in an interrupt. *)
Definition handled_http (o : http_outcome) : bool :=
  match o with
  | Responded _ => true
  | RequestRaises e => is_Exception e
  end.




Definition only_Exception {A} (r : result A) : Prop :=
  match r with
  | Ok _ => True
  | Raise e => is_Exception e = true
  end.

(** [m] raises nothing but [Exception]s. *)
Definition safe {A} (m : M A) : Prop :=
  forall w s, only_Exception (fst (m w s)).

(** The events of [stop_services] for the handles it finds. *)
Definition stop_events (p a : option handle) : list event :=
  [EvLog "INFO" "Stopping monitoring services..."]
    ++ match p with
       | Some h => [EvTerminate h; EvLog "INFO" "Prometheus stopped"]
       | None => []
       end
    ++ match a with
       | Some h => [EvTerminate h; EvLog "INFO" "Alertmanager stopped"]
       | None => []
       end.

Definition any_event (_ : event) : Prop := True.

(** The effects of the whole startup pipeline. *)
Definition startup_event (self : monitor) (ev : event) : Prop :=
  exporter_event ev
  \/ stage_event (alertmanager_path self) alertmanager_url ev
  \/ stage_event (prometheus_path self) prometheus_url ev
  \/ probe_event ev.

(** [m] leaves both process handles as they are. *)
Definition leaves_handles {A} (m : M A) : Prop :=
  forall w s,
    prometheus_process (snd (m w s)) = prometheus_process s
    /\ alertmanager_process (snd (m w s)) = alertmanager_process s.

(** [m] never turns a populated handle back into [None]. *)
Definition never_clears {A} (m : M A) : Prop :=
  forall w s,
    (prometheus_process s <> None -> prometheus_process (snd (m w s)) <> None)
    /\ (alertmanager_process s <> None -> alertmanager_process (snd (m w s)) <> None).

(** ** Budgets *)

(** The seconds slept in a trace. *)
Fixpoint sleep_seconds (tr : list event) : nat :=
  match tr with
  | [] => 0
  | EvSleep n :: tr' => n + sleep_seconds tr'
  | _ :: tr' => sleep_seconds tr'
  end.

(** [costs secs calls m]: whatever the world answers, [m] sleeps at most
    [secs] seconds and makes at most [calls] external calls. *)
Definition costs (secs calls : nat) {A} (m : M A) : Prop :=
  forall w s,
    exists new,
      trace (snd (m w s)) = trace s ++ new
      /\ sleep_seconds new <= secs
      /\ clock s <= clock (snd (m w s)) <= clock s + calls.

(** ** Path discovery *)

(** [possible_paths] of [_find_prometheus_executable] *)
Definition prometheus_candidates (w : world) : list string :=
  [ os_path_join w (os_path_join w (os_getcwd w) "prometheus-3.7.2.windows-amd64")
      "prometheus.exe";
    "E:\data\dsatm\7th sem\Workshop\Workshop-Project\prometheus-3.7.2.windows-amd64\prometheus.exe";
    os_path_join w (os_getcwd w) "prometheus.exe";
    "C:\prometheus\prometheus.exe" ].

(** [possible_paths] of [_find_alertmanager_executable] *)
Definition alertmanager_candidates (w : world) : list string :=
  [ os_path_join w (os_path_join w (os_getcwd w) "alertmanager-0.28.1.windows-amd64")
      "alertmanager.exe";
    os_path_join w (os_getcwd w) "alertmanager.exe";
    "C:\alertmanager\alertmanager.exe" ].

(** The candidates at positions below [k] are found missing, each at the
    clock of its own check. *)
Definition missing_before (w : world) (t : nat) (paths : list string) (k : nat) : Prop :=
  forall j, j < k -> os_path_exists w (t + j) (nth j paths EmptyString) = false.

(** ** Reading the alert display *)

(** What the body of the [for] loop of [check_alerts] computes for one
    alert: the line to print, or an exception. *)
Definition render_alert (w : world) (alert : json) : result string :=
  rbind (subscript alert "state") (fun status =>
  rbind (subscript alert "labels") (fun labels =>
  rbind (subscript labels "alertname") (fun name =>
  rbind (subscript alert "labels") (fun labels' =>
  rbind (dot_get labels' "severity" (JStr "unknown")) (fun severity =>
  rbind (format_ljust20 name) (fun name_text =>
  rbind (dot_upper w status) (fun status_text =>
  Ok ("  " ++ name_text ++ ": " ++ status_text ++ " (" ++ py_str w severity ++ ")")%string))))))).

(** An alert as Prometheus reports it: an object with a string [state] and
    a [labels] object holding a string [alertname]. *)
Definition plain_alert (alert : json) : option (string * string * list (string * json)) :=
  match alert with
  | JObj fields =>
      match dict_get "state" fields, dict_get "labels" fields with
      | Some (JStr state), Some (JObj labels) =>
          match dict_get "alertname" labels with
          | Some (JStr name) => Some (state, name, labels)
          | _ => None
          end
      | _, _ => None
      end
  | _ => None
  end.

(** The line shown for a plain alert. *)
Definition alert_row (w : world) (alert : json) : string :=
  match plain_alert alert with
  | Some (state, name, labels) =>
      "  " ++ ljust20 name ++ ": " ++ py_upper w state ++ " ("
        ++ match dict_get "severity" labels with
           | Some severity => py_str w severity
           | None => "unknown"
           end ++ ")"
  | None => EmptyString
  end.

Definition is_plain (alert : json) : Prop := plain_alert alert <> None.

Definition alerts_header : list event :=
  [ EvPrint (newline ++ str_repeat "=" 60);
    EvPrint "  ALERT STATUS";
    EvPrint (str_repeat "=" 60) ].

(** One round of the reporting loop, as far as sleeping and fetching go. *)
Definition report_round : list event :=
  [EvSleep 30; EvGet alerts_endpoint None 5].

Definition is_sleep_or_get (ev : event) : bool := is_sleep ev || is_get ev.




(** Neither a sleep, nor a request, nor a termination. *)
Definition quiet_event (ev : event) : Prop :=
  is_sleep_or_get ev = false /\ is_terminate ev = false.

(** ** Reading the retry loop *)

(** The state in which [start_alertmanager] enters its retry loop, after a
    launch that returned the handle [h]. *)
Definition alertmanager_launched (self : monitor) (w : world) (s : state)
    (h : handle) : state :=
  let dir := os_path_dirname w (alertmanager_path self) in
  let cmd := [alertmanager_path self;
              ("--config.file=" ++ os_path_join w dir "alertmanager.yml")%string] in
  State (S (S (S (clock s))))
    (trace s ++ [ EvLog "INFO" "Checking Alertmanager...";
                  EvGet alertmanager_url None 5;
                  EvExists (alertmanager_path self);
                  EvLog "INFO" "Starting Alertmanager...";
                  EvPopen cmd dir ])
    (prometheus_process s) (Some h).

(** The same for [start_prometheus]. *)
Definition prometheus_launched (self : monitor) (w : world) (s : state)
    (h : handle) : state :=
  let dir := os_path_dirname w (prometheus_path self) in
  let cwd := if (dir =? EmptyString)%string then os_getcwd w else dir in
  let cmd := [prometheus_path self;
              ("--config.file=" ++ config_file self)%string] in
  State (S (S (S (clock s))))
    (trace s ++ [ EvLog "INFO" "Checking Prometheus...";
                  EvGet prometheus_url None 5;
                  EvExists (prometheus_path self);
                  EvLog "INFO" "Starting Prometheus...";
                  EvPopen cmd cwd ])
    (Some h) (alertmanager_process s).

(** [run], the outcome of a method that entered its retry loop in state
    [s0], is the outcome of exactly that loop: [k] sleep-then-probe rounds and
    [True] when the probe first succeeds on attempt [k <= max_retries];
    [max_retries] rounds and [False] when no probe succeeds; and as many
    external calls as rounds. *)
Definition polls_exactly (run : result bool * state) (name url : string)
    (interval max_retries : nat) (w : world) (s0 : state) : Prop :=
  (forall k,
      1 <= k <= max_retries ->
      (forall j, j < k - 1 -> probe w (clock s0 + j) url 5 = false) ->
      probe w (clock s0 + (k - 1)) url 5 = true ->
      exists new,
        run = (Ok true, with_trace s0 (trace s0 ++ new) (clock s0 + k))
        /\ new = flat_map (waiting_round name url interval max_retries) (seq 0 (k - 1))
                   ++ ready_round name url interval
        /\ count is_sleep new = k
        /\ count is_get new = k)
  /\ ((forall j, j < max_retries -> probe w (clock s0 + j) url 5 = false) ->
      exists new,
        run = (Ok false, with_trace s0 (trace s0 ++ new) (clock s0 + max_retries))
        /\ new = flat_map (waiting_round name url interval max_retries) (seq 0 max_retries)
                   ++ [EvLog "ERROR" (name ++ " failed to start within timeout")]
        /\ count is_sleep new = max_retries
        /\ count is_get new = max_retries).


(** ** Sample worlds *)

(** The text of the error [response.json()] raises on an empty body. *)
Definition no_json : string := "Expecting value: line 1 column 1 (char 0)".

Definition ok200 : http_outcome := Responded (Response 200 None no_json).

Definition refused : http_outcome :=
  RequestRaises (Exn RequestException "connection refused").

Definition sample_world
    (get : nat -> string -> option string -> nat -> http_outcome)
    (run : nat -> list string -> run_outcome) : world :=
  World get run (fun _ _ => true) (fun t _ _ => Launched t) (fun _ _ => None)
        (fun _ => "C:/tools") (fun a b => a ++ "/" ++ b)%string (fun p => p)
        "C:/monitor"
        (fun s => Some (PyFloat s)) (fun z => Some (PyFloat (str_of_Z z ++ ".0")))
        (fun f => match f with PyFloat r => r end)
        (fun _ => "<object>") str_upper.

Definition sc_running (_ : nat) (_ : list string) : run_outcome :=
  Completed "        STATE              : 4  RUNNING".

(** A service that is stopped, and whose start request is accepted. *)
Definition sc_stopped (_ : nat) (args : list string) : run_outcome :=
  if (nth 1 args EmptyString =? "start")%string
  then Completed "        STATE              : 2  START_PENDING"
  else Completed "        STATE              : 1  STOPPED".

Definition world_all_up : world :=
  sample_world (fun _ _ _ _ => ok200) sc_running.

(** Everything answers, except the exporter's metrics URL. *)
Definition world_exporter_unreachable : world :=
  sample_world
    (fun _ url _ _ => if (url =? exporter_url)%string then refused else ok200)
    sc_running.

(** Every URL starts answering at clock [t0]. *)
Definition world_up_from (t0 : nat) : world :=
  sample_world (fun t _ _ _ => if (t0 <=? t)%nat then ok200 else refused) sc_running.

(** No URL ever answers; the exporter service is stopped. *)
Definition world_never_up : world :=
  sample_world (fun _ _ _ _ => refused) sc_stopped.

Definition sample_monitor : monitor :=
  Monitor "C:/tools/prometheus.exe" "C:/tools/alertmanager.exe"
          "C:/monitor/dashboard.html" "C:/monitor/prometheus.yml"
          "C:/monitor/monitoring.log".

Definition metric_payload (value : string) : json :=
  JObj [ ("status", JStr "success");
         ("data",
          JObj [ ("resultType", JStr "vector");
                 ("result",
                  JArr [ JObj [ ("metric", JObj []);
                                ("value", JArr [JFloat (PyFloat "1435781451.781");
                                                JStr value]) ] ]) ]) ].

Definition error_payload : json :=
  JObj [ ("status", JStr "error");
         ("errorType", JStr "bad_data");
         ("error", JStr "invalid query") ].

Definition empty_payload : json :=
  JObj [ ("status", JStr "success");
         ("data", JObj [ ("resultType", JStr "vector"); ("result", JArr []) ]) ].

Definition alerts_payload : json :=
  JObj [ ("status", JStr "success");
         ("data",
          JObj [ ("alerts",
                  JArr [ JObj [ ("labels", JObj [ ("alertname", JStr "HighCPUUsage");
                                                  ("severity", JStr "warning") ]);
                                ("state", JStr "firing") ] ]) ]) ].

(** Metric queries answer in turn with a value, an error payload and an
    empty result; the alerts endpoint answers 200 with a body that is not
    JSON. *)
Definition world_telemetry : world :=
  sample_world
    (fun t url params _ =>
       if (url =? alerts_endpoint)%string then Responded (Response 200 None no_json)
       else match t with
            | 0 => Responded (Response 200 (Some (metric_payload "12.5")) EmptyString)
            | 1 => Responded (Response 400 (Some error_payload) EmptyString)
            | 2 => Responded (Response 200 (Some empty_payload) EmptyString)
            | _ => refused
            end)
    sc_running.

(** The alerts endpoint of Prometheus answers with one firing alert. *)
Definition world_alerting : world :=
  sample_world
    (fun _ url _ _ =>
       if (url =? alerts_endpoint)%string
       then Responded (Response 200 (Some alerts_payload) EmptyString)
       else ok200)
    sc_running.

(** A cold start under [main]: Alertmanager answers from clock 6 on and
    Prometheus from clock 10 on, after each has been launched. *)
Definition world_cold_start : world :=
  sample_world
    (fun t url _ _ =>
       if (url =? alertmanager_url)%string then
         if (6 <=? t)%nat then ok200 else refused
       else if (url =? prometheus_url)%string then
         if (10 <=? t)%nat then ok200 else refused
       else ok200)
    sc_running.

(** The slowest successful start: the exporter has to be started,
    Alertmanager answers on its last attempt and Prometheus on its last. *)
Definition world_slowest : world :=
  sample_world
    (fun t url _ _ =>
       if (url =? alertmanager_url)%string then
         if (14 <=? t)%nat then ok200 else refused
       else if (url =? prometheus_url)%string then
         if (32 <=? t)%nat then ok200 else refused
       else ok200)
    sc_stopped.

(** Only the system-wide installation of Prometheus exists. *)
Definition world_system_prometheus : world :=
  World (fun _ _ _ _ => refused) sc_running
        (fun _ path => (path =? "C:\prometheus\prometheus.exe")%string)
        (fun t _ _ => Launched t) (fun _ _ => None)
        (fun _ => "C:/tools") (fun a b => a ++ "/" ++ b)%string (fun p => p)
        "C:/monitor"
        (fun s => Some (PyFloat s)) (fun z => Some (PyFloat (str_of_Z z ++ ".0")))
        (fun f => match f with PyFloat r => r end)
        (fun _ => "<object>") str_upper.

(** No executable exists and the service manager cannot be run. *)
Definition world_bare : world :=
  World (fun _ _ _ _ => refused)
        (fun _ _ => RunRaises (Exn OSError "sc: command not found"))
        (fun _ _ => false)
        (fun _ _ _ => PopenRaises (Exn OSError "file not found")) (fun _ _ => None)
        (fun _ => "C:/tools") (fun a b => a ++ "/" ++ b)%string (fun p => p)
        "C:/monitor"
        (fun s => Some (PyFloat s)) (fun z => Some (PyFloat (str_of_Z z ++ ".0")))
        (fun f => match f with PyFloat r => r end)
        (fun _ => "<object>") str_upper.

(** Prometheus never answers; everything else does. *)
Definition world_prometheus_down : world :=
  sample_world
    (fun _ url _ _ => if (url =? prometheus_url)%string then refused else ok200)
    sc_running.

(** The executables exist but the system refuses to launch them. *)
Definition world_launch_denied : world :=
  World (fun _ _ _ _ => refused) sc_running
        (fun _ _ => true)
        (fun _ _ _ => PopenRaises (Exn OSError "access denied")) (fun _ _ => None)
        (fun _ => "C:/tools") (fun a b => a ++ "/" ++ b)%string (fun p => p)
        "C:/monitor"
        (fun s => Some (PyFloat s)) (fun z => Some (PyFloat (str_of_Z z ++ ".0")))
        (fun f => match f with PyFloat r => r end)
        (fun _ => "<object>") str_upper.

Definition firing_alert : json :=
  JObj [ ("labels", JObj [ ("alertname", JStr "HighCPUUsage");
                           ("severity", JStr "warning") ]);
         ("state", JStr "firing") ].

(** An alert without [state] between two plain ones. *)
Definition broken_alerts_payload : json :=
  JObj [ ("status", JStr "success");
         ("data",
          JObj [ ("alerts",
                  JArr [ firing_alert;
                         JObj [ ("labels", JObj [ ("alertname", JStr "DiskFull") ]) ];
                         firing_alert ]) ]) ].

Definition world_broken_alert : world :=
  sample_world
    (fun _ _ _ _ => Responded (Response 200 (Some broken_alerts_payload) EmptyString))
    sc_running.

(** The browser cannot be started. *)
Definition world_no_browser : world :=
  World (fun _ _ _ _ => ok200) sc_running (fun _ _ => true)
        (fun t _ _ => Launched t)
        (fun _ _ => Some (Exn OtherException "could not locate runnable browser"))
        (fun _ => "C:/tools") (fun a b => a ++ "/" ++ b)%string (fun p => p)
        "C:/monitor"
        (fun s => Some (PyFloat s)) (fun z => Some (PyFloat (str_of_Z z ++ ".0")))
        (fun f => match f with PyFloat r => r end)
        (fun _ => "<object>") str_upper.

(** A metric answer whose value is not a number. *)
Definition world_bad_value : world :=
  World (fun _ _ _ _ => Responded (Response 200 (Some (metric_payload "n/a")) EmptyString))
        sc_running (fun _ _ => true)
        (fun t _ _ => Launched t) (fun _ _ => None)
        (fun _ => "C:/tools") (fun a b => a ++ "/" ++ b)%string (fun p => p)
        "C:/monitor"
        (fun _ => None) (fun z => Some (PyFloat (str_of_Z z ++ ".0")))
        (fun f => match f with PyFloat r => r end)
        (fun _ => "<object>") str_upper.



(** Every request is interrupted from the keyboard. *)
Definition world_interrupted : world :=
  sample_world (fun _ _ _ _ => RequestRaises (Exn KeyboardInterrupt EmptyString))
    sc_running.


(** [e] with an acute accent: one character, two bytes. *)
Definition e_acute : string :=
  String (ascii_of_nat 195) (String (ascii_of_nat 169) EmptyString).

(** * Properties *)

(** ** Running the monad *)

Lemma bind_ok {A B} (m : M A) (k : A -> M B) (w : world) (s s' : state) (a : A) :
  m w s = (Ok a, s') -> bind m k w s = k a w s'.
Proof.
  intros H. unfold bind. now rewrite H.
Qed.

Lemma bind_raise {A B} (m : M A) (k : A -> M B) (w : world) (s s' : state) (e : exn) :
  m w s = (Raise e, s') -> bind m k w s = (Raise e, s').
Proof.
  intros H. unfold bind. now rewrite H.
Qed.

Lemma try_except_ok {A} (m : M A) (c : exn -> bool) (h : exn -> M A)
    (w : world) (s s' : state) (a : A) :
  m w s = (Ok a, s') -> try_except m c h w s = (Ok a, s').
Proof.
  intros H. unfold try_except. now rewrite H.
Qed.

Lemma emit_eq (ev : event) (w : world) (s : state) :
  emit ev w s = (Ok tt, with_trace s (trace s ++ [ev]) (clock s)).
Proof. reflexivity. Qed.

Lemma log_message_eq (message status : string) (w : world) (s : state) :
  log_message message status w s
  = (Ok tt, with_trace s (trace s ++ [EvLog status message]) (clock s)).
Proof. reflexivity. Qed.

Lemma time_sleep_eq (seconds : nat) (w : world) (s : state) :
  time_sleep seconds w s
  = (Ok tt, with_trace s (trace s ++ [EvSleep seconds]) (clock s)).
Proof. reflexivity. Qed.

Lemma print_eq (line : string) (w : world) (s : state) :
  print line w s = (Ok tt, with_trace s (trace s ++ [EvPrint line]) (clock s)).
Proof. reflexivity. Qed.

Lemma ask_eq {A} (f : world -> A) (w : world) (s : state) :
  ask f w s = (Ok (f w), s).
Proof. reflexivity. Qed.

Lemma ret_eq {A} (a : A) (w : world) (s : state) : ret a w s = (Ok a, s).
Proof. reflexivity. Qed.

Lemma clock_with_trace (s : state) (tr : list event) (t : nat) :
  clock (with_trace s tr t) = t.
Proof. reflexivity. Qed.

Lemma trace_with_trace (s : state) (tr : list event) (t : nat) :
  trace (with_trace s tr t) = tr.
Proof. reflexivity. Qed.

Lemma prometheus_process_with_trace (s : state) (tr : list event) (t : nat) :
  prometheus_process (with_trace s tr t) = prometheus_process s.
Proof. reflexivity. Qed.

Lemma alertmanager_process_with_trace (s : state) (tr : list event) (t : nat) :
  alertmanager_process (with_trace s tr t) = alertmanager_process s.
Proof. reflexivity. Qed.

Lemma with_trace_twice (s : state) (tr tr' : list event) (t t' : nat) :
  with_trace (with_trace s tr t) tr' t' = with_trace s tr' t'.
Proof. reflexivity. Qed.

Create Rewrite HintDb run.
#[local] Hint Rewrite clock_with_trace trace_with_trace with_trace_twice
  prometheus_process_with_trace alertmanager_process_with_trace : run.
#[local] Hint Rewrite <- app_assoc : run.

(** ** The probe *)

Lemma check_url_accessible_eq (url : string) (timeout : nat) (w : world) (s : state) :
  check_url_accessible url timeout w s
  = (Ok (probe w (clock s) url timeout),
     with_trace s (trace s ++ [EvGet url None timeout]) (S (clock s))).
Proof.
  unfold check_url_accessible, try_except, bind, requests_get_call, external,
    probe, ret, with_trace.
  destruct (requests_get w (clock s) url None timeout); reflexivity.
Qed.

(** One statement of the program, run from the current state. *)
Ltac run_step :=
  match goal with
  | |- context [bind (log_message ?m ?st) ?k ?w ?s] =>
      rewrite (bind_ok _ k w s _ _ (log_message_eq m st w s))
  | |- context [bind (time_sleep ?n) ?k ?w ?s] =>
      rewrite (bind_ok _ k w s _ _ (time_sleep_eq n w s))
  | |- context [bind (print ?l) ?k ?w ?s] =>
      rewrite (bind_ok _ k w s _ _ (print_eq l w s))
  | |- context [bind (ask ?f) ?k ?w ?s] =>
      rewrite (bind_ok _ k w s _ _ (ask_eq f w s))
  | |- context [bind (check_url_accessible ?u ?t) ?k ?w ?s] =>
      rewrite (bind_ok _ k w s _ _ (check_url_accessible_eq u t w s))
  | |- context [log_message ?m ?st ?w ?s] => rewrite (log_message_eq m st w s)
  | |- context [print ?l ?w ?s] => rewrite (print_eq l w s)
  | |- context [ret ?a ?w ?s] => rewrite (ret_eq a w s)
  end; autorewrite with run.

(** C5. For every URL and timeout, [check_url_accessible] issues one GET and
    returns normally: [True] exactly when the request completes with status
    200, [False] on every exception of the request (interrupts included, the
    [except] is bare) and on every other status. *)
Theorem check_url_accessible_total (url : string) (timeout : nat) (w : world) (s : state) :
  exists b : bool,
    fst (check_url_accessible url timeout w s) = Ok b
    /\ (b = true <->
        exists r, requests_get w (clock s) url None timeout = Responded r
                  /\ status_code r = 200%Z)
    /\ (forall e, requests_get w (clock s) url None timeout = RequestRaises e ->
                  b = false)
    /\ (forall r, requests_get w (clock s) url None timeout = Responded r ->
                  status_code r <> 200%Z -> b = false)
    /\ trace (snd (check_url_accessible url timeout w s))
       = trace s ++ [EvGet url None timeout].
Proof.
  exists (probe w (clock s) url timeout).
  rewrite check_url_accessible_eq. simpl. unfold probe.
  destruct (requests_get w (clock s) url None timeout) as [r | e].
  - repeat split.
    + intros H. exists r. split; [reflexivity | now apply Z.eqb_eq].
    + intros [r' [Hr Hs]]. injection Hr as <-. now apply Z.eqb_eq.
    + intros e He. discriminate He.
    + intros r' Hr Hs. injection Hr as <-. now apply Z.eqb_neq.
  - repeat split.
    + intros H. discriminate H.
    + intros [r' [Hr _]]. discriminate Hr.
Qed.

(** ** The retry loop *)

Lemma count_app (p : event -> bool) (l1 l2 : list event) :
  count p (l1 ++ l2) = count p l1 + count p l2.
Proof.
  unfold count. now rewrite filter_app, length_app.
Qed.

Lemma count_waiting_rounds (p : event -> bool) (name url : string)
    (interval max_retries : nat) (range : list nat) :
  p (EvSleep interval) = true \/ p (EvGet url None 5) = true ->
  p (EvSleep interval) && p (EvGet url None 5) = false ->
  (forall st msg, p (EvLog st msg) = false) ->
  count p (flat_map (waiting_round name url interval max_retries) range)
  = List.length range.
Proof.
  intros Hone Hnot Hlog. induction range as [| i range IH]; [reflexivity |].
  cbn [flat_map]. rewrite count_app, IH. unfold count, waiting_round.
  cbn [filter]. rewrite Hlog.
  destruct (p (EvSleep interval)), (p (EvGet url None 5));
    simpl in *; try reflexivity; try discriminate; destruct Hone; discriminate.
Qed.

(** Every probe of the remaining rounds fails: the loop runs them all. *)
Lemma poll_from_exhausted (name url : string) (interval max_retries : nat)
    (w : world) (range : list nat) :
  forall s,
    (forall j, j < List.length range -> probe w (clock s + j) url 5 = false) ->
    poll_from name url interval max_retries range w s
    = (Ok false,
       with_trace s
         (trace s ++ flat_map (waiting_round name url interval max_retries) range
            ++ [EvLog "ERROR" (name ++ " failed to start within timeout")])
         (clock s + List.length range)).
Proof.
  induction range as [| i range IH]; intros s Hfail.
  - cbn [poll_from flat_map List.length app]. repeat run_step.
    now rewrite Nat.add_0_r.
  - cbn [poll_from]. do 2 run_step.
    assert (H0 : probe w (clock s) url 5 = false)
      by (rewrite <- (Nat.add_0_r (clock s)); apply Hfail; simpl; lia).
    rewrite H0.
    run_step. rewrite IH; autorewrite with run.
    + cbn [flat_map List.length]. unfold waiting_round at 2.
      autorewrite with run. cbn [app]. do 2 f_equal. lia.
    + intros j Hj. replace (S (clock s) + j) with (clock s + S j) by lia.
      apply Hfail. simpl. lia.
Qed.

(** The probes of the rounds in [pre] fail and the next one succeeds: the
    loop stops there. *)
Lemma poll_from_ready (name url : string) (interval max_retries : nat)
    (w : world) (pre : list nat) (i : nat) (post : list nat) :
  forall s,
    (forall j, j < List.length pre -> probe w (clock s + j) url 5 = false) ->
    probe w (clock s + List.length pre) url 5 = true ->
    poll_from name url interval max_retries (pre ++ i :: post) w s
    = (Ok true,
       with_trace s
         (trace s ++ flat_map (waiting_round name url interval max_retries) pre
            ++ ready_round name url interval)
         (clock s + S (List.length pre))).
Proof.
  induction pre as [| i0 pre IH]; intros s Hfail Hok.
  - cbn [app poll_from flat_map List.length] in *. do 2 run_step.
    rewrite Nat.add_0_r in Hok. rewrite Hok. repeat run_step.
    unfold ready_round. cbn [app]. do 2 f_equal. lia.
  - cbn [app poll_from]. do 2 run_step.
    assert (H0 : probe w (clock s) url 5 = false)
      by (rewrite <- (Nat.add_0_r (clock s)); apply Hfail; simpl; lia).
    rewrite H0.
    run_step. rewrite IH; autorewrite with run.
    + cbn [flat_map List.length]. unfold waiting_round at 2.
      autorewrite with run. cbn [app]. do 2 f_equal. lia.
    + intros j Hj. replace (S (clock s) + j) with (clock s + S j) by lia.
      apply Hfail. simpl. lia.
    + replace (S (clock s) + List.length pre)
        with (clock s + List.length (i0 :: pre)) by (simpl; lia).
      exact Hok.
Qed.

Lemma seq_split (k n : nat) :
  1 <= k <= n -> seq 0 n = seq 0 (k - 1) ++ (k - 1) :: seq k (n - k).
Proof.
  intros Hk. replace n with ((k - 1) + S (n - k)) at 1 by lia.
  rewrite seq_app. cbn [seq Nat.add]. now replace (S (k - 1)) with k by lia.
Qed.

(** The shared loop, for every interval and attempt ceiling. *)
Lemma wait_for_start_exact (name url : string) (interval max_retries : nat)
    (w : world) (s : state) :
  (forall k,
      1 <= k <= max_retries ->
      (forall j, j < k - 1 -> probe w (clock s + j) url 5 = false) ->
      probe w (clock s + (k - 1)) url 5 = true ->
      exists new,
        wait_for_start name url interval max_retries w s
        = (Ok true, with_trace s (trace s ++ new) (clock s + k))
        /\ new = flat_map (waiting_round name url interval max_retries) (seq 0 (k - 1))
                   ++ ready_round name url interval
        /\ count is_sleep new = k
        /\ count is_get new = k)
  /\ ((forall j, j < max_retries -> probe w (clock s + j) url 5 = false) ->
      exists new,
        wait_for_start name url interval max_retries w s
        = (Ok false, with_trace s (trace s ++ new) (clock s + max_retries))
        /\ new = flat_map (waiting_round name url interval max_retries) (seq 0 max_retries)
                   ++ [EvLog "ERROR" (name ++ " failed to start within timeout")]
        /\ count is_sleep new = max_retries
        /\ count is_get new = max_retries).
Proof.
  split.
  - intros k Hk Hfail Hok. eexists. split; [| split; [reflexivity |]].
    + unfold wait_for_start. rewrite (seq_split k max_retries Hk).
      rewrite poll_from_ready; rewrite ?length_seq; auto.
      do 2 f_equal. lia.
    + rewrite !count_app, !count_waiting_rounds, length_seq by (simpl; auto).
      unfold count, ready_round. simpl. lia.
  - intros Hfail. eexists. split; [| split; [reflexivity |]].
    + unfold wait_for_start. rewrite poll_from_exhausted; rewrite ?length_seq; auto.
    + rewrite !count_app, !count_waiting_rounds, length_seq by (simpl; auto).
      unfold count. simpl. lia.
Qed.

(** ** The launch path of the two process stages *)

Lemma poll_from_total (name url : string) (interval max_retries : nat)
    (w : world) (range : list nat) :
  forall s, exists b s', poll_from name url interval max_retries range w s = (Ok b, s').
Proof.
  induction range as [| i range IH]; intros s; cbn [poll_from].
  - run_step. run_step. eexists. eexists. reflexivity.
  - do 2 run_step. destruct (probe w (clock s) url 5).
    + run_step. run_step. eexists. eexists. reflexivity.
    + run_step. apply IH.
Qed.

(** When Alertmanager does not answer and its executable exists and is
    launched, [start_alertmanager] stores the handle and returns what the
    retry loop with ceiling 10 and interval 2 returns. *)
Lemma start_alertmanager_polls (self : monitor) (w : world) (s : state) (h : handle) :
  let dir := os_path_dirname w (alertmanager_path self) in
  let cmd := [alertmanager_path self;
              ("--config.file=" ++ os_path_join w dir "alertmanager.yml")%string] in
  probe w (clock s) alertmanager_url 5 = false ->
  os_path_exists w (S (clock s)) (alertmanager_path self) = true ->
  subprocess_Popen w (S (S (clock s))) cmd dir = Launched h ->
  start_alertmanager self w s
  = wait_for_start "Alertmanager" alertmanager_url 2 10 w
      (State (S (S (S (clock s))))
         (trace s ++ [ EvLog "INFO" "Checking Alertmanager...";
                       EvGet alertmanager_url None 5;
                       EvExists (alertmanager_path self);
                       EvLog "INFO" "Starting Alertmanager...";
                       EvPopen cmd dir ])
         (prometheus_process s) (Some h)).
Proof.
  intros dir cmd Hdown Hexists Hlaunch.
  unfold start_alertmanager. do 2 run_step. rewrite Hdown.
  unfold bind at 1, os_path_exists_call, external. autorewrite with run.
  rewrite Hexists. cbn [negb]. run_step.
  match goal with
  | |- try_except ?m ?c ?hd w ?s0 = ?rhs =>
      assert (Hbody : m w s0 = rhs)
  end.
  { do 2 run_step. fold dir. fold cmd.
    unfold bind at 1, subprocess_Popen_call, external. autorewrite with run.
    cbn [clock trace prometheus_process alertmanager_process].
    rewrite Hlaunch. unfold bind at 1, set_alertmanager_process.
    unfold with_trace. cbn [clock trace prometheus_process alertmanager_process].
    rewrite <- !app_assoc. reflexivity. }
  destruct (poll_from_total "Alertmanager" alertmanager_url 2 10 w (seq 0 10)
              (State (S (S (S (clock s))))
                 (trace s ++ [ EvLog "INFO" "Checking Alertmanager...";
                               EvGet alertmanager_url None 5;
                               EvExists (alertmanager_path self);
                               EvLog "INFO" "Starting Alertmanager...";
                               EvPopen cmd dir ])
                 (prometheus_process s) (Some h))) as [b [s' Hpoll]].
  unfold wait_for_start in *. rewrite Hpoll in *.
  now apply try_except_ok.
Qed.

(** The same for [start_prometheus], with ceiling 15. *)
Lemma start_prometheus_polls (self : monitor) (w : world) (s : state) (h : handle) :
  let dir := os_path_dirname w (prometheus_path self) in
  let cwd := if (dir =? EmptyString)%string then os_getcwd w else dir in
  let cmd := [prometheus_path self;
              ("--config.file=" ++ config_file self)%string] in
  probe w (clock s) prometheus_url 5 = false ->
  os_path_exists w (S (clock s)) (prometheus_path self) = true ->
  subprocess_Popen w (S (S (clock s))) cmd cwd = Launched h ->
  start_prometheus self w s
  = wait_for_start "Prometheus" prometheus_url 2 15 w
      (State (S (S (S (clock s))))
         (trace s ++ [ EvLog "INFO" "Checking Prometheus...";
                       EvGet prometheus_url None 5;
                       EvExists (prometheus_path self);
                       EvLog "INFO" "Starting Prometheus...";
                       EvPopen cmd cwd ])
         (Some h) (alertmanager_process s)).
Proof.
  intros dir cwd cmd Hdown Hexists Hlaunch.
  unfold start_prometheus. do 2 run_step. rewrite Hdown.
  unfold bind at 1, os_path_exists_call, external. autorewrite with run.
  rewrite Hexists. cbn [negb]. run_step.
  match goal with
  | |- try_except ?m ?c ?hd w ?s0 = ?rhs =>
      assert (Hbody : m w s0 = rhs)
  end.
  { do 2 run_step. fold dir. fold cwd. fold cmd.
    unfold bind at 1, subprocess_Popen_call, external. autorewrite with run.
    cbn [clock trace prometheus_process alertmanager_process].
    rewrite Hlaunch. unfold bind at 1, set_prometheus_process.
    unfold with_trace. cbn [clock trace prometheus_process alertmanager_process].
    rewrite <- !app_assoc. reflexivity. }
  destruct (poll_from_total "Prometheus" prometheus_url 2 15 w (seq 0 15)
              (State (S (S (S (clock s))))
                 (trace s ++ [ EvLog "INFO" "Checking Prometheus...";
                               EvGet prometheus_url None 5;
                               EvExists (prometheus_path self);
                               EvLog "INFO" "Starting Prometheus...";
                               EvPopen cmd cwd ])
                 (Some h) (alertmanager_process s))) as [b [s' Hpoll]].
  unfold wait_for_start in *. rewrite Hpoll in *.
  now apply try_except_ok.
Qed.

(** C1. The retry loops of [start_alertmanager] (interval 2, ceiling 10) and
    of [start_prometheus] (interval 2, ceiling 15), and the loop they share
    for every interval and ceiling: once the process is launched, the method
    returns [True] after exactly [k] sleep-then-probe rounds when the probe
    first succeeds on attempt [k] within the ceiling, and [False] after
    exactly as many rounds as the ceiling when no probe succeeds; the clock
    shows that no other external call was made. *)
Theorem readiness_poll_exact :
  (forall name url interval max_retries w s,
      polls_exactly (wait_for_start name url interval max_retries w s)
        name url interval max_retries w s)
  /\ (forall self w s h,
        probe w (clock s) alertmanager_url 5 = false ->
        os_path_exists w (S (clock s)) (alertmanager_path self) = true ->
        subprocess_Popen w (S (S (clock s)))
          [alertmanager_path self;
           ("--config.file="
              ++ os_path_join w (os_path_dirname w (alertmanager_path self))
                   "alertmanager.yml")%string]
          (os_path_dirname w (alertmanager_path self))
        = Launched h ->
        polls_exactly (start_alertmanager self w s)
          "Alertmanager" alertmanager_url 2 10 w (alertmanager_launched self w s h))
  /\ (forall self w s h,
        probe w (clock s) prometheus_url 5 = false ->
        os_path_exists w (S (clock s)) (prometheus_path self) = true ->
        subprocess_Popen w (S (S (clock s)))
          [prometheus_path self; ("--config.file=" ++ config_file self)%string]
          (if (os_path_dirname w (prometheus_path self) =? EmptyString)%string
           then os_getcwd w
           else os_path_dirname w (prometheus_path self))
        = Launched h ->
        polls_exactly (start_prometheus self w s)
          "Prometheus" prometheus_url 2 15 w (prometheus_launched self w s h)).
Proof.
  split; [| split].
  - intros name url interval max_retries w s. apply wait_for_start_exact.
  - intros self w s h Hdown Hexists Hlaunch.
    rewrite (start_alertmanager_polls self w s h Hdown Hexists Hlaunch).
    apply wait_for_start_exact.
  - intros self w s h Hdown Hexists Hlaunch.
    rewrite (start_prometheus_polls self w s h Hdown Hexists Hlaunch).
    apply wait_for_start_exact.
Qed.

Lemma readiness_poll_exact_witness :
  fst (start_alertmanager sample_monitor (world_up_from 5) init_state) = Ok true
  /\ clock (snd (start_alertmanager sample_monitor (world_up_from 5) init_state)) = 6
  /\ fst (start_prometheus sample_monitor world_never_up init_state) = Ok false
  /\ clock (snd (start_prometheus sample_monitor world_never_up init_state)) = 18.
Proof.
  destruct readiness_poll_exact as [_ [Ham Hprom]].
  destruct (Ham sample_monitor (world_up_from 5) init_state 2) as [Hready _];
    [reflexivity | reflexivity | reflexivity |].
  destruct (Hprom sample_monitor world_never_up init_state 2) as [_ Htimeout];
    [reflexivity | reflexivity | reflexivity |].
  destruct (Hready 3) as [new [Hrun _]].
  - lia.
  - intros j Hj. destruct j as [| [| j]]; [reflexivity | reflexivity | simpl in Hj; lia].
  - reflexivity.
  - destruct Htimeout as [new' [Hrun' _]].
    + intros j Hj. reflexivity.
    + rewrite Hrun, Hrun'. repeat split.
Defined.

(** ** Strings *)

Lemma py_len_counts_characters :
  py_len ("Caf" ++ e_acute) = 4
  /\ ljust20 ("Caf" ++ e_acute) = ("Caf" ++ e_acute ++ str_repeat " " 16)%string
  /\ index (JStr ("Caf" ++ e_acute ++ "s")) 3 = Ok (JStr e_acute)
  /\ index (JStr ("Caf" ++ e_acute ++ "s")) 4 = Ok (JStr "s").
Proof.
  repeat split; vm_compute; reflexivity.
Qed.

Lemma chars_from_concat (s : string) :
  (fst (chars_from s) ++ String.concat EmptyString (snd (chars_from s)))%string = s.
Proof.
  induction s as [| c s IH]; [reflexivity |].
  cbn [chars_from]. destruct (chars_from s) as [pending cs].
  cbn [fst snd] in IH. destruct (is_continuation c); cbn [fst snd].
  - cbn [append]. now rewrite IH.
  - destruct cs as [| c' cs]; cbn [String.concat append] in *.
    + rewrite <- IH. clear IH. f_equal.
      induction pending as [| a pending IHp]; [reflexivity |].
      cbn [append]. now rewrite <- IHp.
    + now rewrite IH.
Qed.

(** ** Footprints: what each method may emit and which handles it may set *)

Lemma handle_step_refl (b : bool) (h : option handle) : handle_step b h h.
Proof. now left. Qed.

Lemma handle_step_trans (b : bool) (h1 h2 h3 : option handle) :
  handle_step b h1 h2 -> handle_step b h2 h3 -> handle_step b h1 h3.
Proof.
  intros H12 [-> | H23]; [exact H12 | now right].
Qed.

Lemma handle_step_weaken (b b' : bool) (h h' : option handle) :
  (b = true -> b' = true) -> handle_step b h h' -> handle_step b' h h'.
Proof.
  intros Hb [-> | [Ht Hn]]; [now left | right; auto].
Qed.

Lemma handle_step_frozen (h h' : option handle) : handle_step false h h' -> h' = h.
Proof.
  intros [-> | [Hf _]]; [reflexivity | discriminate Hf].
Qed.

Lemma handle_step_populated (b : bool) (h h' : option handle) :
  handle_step b h h' -> h <> None -> h' <> None.
Proof.
  intros [-> | [_ Hn]] Hh; assumption.
Qed.

Section Footprint.
Variable P : event -> Prop.
Variables lp la : bool.

Lemma extends_refl (s : state) : extends P lp la s s.
Proof.
  split; [| split; apply handle_step_refl].
  exists []. now rewrite app_nil_r.
Qed.

Lemma extends_trans (s1 s2 s3 : state) :
  extends P lp la s1 s2 -> extends P lp la s2 s3 -> extends P lp la s1 s3.
Proof.
  intros [[n1 [E1 F1]] [Hp1 Ha1]] [[n2 [E2 F2]] [Hp2 Ha2]].
  split; [| split; eapply handle_step_trans; eassumption].
  exists (n1 ++ n2). split.
  - now rewrite E2, E1, app_assoc.
  - apply Forall_app. now split.
Qed.

Lemma respects_ret {A} (a : A) : respects P lp la (ret a).
Proof. intros w s. apply extends_refl. Qed.

Lemma respects_raise {A} (e : exn) : respects P lp la (@raise A e).
Proof. intros w s. apply extends_refl. Qed.

Lemma respects_lift {A} (r : result A) : respects P lp la (lift r).
Proof. intros w s. apply extends_refl. Qed.

Lemma respects_ask {A} (f : world -> A) : respects P lp la (ask f).
Proof. intros w s. apply extends_refl. Qed.

Lemma respects_ask_result {A} (f : world -> result A) :
  respects P lp la (ask_result f).
Proof. intros w s. apply extends_refl. Qed.

Lemma respects_get_prometheus_process : respects P lp la get_prometheus_process.
Proof. intros w s. apply extends_refl. Qed.

Lemma respects_get_alertmanager_process : respects P lp la get_alertmanager_process.
Proof. intros w s. apply extends_refl. Qed.

Lemma respects_bind {A B} (m : M A) (k : A -> M B) :
  respects P lp la m -> (forall a, respects P lp la (k a)) ->
  respects P lp la (bind m k).
Proof.
  intros Hm Hk w s. unfold bind. specialize (Hm w s).
  destruct (m w s) as [[a | e] s1]; simpl in Hm.
  - eapply extends_trans; [exact Hm | apply Hk].
  - exact Hm.
Qed.

Lemma respects_try_except {A} (m : M A) (c : exn -> bool) (h : exn -> M A) :
  respects P lp la m -> (forall e, respects P lp la (h e)) ->
  respects P lp la (try_except m c h).
Proof.
  intros Hm Hh w s. unfold try_except. specialize (Hm w s).
  destruct (m w s) as [[a | e] s1]; simpl in Hm.
  - exact Hm.
  - destruct (c e).
    + eapply extends_trans; [exact Hm | apply Hh].
    + exact Hm.
Qed.

Lemma respects_emit (ev : event) : P ev -> respects P lp la (emit ev).
Proof.
  intros Hev w s. split; [| split; apply handle_step_refl].
  exists [ev]. split; [reflexivity | now constructor].
Qed.

Lemma respects_external {A} (ev : event) (answer : world -> nat -> result A) :
  P ev -> respects P lp la (external ev answer).
Proof.
  intros Hev w s. split; [| split; apply handle_step_refl].
  exists [ev]. split; [reflexivity | now constructor].
Qed.

Lemma respects_set_prometheus_process (h : handle) :
  lp = true -> respects P lp la (set_prometheus_process h).
Proof.
  intros Hl w s. split; [| split; [| apply handle_step_refl]].
  - exists []. now rewrite app_nil_r.
  - right. split; [exact Hl | discriminate].
Qed.

Lemma respects_set_alertmanager_process (h : handle) :
  la = true -> respects P lp la (set_alertmanager_process h).
Proof.
  intros Hl w s. split; [| split; [apply handle_step_refl |]].
  - exists []. now rewrite app_nil_r.
  - right. split; [exact Hl | discriminate].
Qed.
End Footprint.

Lemma respects_weaken (P P' : event -> Prop) (lp la lp' la' : bool) {A} (m : M A) :
  respects P lp la m ->
  (forall ev, P ev -> P' ev) ->
  (lp = true -> lp' = true) -> (la = true -> la' = true) ->
  respects P' lp' la' m.
Proof.
  intros Hm HP Hlp Hla w s. destruct (Hm w s) as [[new [E F]] [Hp Ha]].
  split; [| split; eapply handle_step_weaken; eassumption].
  exists new. split; [exact E |]. eapply Forall_impl; eassumption.
Qed.

(** Decomposes a footprint goal along the structure of the program. *)
Ltac footprint :=
  repeat lazymatch goal with
    | |- respects _ _ _ (bind _ _) => apply respects_bind; [| intro]
    | |- respects _ _ _ (try_except _ _ _) => apply respects_try_except; [| intro]
    | |- respects _ _ _ (ret _) => apply respects_ret
    | |- respects _ _ _ (raise _) => apply respects_raise
    | |- respects _ _ _ (lift _) => apply respects_lift
    | |- respects _ _ _ (ask _) => apply respects_ask
    | |- respects _ _ _ (ask_result _) => apply respects_ask_result
    | |- respects _ _ _ get_prometheus_process => apply respects_get_prometheus_process
    | |- respects _ _ _ get_alertmanager_process => apply respects_get_alertmanager_process
    | |- respects _ _ _ (set_prometheus_process _) =>
        apply respects_set_prometheus_process; reflexivity
    | |- respects _ _ _ (set_alertmanager_process _) =>
        apply respects_set_alertmanager_process; reflexivity
    | |- respects _ _ _ (log_message _ _) => apply respects_emit
    | |- respects _ _ _ (print _) => apply respects_emit
    | |- respects _ _ _ (emit _) => apply respects_emit
    | |- respects _ _ _ (time_sleep _) => apply respects_emit
    | |- respects _ _ _ (terminate _) => apply respects_emit
    | |- respects _ _ _ (external _ _) => apply respects_external
    | |- respects _ _ _ (if ?b then _ else _) => destruct b
    | |- respects _ _ _ (match ?x with Some _ => _ | None => _ end) => destruct x
    end.

Lemma check_service_running_footprint (name : string) :
  respects (fun ev => ev = EvRun ["sc"; "query"; name] \/ is_log ev) false false
    (check_service_running name).
Proof.
  unfold check_service_running, subprocess_run_call. footprint;
    solve [now left | now right].
Qed.

Lemma start_windows_exporter_footprint :
  respects exporter_event false false start_windows_exporter.
Proof.
  unfold start_windows_exporter, subprocess_run_call. footprint;
    try exact I; try reflexivity; try (simpl; now right).
  eapply respects_weaken; [apply check_service_running_footprint | | auto ..].
  intros ev [-> | Hlog]; [simpl; now left | now destruct ev].
Qed.

Lemma check_url_accessible_footprint (url : string) (timeout : nat) :
  respects (fun ev => ev = EvGet url None timeout) false false
    (check_url_accessible url timeout).
Proof.
  unfold check_url_accessible, requests_get_call. footprint. reflexivity.
Qed.

Ltac use_footprint lem :=
  eapply respects_weaken;
  [ apply lem | | intros H; first [exact H | reflexivity | discriminate H] .. ].

Lemma poll_from_footprint (exe name url : string) (max_retries : nat)
    (lp la : bool) (range : list nat) :
  respects (stage_event exe url) lp la (poll_from name url 2 max_retries range).
Proof.
  induction range as [| i range IH]; cbn [poll_from]; footprint;
    try exact I; try reflexivity; try exact IH.
  use_footprint (check_url_accessible_footprint url 5).
  intros ev ->. simpl. auto.
Qed.

Lemma start_alertmanager_footprint (self : monitor) :
  respects (stage_event (alertmanager_path self) alertmanager_url) false true
    (start_alertmanager self).
Proof.
  unfold start_alertmanager, wait_for_start, os_path_exists_call,
    subprocess_Popen_call.
  footprint; try exact I; try reflexivity; try apply poll_from_footprint.
  - use_footprint (check_url_accessible_footprint alertmanager_url 5).
    intros ev ->. simpl. auto.
  - simpl. eexists. reflexivity.
Qed.

Lemma start_prometheus_footprint (self : monitor) :
  respects (stage_event (prometheus_path self) prometheus_url) true false
    (start_prometheus self).
Proof.
  unfold start_prometheus, wait_for_start, os_path_exists_call,
    subprocess_Popen_call.
  footprint; try exact I; try reflexivity; try apply poll_from_footprint.
  - use_footprint (check_url_accessible_footprint prometheus_url 5).
    intros ev ->. simpl. auto.
  - simpl. eexists. reflexivity.
Qed.

Lemma verify_loop_footprint (items : list (string * string)) (all_ok : bool) :
  (forall name url, In (name, url) items ->
                    In url [exporter_url; prometheus_url; alertmanager_url]) ->
  respects probe_event false false (verify_loop items all_ok).
Proof.
  revert all_ok. induction items as [| [name url] items IH]; intros all_ok Hin;
    cbn [verify_loop]; footprint; try exact I;
    try (apply IH; intros n u Hu; apply (Hin n u); now right).
  use_footprint (check_url_accessible_footprint url 5).
  intros ev ->. simpl. split; [| auto]. apply (Hin name url). now left.
Qed.

Lemma verify_services_footprint : respects probe_event false false verify_services.
Proof.
  unfold verify_services. footprint; try exact I.
  apply verify_loop_footprint. intros name url Hin. simpl in Hin. simpl.
  intuition congruence.
Qed.

Lemma stop_services_footprint : respects shutdown_event false false stop_services.
Proof.
  unfold stop_services. footprint; exact I.
Qed.

Lemma fetch_metric_footprint (name query : string) :
  In (name, query) queries ->
  respects metrics_event false false (fetch_metric name query).
Proof.
  intros Hin. unfold fetch_metric, requests_get_call. footprint; try exact I.
  simpl. split; [reflexivity | split; [| reflexivity]].
  exists name, query. now split.
Qed.

Lemma metrics_loop_footprint (items : list (string * string)) :
  (forall name query, In (name, query) items -> In (name, query) queries) ->
  respects metrics_event false false (metrics_loop items).
Proof.
  induction items as [| [name query] items IH]; intros Hin;
    cbn [metrics_loop]; footprint.
  - apply fetch_metric_footprint. apply Hin. now left.
  - apply IH. intros n q Hq. apply Hin. now right.
Qed.

Lemma get_system_metrics_footprint :
  respects metrics_event false false get_system_metrics.
Proof.
  unfold get_system_metrics. footprint; try exact I.
  apply metrics_loop_footprint. auto.
Qed.

Lemma print_alert_footprint (alert : json) :
  respects is_print false false (print_alert alert).
Proof.
  unfold print_alert. footprint. exact I.
Qed.

Lemma alerts_loop_footprint (alerts : list json) :
  respects is_print false false (alerts_loop alerts).
Proof.
  induction alerts as [| alert alerts IH]; cbn [alerts_loop]; footprint.
  - apply print_alert_footprint.
  - exact IH.
Qed.

Lemma check_alerts_footprint : respects alerts_event false false check_alerts.
Proof.
  unfold check_alerts, requests_get_call, alerts_endpoint.
  footprint; try exact I.
  - simpl. auto.
  - use_footprint alerts_loop_footprint. intros ev Hev. now destruct ev.
Qed.

(** A [try] block that starts with an external call: the call comes first
    in the trace, whatever follows. *)
Lemma external_first {A B} (ev : event) (answer : world -> nat -> result A)
    (k : A -> M B) (c : exn -> bool) (h : exn -> M B) (P : event -> Prop) :
  (forall a, respects P false false (k a)) ->
  (forall e, respects P false false (h e)) ->
  forall w s,
    exists rest,
      trace (snd (try_except (bind (external ev answer) k) c h w s))
      = trace s ++ ev :: rest
      /\ Forall P rest.
Proof.
  intros Hk Hh w s.
  assert (Hshape : forall s1 (m : M B),
             trace s1 = trace s ++ [ev] ->
             respects P false false m ->
             exists rest, trace (snd (m w s1)) = trace s ++ ev :: rest /\ Forall P rest).
  { intros s1 m E Hm. destruct (Hm w s1) as [[new [En Fn]] _].
    exists new. split; [| exact Fn]. rewrite En, E, <- app_assoc. reflexivity. }
  unfold try_except, bind, external.
  destruct (answer w (clock s)) as [a | e].
  - apply (Hshape _ (try_except (k a) c h)); [reflexivity |].
    now apply respects_try_except.
  - destruct (c e).
    + apply (Hshape _ (h e)); [reflexivity | apply Hh].
    + exists []. split; [reflexivity | constructor].
Qed.

(** ** The startup pipeline *)

Lemma verify_services_eq (w : world) (s : state) :
  verify_services w s
  = (Ok (probe w (clock s) exporter_url 5
         && probe w (clock s + 1) prometheus_url 5
         && probe w (clock s + 2) alertmanager_url 5),
     with_trace s
       (trace s ++ verify_events (probe w (clock s) exporter_url 5)
                                 (probe w (clock s + 1) prometheus_url 5)
                                 (probe w (clock s + 2) alertmanager_url 5))
       (clock s + 3)).
Proof.
  unfold verify_services, services. cbn [verify_loop]. do 2 run_step.
  replace (S (clock s)) with (clock s + 1) by lia.
  replace (S (clock s + 1)) with (clock s + 2) by lia.
  destruct (probe w (clock s) exporter_url 5); do 2 run_step;
    replace (S (clock s)) with (clock s + 1) by lia;
    destruct (probe w (clock s + 1) prometheus_url 5); do 2 run_step;
    replace (S (clock s + 1)) with (clock s + 2) by lia;
    destruct (probe w (clock s + 2) alertmanager_url 5); repeat run_step;
    replace (S (clock s + 2)) with (clock s + 3) by lia; reflexivity.
Qed.

(** C4. [verify_services] probes the exporter metrics URL, the Prometheus
    root and the Alertmanager root, each of them whatever the earlier probes
    answered, and returns [True] exactly when the three probes succeed. *)
Theorem verify_services_probes_all (w : world) (s : state) :
  let a := probe w (clock s) exporter_url 5 in
  let b := probe w (clock s + 1) prometheus_url 5 in
  let c := probe w (clock s + 2) alertmanager_url 5 in
  verify_services w s
  = (Ok (a && b && c), with_trace s (trace s ++ verify_events a b c) (clock s + 3))
  /\ filter is_get (verify_events a b c)
     = [EvGet exporter_url None 5; EvGet prometheus_url None 5;
        EvGet alertmanager_url None 5]
  /\ (fst (verify_services w s) = Ok true <-> a = true /\ b = true /\ c = true).
Proof.
  intros a b c. rewrite verify_services_eq. fold a b c. split; [reflexivity |].
  split.
  - destruct a, b, c; reflexivity.
  - simpl. destruct a, b, c; simpl;
      (split; [intros H; try discriminate H; auto |]);
      intros [H1 [H2 H3]]; congruence.
Qed.

Lemma check_service_running_true (name : string) (w : world) (s : state) :
  reports_running w (clock s) name = true ->
  check_service_running name w s
  = (Ok true, with_trace s (trace s ++ [EvRun ["sc"; "query"; name]]) (S (clock s))).
Proof.
  unfold reports_running, check_service_running, try_except, bind,
    subprocess_run_call, external, ret, with_trace.
  destruct (subprocess_run w (clock s) ["sc"; "query"; name]) as [out | e];
    intros H; [now rewrite H | discriminate H].
Qed.

Lemma start_windows_exporter_already (w : world) (s : state) :
  reports_running w (clock s) windows_exporter_service = true ->
  start_windows_exporter w s
  = (Ok true, with_trace s (trace s ++ exporter_already_events) (S (clock s))).
Proof.
  intros H. unfold start_windows_exporter. run_step.
  match goal with
  | |- context [bind (check_service_running ?n) ?k w ?s0] =>
      rewrite (bind_ok _ k w s0 _ _ (check_service_running_true n w s0 H))
  end.
  repeat run_step. reflexivity.
Qed.

Lemma start_alertmanager_already (self : monitor) (w : world) (s : state) :
  probe w (clock s) alertmanager_url 5 = true ->
  start_alertmanager self w s
  = (Ok true,
     with_trace s (trace s ++ stage_already_events "Alertmanager" alertmanager_url)
       (S (clock s))).
Proof.
  intros H. unfold start_alertmanager. do 2 run_step. rewrite H.
  repeat run_step. reflexivity.
Qed.

Lemma start_prometheus_already (self : monitor) (w : world) (s : state) :
  probe w (clock s) prometheus_url 5 = true ->
  start_prometheus self w s
  = (Ok true,
     with_trace s (trace s ++ stage_already_events "Prometheus" prometheus_url)
       (S (clock s))).
Proof.
  intros H. unfold start_prometheus. do 2 run_step. rewrite H.
  repeat run_step. reflexivity.
Qed.

Lemma extends_of_eq (P : event -> Prop) (lp la : bool) {A} (m : M A)
    (w : world) (s s' : state) (r : result A) :
  respects P lp la m -> m w s = (r, s') -> extends P lp la s s'.
Proof.
  intros Hm E. specialize (Hm w s). now rewrite E in Hm.
Qed.

(** C2. If the alert-router stage does not succeed, [start_all_services]
    stops there: its final state is the state in which [start_alertmanager]
    returned, so [start_prometheus] never ran; the Prometheus handle is
    untouched; every effect of the run belongs to the exporter stage or to the
    Alertmanager stage (every launch is of the Alertmanager executable);
    and the overall result is the failure of that stage. *)
Theorem alertmanager_failure_stops_pipeline (self : monitor) (w : world)
    (s s1 s2 : state) (r : result bool) :
  start_windows_exporter w
    (snd (log_message "Starting monitoring system..." "INFO" w s)) = (Ok true, s1) ->
  start_alertmanager self w s1 = (r, s2) ->
  r <> Ok true ->
  start_all_services self w s
  = (match r with Ok _ => Ok false | Raise e => Raise e end, s2)
  /\ prometheus_process s2 = prometheus_process s
  /\ exists new,
       trace s2 = trace s ++ new
       /\ Forall (fun ev => exporter_event ev
                            \/ stage_event (alertmanager_path self) alertmanager_url ev)
                 new.
Proof.
  intros H1 H2 Hr.
  assert (Hrun : start_all_services self w s
                 = (match r with Ok _ => Ok false | Raise e => Raise e end, s2)).
  { unfold start_all_services.
    rewrite (bind_ok _ _ w s _ _ (log_message_eq _ _ w s)).
    rewrite log_message_eq in H1. cbn [snd] in H1.
    rewrite (bind_ok _ _ _ _ _ _ H1). cbn [negb].
    destruct r as [[|] | e].
    - now contradiction Hr.
    - now rewrite (bind_ok _ _ _ _ _ _ H2).
    - now rewrite (bind_raise _ _ _ _ _ _ H2). }
  split; [exact Hrun |].
  assert (E : extends (fun ev => exporter_event ev
                                 \/ stage_event (alertmanager_path self) alertmanager_url ev)
                      false true s s2).
  { eapply extends_trans; [| eapply extends_trans].
    - apply (respects_emit _ false true
               (EvLog "INFO" "Starting monitoring system...")
               (or_introl I) w s).
    - eapply extends_of_eq; [| exact H1].
      eapply respects_weaken; [apply start_windows_exporter_footprint | | |];
        [now left | discriminate | discriminate].
    - eapply extends_of_eq; [| exact H2].
      eapply respects_weaken; [apply start_alertmanager_footprint | | |];
        [now right | discriminate | reflexivity]. }
  destruct E as [Htrace [Hp _]]. split; [| exact Htrace].
  now apply handle_step_frozen.
Qed.

Lemma alertmanager_failure_stops_pipeline_witness :
  fst (start_all_services sample_monitor world_never_up init_state) = Ok false.
Proof.
  pose proof
    (alertmanager_failure_stops_pipeline sample_monitor world_never_up init_state
       (snd (start_windows_exporter world_never_up
               (snd (log_message "Starting monitoring system..." "INFO"
                       world_never_up init_state))))
       (snd (start_alertmanager sample_monitor world_never_up
               (snd (start_windows_exporter world_never_up
                       (snd (log_message "Starting monitoring system..." "INFO"
                               world_never_up init_state))))))
       (Ok false)) as H.
  destruct H as [Hrun _].
  - vm_compute. reflexivity.
  - vm_compute. reflexivity.
  - discriminate.
  - rewrite Hrun. reflexivity.
Defined.

(** C3, as the code has it.  If the exporter service is reported running
    and the first probes of Alertmanager and Prometheus succeed, then
    [start_all_services] launches no process and issues no [sc start]; it
    makes six external calls, the last three being the verification probes,
    and its result is the conjunction of these three probes: all-up exactly
    when the exporter metrics URL, Prometheus and Alertmanager all answer
    them. *)
Theorem already_up_no_launch (self : monitor) (w : world) (s : state) :
  reports_running w (clock s) windows_exporter_service = true ->
  probe w (clock s + 1) alertmanager_url 5 = true ->
  probe w (clock s + 2) prometheus_url 5 = true ->
  let a := probe w (clock s + 3) exporter_url 5 in
  let b := probe w (clock s + 4) prometheus_url 5 in
  let c := probe w (clock s + 5) alertmanager_url 5 in
  start_all_services self w s
  = (Ok (a && b && c),
     with_trace s (trace s ++ already_up_events a b c) (clock s + 6))
  /\ count is_popen (already_up_events a b c) = 0
  /\ count is_sc_start (already_up_events a b c) = 0
  /\ prometheus_process (snd (start_all_services self w s)) = prometheus_process s
  /\ alertmanager_process (snd (start_all_services self w s)) = alertmanager_process s.
Proof.
  intros Hsvc Ham Hprom a b c.
  assert (Hrun : start_all_services self w s
                 = (Ok (a && b && c),
                    with_trace s (trace s ++ already_up_events a b c) (clock s + 6))).
  { unfold start_all_services. run_step.
    match goal with
    | |- context [bind start_windows_exporter ?k w ?s0] =>
        rewrite (bind_ok _ k w s0 _ _ (start_windows_exporter_already w s0 Hsvc))
    end.
    autorewrite with run. cbn [negb].
    replace (S (clock s)) with (clock s + 1) by lia.
    match goal with
    | |- context [bind (start_alertmanager self) ?k w ?s0] =>
        rewrite (bind_ok _ k w s0 _ _ (start_alertmanager_already self w s0 Ham))
    end.
    autorewrite with run. cbn [negb].
    replace (S (clock s + 1)) with (clock s + 2) by lia.
    match goal with
    | |- context [bind (start_prometheus self) ?k w ?s0] =>
        rewrite (bind_ok _ k w s0 _ _ (start_prometheus_already self w s0 Hprom))
    end.
    autorewrite with run. cbn [negb].
    replace (S (clock s + 2)) with (clock s + 3) by lia.
    match goal with
    | |- context [bind verify_services ?k w ?s0] =>
        rewrite (bind_ok _ k w s0 _ _ (verify_services_eq w s0))
    end.
    autorewrite with run.
    replace (clock s + 3 + 1) with (clock s + 4) by lia.
    replace (clock s + 3 + 2) with (clock s + 5) by lia.
    replace (clock s + 3 + 3) with (clock s + 6) by lia.
    fold a b c. unfold already_up_events.
    destruct (a && b && c); repeat run_step; reflexivity. }
  rewrite Hrun. repeat split.
  - destruct a, b, c; reflexivity.
  - destruct a, b, c; reflexivity.
Qed.

Lemma already_up_no_launch_witness :
  fst (start_all_services sample_monitor world_all_up init_state) = Ok true.
Proof.
  destruct (already_up_no_launch sample_monitor world_all_up init_state)
    as [Hrun _]; [reflexivity | reflexivity | reflexivity |].
  rewrite Hrun. reflexivity.
Defined.

(** C3 as stated fails: with the exporter service reported running and both
    URLs reachable at all times, the result is still a failure when the
    exporter's metrics URL does not answer the verification probe. *)
Lemma already_up_verification_can_fail :
  ~ (forall (self : monitor) (w : world) (s : state),
        reports_running w (clock s) windows_exporter_service = true ->
        (forall t, probe w t alertmanager_url 5 = true) ->
        (forall t, probe w t prometheus_url 5 = true) ->
        fst (start_all_services self w s) = Ok true).
Proof.
  intros H.
  specialize (H sample_monitor world_exporter_unreachable init_state).
  assert (Hfalse : fst (start_all_services sample_monitor
                          world_exporter_unreachable init_state) = Ok false)
    by (vm_compute; reflexivity).
  rewrite H in Hfalse; [discriminate Hfalse | reflexivity | | ];
    intros t; reflexivity.
Qed.

(** ** The exporter stage *)

Lemma check_service_running_eq (name : string) (w : world) (s : state) :
  handled (subprocess_run w (clock s) ["sc"; "query"; name]) = true ->
  check_service_running name w s
  = (Ok (reports_running w (clock s) name),
     with_trace s
       (trace s ++ query_events name (subprocess_run w (clock s) ["sc"; "query"; name]))
       (S (clock s))).
Proof.
  unfold reports_running, check_service_running, try_except, bind,
    subprocess_run_call, external, ret, with_trace, query_events, handled.
  destruct (subprocess_run w (clock s) ["sc"; "query"; name]) as [out | e];
    intros H; [reflexivity |].
  rewrite H. unfold log_message, emit. simpl. now rewrite <- app_assoc.
Qed.

(** C6, as the code has it.  When the service is not reported running, the
    exporter stage issues [sc start] and decides on the immediate answer
    alone: success exactly when it contains [START_PENDING] or [RUNNING],
    after one sleep of 3 seconds.  The stage makes two external calls, the
    query and then the start command: the service manager is not queried
    again, and nothing is retried. *)
Theorem exporter_stage_trusts_start_answer (w : world) (s : state) :
  let q := subprocess_run w (clock s) ["sc"; "query"; windows_exporter_service] in
  let o := subprocess_run w (S (clock s)) ["sc"; "start"; windows_exporter_service] in
  reports_running w (clock s) windows_exporter_service = false ->
  handled q = true ->
  handled o = true ->
  start_windows_exporter w s
  = (Ok (after_start_result o),
     with_trace s
       (trace s
          ++ [EvLog "INFO" "Checking Windows Exporter service..."]
          ++ query_events windows_exporter_service q
          ++ [EvLog "INFO" "Starting Windows Exporter service...";
              EvRun ["sc"; "start"; windows_exporter_service]]
          ++ after_start_events o)
       (clock s + 2))
  /\ count is_sc_query (after_start_events o) = 0.
Proof.
  intros q o Hq Hhq Hho. split.
  - unfold start_windows_exporter. run_step.
    match goal with
    | |- context [bind (check_service_running ?n) ?k w ?s0] =>
        rewrite (bind_ok _ k w s0 _ _ (check_service_running_eq n w s0 Hhq))
    end.
    autorewrite with run. rewrite Hq. fold q. run_step.
    unfold try_except, bind at 1, subprocess_run_call, external.
    autorewrite with run. fold o. unfold after_start_result, after_start_events.
    replace (clock s + 2) with (S (S (clock s))) by lia.
    destruct o as [out | e] eqn:Eo.
    + fold (start_accepted out). destruct (start_accepted out);
        repeat run_step; unfold with_trace; cbn [trace clock prometheus_process
          alertmanager_process]; now rewrite <- !app_assoc.
    + simpl in Hho. rewrite Hho. repeat run_step.
      unfold with_trace; cbn [trace clock prometheus_process alertmanager_process].
      now rewrite <- !app_assoc.
  - unfold after_start_events. destruct o as [out | e]; [| reflexivity].
    destruct (start_accepted out); reflexivity.
Qed.

Lemma exporter_stage_trusts_start_answer_witness :
  fst (start_windows_exporter world_never_up init_state) = Ok true.
Proof.
  destruct (exporter_stage_trusts_start_answer world_never_up init_state)
    as [Hrun _]; [reflexivity | reflexivity | reflexivity |].
  rewrite Hrun. reflexivity.
Defined.

(** C6 as stated fails: the stage reports success although no query of the
    service manager, at any time, reports the service running; the one query
    of the run precedes the start command. *)
Lemma exporter_success_without_requery :
  fst (start_windows_exporter world_never_up init_state) = Ok true
  /\ (forall t, reports_running world_never_up t windows_exporter_service = false)
  /\ trace (snd (start_windows_exporter world_never_up init_state))
     = [ EvLog "INFO" "Checking Windows Exporter service...";
         EvRun ["sc"; "query"; windows_exporter_service];
         EvLog "INFO" "Starting Windows Exporter service...";
         EvRun ["sc"; "start"; windows_exporter_service];
         EvSleep 3;
         EvLog "SUCCESS" "Windows Exporter started successfully" ].
Proof.
  split; [| split].
  - vm_compute. reflexivity.
  - intros t. vm_compute. reflexivity.
  - vm_compute. reflexivity.
Qed.

(** ** Telemetry *)

Lemma fetch_metric_eq (name query : string) (w : world) (s : state) :
  fetch_metric name query w s
  = (Ok tt,
     with_trace s
       (trace s ++ EvGet query_endpoint (Some query) 5
          :: metric_line w name (requests_get w (clock s) query_endpoint (Some query) 5))
       (S (clock s))).
Proof.
  unfold fetch_metric, metric_line, read_metric, query_endpoint.
  unfold try_except, bind, requests_get_call, external, lift, ask_result, ask,
    ret, print, emit, any_exn, rbind, with_trace.
  destruct (requests_get w (clock s) (prometheus_url ++ "/api/v1/query")
              (Some query) 5) as [response | e]; simpl; [| now rewrite <- app_assoc].
  destruct (response_json response) as [data | e]; simpl; [| now rewrite <- app_assoc].
  destruct (subscript data "status") as [status | e]; simpl; [| now rewrite <- app_assoc].
  destruct (eq_str status "success"); simpl; [| reflexivity].
  destruct (subscript data "data") as [d | e]; simpl; [| now rewrite <- app_assoc].
  destruct (subscript d "result") as [r | e]; simpl; [| now rewrite <- app_assoc].
  destruct (truthy r); simpl; [| reflexivity].
  destruct (index r 0) as [r0 | e]; simpl; [| now rewrite <- app_assoc].
  destruct (subscript r0 "value") as [v | e]; simpl; [| now rewrite <- app_assoc].
  destruct (index v 1) as [v1 | e]; simpl; [| now rewrite <- app_assoc].
  destruct (py_float w v1) as [value | e]; simpl; now rewrite <- app_assoc.
Qed.




(** *** Only [Exception]s arise inside [check_alerts] *)

Lemma only_Exception_subscript (v : json) (key : string) :
  only_Exception (subscript v key).
Proof.
  destruct v; simpl; try reflexivity. now destruct (dict_get key items).
Qed.

Lemma only_Exception_index (v : json) (i : nat) : only_Exception (index v i).
Proof.
  destruct v; simpl; try reflexivity.
  - now destruct (nth_error (chars s) i).
  - now destruct (nth_error items i).
Qed.

Lemma only_Exception_dot_get (v : json) (key : string) (default : json) :
  only_Exception (dot_get v key default).
Proof.
  destruct v; simpl; try reflexivity. now destruct (dict_get key items).
Qed.

Lemma only_Exception_dot_upper (w : world) (v : json) :
  only_Exception (dot_upper w v).
Proof. destruct v; simpl; reflexivity. Qed.

Lemma only_Exception_iterate (v : json) : only_Exception (iterate v).
Proof. destruct v; simpl; reflexivity. Qed.

Lemma only_Exception_format_ljust20 (v : json) : only_Exception (format_ljust20 v).
Proof. destruct v as [| | | [r] | | |]; simpl; reflexivity. Qed.

Lemma only_Exception_response_json (r : response) : only_Exception (response_json r).
Proof. unfold response_json. now destruct (body r). Qed.

Lemma safe_ask_result {A} (f : world -> result A) :
  (forall w, only_Exception (f w)) -> safe (ask_result f).
Proof. intros H w s. apply H. Qed.

Lemma safe_ret {A} (a : A) : safe (ret a).
Proof. intros w s. exact I. Qed.

Lemma safe_emit (ev : event) : safe (emit ev).
Proof. intros w s. exact I. Qed.

Lemma safe_ask {A} (f : world -> A) : safe (ask f).
Proof. intros w s. exact I. Qed.

Lemma safe_lift {A} (r : result A) : only_Exception r -> safe (lift r).
Proof. intros H w s. exact H. Qed.

Lemma safe_bind {A B} (m : M A) (k : A -> M B) :
  safe m -> (forall a, safe (k a)) -> safe (bind m k).
Proof.
  intros Hm Hk w s. unfold bind. specialize (Hm w s).
  destruct (m w s) as [[a | e] s1]; [apply Hk | exact Hm].
Qed.

Ltac safety :=
  repeat lazymatch goal with
    | |- safe (bind _ _) => apply safe_bind; [| intro]
    | |- safe (ret _) => apply safe_ret
    | |- safe (ask _) => apply safe_ask
    | |- safe (log_message _ _) => apply safe_emit
    | |- safe (print _) => apply safe_emit
    | |- safe (lift (subscript _ _)) => apply safe_lift, only_Exception_subscript
    | |- safe (lift (index _ _)) => apply safe_lift, only_Exception_index
    | |- safe (lift (dot_get _ _ _)) => apply safe_lift, only_Exception_dot_get
    | |- safe (ask_result (fun w => dot_upper w _)) =>
        apply safe_ask_result; intro; apply only_Exception_dot_upper
    | |- safe (lift (iterate _)) => apply safe_lift, only_Exception_iterate
    | |- safe (lift (format_ljust20 _)) =>
        apply safe_lift, only_Exception_format_ljust20
    | |- safe (lift (response_json _)) =>
        apply safe_lift, only_Exception_response_json
    | |- safe (if ?b then _ else _) => destruct b
    end.

Lemma safe_print_alert (alert : json) : safe (print_alert alert).
Proof. unfold print_alert. safety. Qed.

Lemma safe_alerts_loop (alerts : list json) : safe (alerts_loop alerts).
Proof.
  induction alerts as [| alert alerts IH]; cbn [alerts_loop]; safety.
  - apply safe_print_alert.
  - exact IH.
Qed.

(** [check_alerts] returns normally whenever its request does not end in an
    interrupt, whatever the response holds. *)
Lemma check_alerts_total (w : world) (s : state) :
  handled_http (requests_get w (clock s) alerts_endpoint None 5) = true ->
  fst (check_alerts w s) = Ok tt.
Proof.
  intros Hh. unfold check_alerts, try_except.
  match goal with
  | |- context [bind ?m ?k w s] =>
      assert (Hsafe : only_Exception (fst (bind m k w s)));
      [| destruct (bind m k w s) as [[[] | e] s1]; [reflexivity |]]
  end.
  - unfold bind at 1, requests_get_call, external.
    destruct (requests_get w (clock s) alerts_endpoint None 5) as [r | e];
      [| exact Hh].
    match goal with
    | |- only_Exception (fst (?m w ?s0)) => assert (Hm : safe m); [| apply Hm]
    end.
    safety. apply safe_alerts_loop.
  - simpl in Hsafe. rewrite Hsafe. reflexivity.
Qed.


(** C7, as the code has it.  [check_alerts] issues exactly one GET, first of
    all, to [/api/v1/alerts] under the Prometheus base URL (port 9090), with
    no parameters and a timeout of 5. *)
Theorem check_alerts_queries_prometheus (w : world) (s : state) :
  exists rest,
    trace (snd (check_alerts w s))
    = trace s ++ EvGet "http://localhost:9090/api/v1/alerts" None 5 :: rest
    /\ Forall (fun ev => is_get ev = false) rest.
Proof.
  unfold check_alerts, requests_get_call.
  apply external_first.
  - intros response. footprint; try reflexivity.
    use_footprint alerts_loop_footprint. intros ev Hev. now destruct ev.
  - intros e. footprint. reflexivity.
Qed.

(** C7 as stated fails: the request of [check_alerts] does not go to the
    Alertmanager base URL. *)
Lemma check_alerts_skips_alertmanager :
  trace (snd (check_alerts world_alerting init_state))
  = [ EvGet "http://localhost:9090/api/v1/alerts" None 5;
      EvPrint (newline ++ str_repeat "=" 60);
      EvPrint "  ALERT STATUS";
      EvPrint (str_repeat "=" 60);
      EvPrint "  HighCPUUsage        : FIRING (warning)";
      EvPrint (str_repeat "=" 60) ]
  /\ ~ In (EvGet (alertmanager_url ++ "/api/v1/alerts") None 5)
          (trace (snd (check_alerts world_alerting init_state))).
Proof.
  split.
  - vm_compute. reflexivity.
  - vm_compute. intros H.
    repeat (destruct H as [H | H]; [discriminate H |]). exact H.
Qed.





(** C10. A metric query that is answered with JSON whose [status] is not
    ['success'], or whose [data.result] is an empty list, leaves no line for
    its entry: the pass of the loop records the GET and nothing else,
    neither a value nor [Unable to fetch]. *)
Theorem unsuccessful_payload_omitted (name query : string) (w : world) (s : state)
    (response : response) (data : json) :
  requests_get w (clock s) query_endpoint (Some query) 5 = Responded response ->
  body response = Some data ->
  (exists status,
      subscript data "status" = Ok status /\ eq_str status "success" = false)
  \/ (subscript data "status" = Ok (JStr "success")
      /\ exists d, subscript data "data" = Ok d
                   /\ subscript d "result" = Ok (JArr [])) ->
  fetch_metric name query w s
  = (Ok tt,
     with_trace s (trace s ++ [EvGet query_endpoint (Some query) 5]) (S (clock s)))
  /\ metric_line w name (Responded response) = [].
Proof.
  intros Hget Hbody Hpayload.
  assert (Hline : metric_line w name (Responded response) = []).
  { unfold metric_line, read_metric, response_json. rewrite Hbody. simpl.
    destruct Hpayload as [[status [Hs Hne]] | [Hs [d [Hd Hr]]]].
    - rewrite Hs. simpl. now rewrite Hne.
    - rewrite Hs. simpl. rewrite Hd. simpl. rewrite Hr. reflexivity. }
  split; [| exact Hline].
  rewrite fetch_metric_eq, Hget, Hline. reflexivity.
Qed.

Lemma unsuccessful_payload_omitted_witness :
  trace (snd (fetch_metric "Memory Usage" "up" world_telemetry (State 1 [] None None)))
  = [EvGet query_endpoint (Some "up") 5]
  /\ trace (snd (fetch_metric "Disk Usage" "up" world_telemetry (State 2 [] None None)))
     = [EvGet query_endpoint (Some "up") 5].
Proof.
  split.
  - destruct (unsuccessful_payload_omitted "Memory Usage" "up" world_telemetry
                (State 1 [] None None) (Response 400 (Some error_payload) EmptyString)
                error_payload) as [Hrun _].
    + reflexivity.
    + reflexivity.
    + left. exists (JStr "error"). split; reflexivity.
    + rewrite Hrun. reflexivity.
  - destruct (unsuccessful_payload_omitted "Disk Usage" "up" world_telemetry
                (State 2 [] None None) (Response 200 (Some empty_payload) EmptyString)
                empty_payload) as [Hrun _].
    + reflexivity.
    + reflexivity.
    + right. split; [reflexivity |].
      exists (JObj [("resultType", JStr "vector"); ("result", JArr [])]).
      split; reflexivity.
    + rewrite Hrun. reflexivity.
Defined.

(** ** Process handles *)

Lemma stop_services_eq (w : world) (s : state) :
  stop_services w s
  = (Ok tt,
     with_trace s
       (trace s ++ stop_events (prometheus_process s) (alertmanager_process s))
       (clock s)).
Proof.
  unfold stop_services, stop_events, get_prometheus_process,
    get_alertmanager_process, terminate, bind, log_message, emit, ret, with_trace.
  destruct s as [t tr [hp |] [ha |]]; simpl; rewrite <- ?app_assoc; reflexivity.
Qed.

Lemma start_all_services_footprint (self : monitor) :
  respects (startup_event self) true true (start_all_services self).
Proof.
  unfold start_all_services. footprint.
  - left. exact I.
  - use_footprint start_windows_exporter_footprint. intros ev H. now left.
  - use_footprint (start_alertmanager_footprint self).
    intros ev H. right. now left.
  - use_footprint (start_prometheus_footprint self).
    intros ev H. right. right. now left.
  - use_footprint verify_services_footprint.
    intros ev H. right. right. now right.
  - left. exact I.
  - left. exact I.
Qed.

Lemma open_dashboards_footprint (self : monitor) :
  respects (fun ev => is_log ev \/ exists url, ev = EvBrowser url) false false
    (open_dashboards self).
Proof.
  unfold open_dashboards, webbrowser_open_call. footprint;
    try (left; exact I). right. eexists. reflexivity.
Qed.

Lemma report_loop_footprint (cycles : nat) :
  respects any_event false false (report_loop cycles).
Proof.
  induction cycles as [| cycles IH]; cbn [report_loop]; footprint;
    try exact I; try exact IH.
  use_footprint check_alerts_footprint. intros ev H. exact I.
Qed.

Lemma first_existing_total (paths : list string) (default : string)
    (w : world) (s : state) :
  exists path, fst (first_existing paths default w s) = Ok path.
Proof.
  revert s. induction paths as [| path paths IH]; intros s; cbn [first_existing].
  - eexists. reflexivity.
  - unfold bind at 1, os_path_exists_call, external.
    destruct (os_path_exists w (clock s) path).
    + eexists. reflexivity.
    + apply IH.
Qed.

Lemma respects_leaves_handles (P : event -> Prop) {A} (m : M A) :
  respects P false false m -> leaves_handles m.
Proof.
  intros Hm w s. destruct (Hm w s) as [_ [Hp Ha]].
  split; now apply handle_step_frozen.
Qed.

Lemma respects_never_clears (P : event -> Prop) (lp la : bool) {A} (m : M A) :
  respects P lp la m -> never_clears m.
Proof.
  intros Hm w s. destruct (Hm w s) as [_ [Hp Ha]].
  split; eapply handle_step_populated; eassumption.
Qed.

Lemma first_existing_never_raises (paths : list string) (default : string)
    (w : world) (s s' : state) (e : exn) :
  first_existing paths default w s <> (Raise e, s').
Proof.
  intros H. destruct (first_existing_total paths default w s) as [path Hp].
  rewrite H in Hp. discriminate Hp.
Qed.

Lemma init_clears_handles (w : world) (s : state) :
  exists self s0,
    init w s = (Ok self, s0)
    /\ prometheus_process s0 = None
    /\ alertmanager_process s0 = None.
Proof.
  unfold init, find_prometheus_executable, find_alertmanager_executable,
    bind, ask, clear_handles, ret.
  match goal with
  | |- context [first_existing ?ps ?d w s] =>
      destruct (first_existing ps d w s) as [[prom | e] s1] eqn:E1;
      [| now apply first_existing_never_raises in E1]
  end.
  match goal with
  | |- context [first_existing ?ps ?d w s1] =>
      destruct (first_existing ps d w s1) as [[am | e] s2] eqn:E2;
      [| now apply first_existing_never_raises in E2]
  end.
  eexists. eexists. split; [reflexivity | split; reflexivity].
Qed.

Lemma main_after_init_footprint (self : monitor) (cycles : nat) (w : world)
    (s s0 : state) :
  init w s = (Ok self, s0) ->
  extends any_event true true s0 (snd (main cycles w s)).
Proof.
  intros Hinit. unfold main. rewrite (bind_ok _ _ w s _ _ Hinit).
  match goal with
  | |- extends _ _ _ _ (snd (?m w s0)) =>
      assert (Hm : respects any_event true true m); [| apply Hm]
  end.
  footprint; try exact I.
  - use_footprint (start_all_services_footprint self). intros ev H. exact I.
  - use_footprint get_system_metrics_footprint. intros ev H. exact I.
  - use_footprint check_alerts_footprint. intros ev H. exact I.
  - use_footprint (open_dashboards_footprint self). intros ev H. exact I.
  - use_footprint (report_loop_footprint cycles). intros ev H. exact I.
  - use_footprint stop_services_footprint. intros ev H. exact I.
  - use_footprint stop_services_footprint. intros ev H. exact I.
Qed.

(** C9, as the code has it.  A process handle is written in one place only,
    the launch in its own start method: every other method, the shutdown
    included, leaves both handles as they are.  [stop_services] calls
    [terminate] on each populated handle and keeps the handle.  So from the
    construction of the object to the end of any run of [main] a populated
    handle is never cleared. *)
Theorem handles_set_at_launch_never_cleared (self : monitor) :
  (forall w s,
      stop_services w s
      = (Ok tt,
         with_trace s
           (trace s ++ stop_events (prometheus_process s) (alertmanager_process s))
           (clock s)))
  /\ leaves_handles stop_services
  /\ leaves_handles start_windows_exporter
  /\ leaves_handles verify_services
  /\ leaves_handles get_system_metrics
  /\ leaves_handles check_alerts
  /\ leaves_handles (open_dashboards self)
  /\ (forall w s,
        prometheus_process (snd (start_alertmanager self w s)) = prometheus_process s)
  /\ (forall w s,
        alertmanager_process (snd (start_prometheus self w s)) = alertmanager_process s)
  /\ never_clears (start_alertmanager self)
  /\ never_clears (start_prometheus self)
  /\ never_clears (start_all_services self)
  /\ (forall cycles w s,
        exists self0 s0,
          init w s = (Ok self0, s0)
          /\ prometheus_process s0 = None
          /\ alertmanager_process s0 = None
          /\ extends any_event true true s0 (snd (main cycles w s))).
Proof.
  split; [exact stop_services_eq |].
  split; [exact (respects_leaves_handles _ _ stop_services_footprint) |].
  split; [exact (respects_leaves_handles _ _ start_windows_exporter_footprint) |].
  split; [exact (respects_leaves_handles _ _ verify_services_footprint) |].
  split; [exact (respects_leaves_handles _ _ get_system_metrics_footprint) |].
  split; [exact (respects_leaves_handles _ _ check_alerts_footprint) |].
  split; [exact (respects_leaves_handles _ _ (open_dashboards_footprint self)) |].
  split.
  { intros w s. destruct (start_alertmanager_footprint self w s) as [_ [Hp _]].
    now apply handle_step_frozen. }
  split.
  { intros w s. destruct (start_prometheus_footprint self w s) as [_ [_ Ha]].
    now apply handle_step_frozen. }
  split; [exact (respects_never_clears _ _ _ _ (start_alertmanager_footprint self)) |].
  split; [exact (respects_never_clears _ _ _ _ (start_prometheus_footprint self)) |].
  split; [exact (respects_never_clears _ _ _ _ (start_all_services_footprint self)) |].
  intros cycles w s. destruct (init_clears_handles w s) as [self0 [s0 [Hi [Hp Ha]]]].
  exists self0, s0. repeat split; try assumption;
    now apply (main_after_init_footprint self0 cycles w s s0 Hi).
Qed.

Lemma handles_set_at_launch_never_cleared_witness :
  prometheus_process
    (snd (start_all_services sample_monitor world_all_up (State 0 [] (Some 1) (Some 2))))
  <> None
  /\ alertmanager_process
       (snd (stop_services world_all_up (State 0 [] (Some 1) (Some 2))))
     = Some 2.
Proof.
  destruct (handles_set_at_launch_never_cleared sample_monitor)
    as [_ [Hstop [_ [_ [_ [_ [_ [_ [_ [_ [_ [Hall _]]]]]]]]]]]].
  split.
  - apply (Hall world_all_up (State 0 [] (Some 1) (Some 2))). discriminate.
  - apply (Hstop world_all_up (State 0 [] (Some 1) (Some 2))).
Defined.

(** C9 as stated fails: in a run of [main] that launches both processes and
    is then interrupted, each process is terminated and both handles are
    still populated when [main] ends; a further [stop_services] terminates
    them again. *)
Lemma handles_survive_termination :
  let final := snd (main 0 world_cold_start init_state) in
  fst (main 0 world_cold_start init_state) = Ok tt
  /\ filter is_terminate (trace final) = [EvTerminate 9; EvTerminate 5]
  /\ prometheus_process final = Some 9
  /\ alertmanager_process final = Some 5
  /\ filter is_terminate (trace (snd (stop_services world_cold_start final)))
     = [EvTerminate 9; EvTerminate 5; EvTerminate 9; EvTerminate 5].
Proof.
  vm_compute. repeat split; reflexivity.
Qed.

(** * Further properties of the launcher *)

(** ** Budgets of the startup *)

Lemma sleep_seconds_app (l1 l2 : list event) :
  sleep_seconds (l1 ++ l2) = sleep_seconds l1 + sleep_seconds l2.
Proof.
  induction l1 as [| ev l1 IH]; [reflexivity |].
  destruct ev; simpl; rewrite IH; lia.
Qed.

Lemma costs_weaken (a b a' b' : nat) {A} (m : M A) :
  costs a b m -> a <= a' -> b <= b' -> costs a' b' m.
Proof.
  intros Hm Ha Hb w s. destruct (Hm w s) as [new [E [Hs Hc]]].
  exists new. repeat split; try assumption; lia.
Qed.

Lemma costs_still {A} (m : M A) :
  (forall w s, trace (snd (m w s)) = trace s /\ clock (snd (m w s)) = clock s) ->
  costs 0 0 m.
Proof.
  intros H w s. destruct (H w s) as [Ht Hc]. exists [].
  rewrite app_nil_r, Hc. repeat split; simpl; auto; lia.
Qed.

Lemma costs_ret {A} (a : A) : costs 0 0 (ret a).
Proof. apply costs_still. intros w s. split; reflexivity. Qed.

Lemma costs_ask {A} (f : world -> A) : costs 0 0 (ask f).
Proof. apply costs_still. intros w s. split; reflexivity. Qed.

Lemma costs_set_prometheus_process (h : handle) : costs 0 0 (set_prometheus_process h).
Proof. apply costs_still. intros w s. split; reflexivity. Qed.

Lemma costs_set_alertmanager_process (h : handle) :
  costs 0 0 (set_alertmanager_process h).
Proof. apply costs_still. intros w s. split; reflexivity. Qed.

Lemma costs_emit (ev : event) : costs (sleep_seconds [ev]) 0 (emit ev).
Proof.
  intros w s. exists [ev]. repeat split; simpl; lia.
Qed.

Lemma costs_log_message (message status : string) : costs 0 0 (log_message message status).
Proof. apply (costs_emit (EvLog status message)). Qed.

Lemma costs_time_sleep (n : nat) : costs n 0 (time_sleep n).
Proof.
  eapply costs_weaken; [apply (costs_emit (EvSleep n)) | simpl; lia | lia].
Qed.

Lemma costs_external {A} (ev : event) (answer : world -> nat -> result A) :
  is_sleep ev = false -> costs 0 1 (external ev answer).
Proof.
  intros Hev w s. exists [ev]. repeat split; simpl; try lia.
  destruct ev; simpl; try lia. discriminate Hev.
Qed.

Lemma costs_bind (a b c d : nat) {A B} (m : M A) (k : A -> M B) :
  costs a b m -> (forall x, costs c d (k x)) -> costs (a + c) (b + d) (bind m k).
Proof.
  intros Hm Hk w s. unfold bind. destruct (Hm w s) as [n1 [E1 [S1 C1]]].
  destruct (m w s) as [[x | e] s1]; simpl in *.
  - destruct (Hk x w s1) as [n2 [E2 [S2 C2]]]. exists (n1 ++ n2).
    rewrite E2, E1, app_assoc, sleep_seconds_app. repeat split; lia.
  - exists n1. repeat split; try assumption; lia.
Qed.

Lemma costs_try_except (a b c d : nat) {A} (m : M A) (catches : exn -> bool)
    (h : exn -> M A) :
  costs a b m -> (forall e, costs c d (h e)) ->
  costs (a + c) (b + d) (try_except m catches h).
Proof.
  intros Hm Hh w s. unfold try_except. destruct (Hm w s) as [n1 [E1 [S1 C1]]].
  destruct (m w s) as [[x | e] s1]; simpl in *.
  - exists n1. repeat split; try assumption; lia.
  - destruct (catches e).
    + destruct (Hh e w s1) as [n2 [E2 [S2 C2]]]. exists (n1 ++ n2).
      rewrite E2, E1, app_assoc, sleep_seconds_app. repeat split; lia.
    + exists n1. simpl. repeat split; try assumption; lia.
Qed.

Lemma costs_if (a b c d : nat) (cond : bool) {A} (m1 m2 : M A) :
  costs a b m1 -> costs c d m2 ->
  costs (Nat.max a c) (Nat.max b d) (if cond then m1 else m2).
Proof.
  intros H1 H2. destruct cond.
  - eapply costs_weaken; [exact H1 | lia | lia].
  - eapply costs_weaken; [exact H2 | lia | lia].
Qed.

(** Decomposes a budget goal along the structure of the program; the
    budget itself is found on the way. *)
Ltac budget :=
  repeat lazymatch goal with
    | |- costs _ _ (bind _ _) => eapply costs_bind; [| intro]
    | |- costs _ _ (try_except _ _ _) => eapply costs_try_except; [| intro]
    | |- costs _ _ (if _ then _ else _) => eapply costs_if
    | |- costs _ _ (ret _) => apply costs_ret
    | |- costs _ _ (ask _) => apply costs_ask
    | |- costs _ _ (log_message _ _) => apply costs_log_message
    | |- costs _ _ (time_sleep _) => apply costs_time_sleep
    | |- costs _ _ (set_prometheus_process _) => apply costs_set_prometheus_process
    | |- costs _ _ (set_alertmanager_process _) => apply costs_set_alertmanager_process
    | |- costs _ _ (external _ _) => apply costs_external; reflexivity
    end.

Lemma check_url_accessible_costs (url : string) (timeout : nat) :
  costs 0 1 (check_url_accessible url timeout).
Proof.
  eapply costs_weaken.
  - unfold check_url_accessible, requests_get_call. budget.
  - simpl. lia.
  - simpl. lia.
Qed.

Lemma poll_from_costs (name url : string) (interval max_retries : nat)
    (range : list nat) :
  costs (interval * List.length range) (List.length range)
    (poll_from name url interval max_retries range).
Proof.
  induction range as [| i range IH]; cbn [poll_from].
  - eapply costs_weaken; [budget | simpl; lia | simpl; lia].
  - eapply costs_weaken.
    + eapply costs_bind; [apply costs_time_sleep | intro].
      eapply costs_bind; [apply check_url_accessible_costs | intro].
      eapply costs_if; [budget |].
      eapply costs_bind; [apply costs_log_message | intro]. exact IH.
    + cbn [List.length]. simpl. lia.
    + cbn [List.length]. simpl. lia.
Qed.

Lemma start_windows_exporter_costs : costs 3 2 start_windows_exporter.
Proof.
  eapply costs_weaken.
  - unfold start_windows_exporter, check_service_running, subprocess_run_call.
    budget.
  - simpl. lia.
  - simpl. lia.
Qed.

Lemma start_alertmanager_costs (self : monitor) : costs 20 13 (start_alertmanager self).
Proof.
  eapply costs_weaken.
  - unfold start_alertmanager, wait_for_start, os_path_exists_call,
      subprocess_Popen_call.
    budget; try apply check_url_accessible_costs; apply poll_from_costs.
  - rewrite length_seq. simpl. lia.
  - rewrite length_seq. simpl. lia.
Qed.

Lemma start_prometheus_costs (self : monitor) : costs 30 18 (start_prometheus self).
Proof.
  eapply costs_weaken.
  - unfold start_prometheus, wait_for_start, os_path_exists_call,
      subprocess_Popen_call.
    budget; try apply check_url_accessible_costs; apply poll_from_costs.
  - rewrite length_seq. simpl. lia.
  - rewrite length_seq. simpl. lia.
Qed.

Lemma verify_services_costs : costs 0 3 verify_services.
Proof.
  intros w s. rewrite verify_services_eq. cbn [snd].
  autorewrite with run. eexists. split; [reflexivity |].
  split; [| lia].
  destruct (probe w (clock s) exporter_url 5),
    (probe w (clock s + 1) prometheus_url 5),
    (probe w (clock s + 2) alertmanager_url 5); simpl; lia.
Qed.

(** X1. Whatever the outside world answers, one run of the startup
    pipeline sleeps at most 53 seconds in total (3 for the exporter, 10
    rounds of 2 for Alertmanager, 15 rounds of 2 for Prometheus) and makes at
    most 36 external calls; both bounds are reached by a start in which
    each dependency comes up at the last moment. *)
Theorem startup_budget (self : monitor) :
  costs 53 36 (start_all_services self)
  /\ sleep_seconds (trace (snd (start_all_services self world_slowest init_state))) = 53
  /\ clock (snd (start_all_services self world_slowest init_state)) = 36
  /\ fst (start_all_services self world_slowest init_state) = Ok true.
Proof.
  split.
  - eapply costs_weaken.
    + unfold start_all_services. budget.
      * apply start_windows_exporter_costs.
      * apply start_alertmanager_costs.
      * apply start_prometheus_costs.
      * apply verify_services_costs.
    + simpl. lia.
    + simpl. lia.
  - destruct self. vm_compute. repeat split; reflexivity.
Qed.

(** ** Path discovery *)

Lemma os_path_exists_call_eq (path : string) (w : world) (s : state) :
  os_path_exists_call path w s
  = (Ok (os_path_exists w (clock s) path),
     with_trace s (trace s ++ [EvExists path]) (S (clock s))).
Proof. reflexivity. Qed.

Lemma first_existing_hit (pre : list string) (p : string) (post : list string)
    (default : string) (w : world) :
  forall s,
    missing_before w (clock s) pre (List.length pre) ->
    os_path_exists w (clock s + List.length pre) p = true ->
    first_existing (pre ++ p :: post) default w s
    = (Ok p,
       with_trace s (trace s ++ map EvExists (pre ++ [p]))
         (clock s + S (List.length pre))).
Proof.
  induction pre as [| q pre IH]; intros s Hmiss Hhit.
  - cbn [app first_existing List.length map] in *.
    rewrite (bind_ok _ _ w s _ _ (os_path_exists_call_eq p w s)).
    rewrite Nat.add_0_r in Hhit. rewrite Hhit. run_step.
    do 2 f_equal. lia.
  - cbn [app first_existing].
    rewrite (bind_ok _ _ w s _ _ (os_path_exists_call_eq q w s)).
    assert (Hq : os_path_exists w (clock s) q = false).
    { specialize (Hmiss 0). rewrite Nat.add_0_r in Hmiss. apply Hmiss. simpl. lia. }
    rewrite Hq. rewrite IH; autorewrite with run.
    + cbn [List.length map app]. do 2 f_equal. lia.
    + intros j Hj. specialize (Hmiss (S j)).
      replace (S (clock s) + j) with (clock s + S j) by lia.
      apply Hmiss. simpl. lia.
    + replace (S (clock s) + List.length pre)
        with (clock s + List.length (q :: pre)) by (simpl; lia).
      exact Hhit.
Qed.

Lemma first_existing_miss (paths : list string) (default : string) (w : world) :
  forall s,
    missing_before w (clock s) paths (List.length paths) ->
    first_existing paths default w s
    = (Ok default,
       with_trace s (trace s ++ map EvExists paths) (clock s + List.length paths)).
Proof.
  induction paths as [| q paths IH]; intros s Hmiss.
  - cbn [first_existing map List.length]. run_step.
    rewrite app_nil_r, Nat.add_0_r. now destruct s.
  - cbn [first_existing].
    rewrite (bind_ok _ _ w s _ _ (os_path_exists_call_eq q w s)).
    assert (Hq : os_path_exists w (clock s) q = false).
    { specialize (Hmiss 0). rewrite Nat.add_0_r in Hmiss. apply Hmiss. simpl. lia. }
    rewrite Hq. rewrite IH; autorewrite with run.
    + cbn [List.length map app]. do 2 f_equal. lia.
    + intros j Hj. specialize (Hmiss (S j)).
      replace (S (clock s) + j) with (clock s + S j) by lia.
      apply Hmiss. simpl. lia.
Qed.

(** X2. [_find_prometheus_executable] checks its four candidate paths in
    order and returns the first one that exists, without checking the ones
    after it; when none exists it returns the first candidate all the same,
    a path that does not exist. *)
Theorem find_prometheus_executable_first_hit (w : world) (s : state) :
  let c := prometheus_candidates w in
  (forall k,
      k < 4 ->
      missing_before w (clock s) c k ->
      os_path_exists w (clock s + k) (nth k c EmptyString) = true ->
      find_prometheus_executable w s
      = (Ok (nth k c EmptyString),
         with_trace s (trace s ++ map EvExists (firstn (S k) c)) (clock s + S k)))
  /\ (missing_before w (clock s) c 4 ->
      find_prometheus_executable w s
      = (Ok (nth 0 c EmptyString),
         with_trace s (trace s ++ map EvExists c) (clock s + 4))).
Proof.
  intros c.
  assert (Hdef : find_prometheus_executable w s
                 = first_existing c (nth 0 c EmptyString) w s) by reflexivity.
  rewrite Hdef. unfold c, prometheus_candidates.
  set (c0 := os_path_join w _ "prometheus.exe").
  set (c2 := os_path_join w (os_getcwd w) "prometheus.exe").
  split.
  - intros k Hk Hmiss Hhit. destruct k as [| [| [| [| k]]]]; try lia.
    + apply (first_existing_hit [] c0); [intros j Hj; simpl in Hj; lia | exact Hhit].
    + apply (first_existing_hit [c0] _ [c2; _]); [| exact Hhit].
      intros j Hj. simpl in Hj. destruct j as [| j]; [| lia].
      apply (Hmiss 0). lia.
    + apply (first_existing_hit [c0; _] c2 [_]); [| exact Hhit].
      intros j Hj. simpl in Hj. destruct j as [| [| j]]; try lia.
      * apply (Hmiss 0). lia.
      * apply (Hmiss 1). lia.
    + apply (first_existing_hit [c0; _; c2] _ []); [| exact Hhit].
      intros j Hj. simpl in Hj. destruct j as [| [| [| j]]]; try lia.
      * apply (Hmiss 0). lia.
      * apply (Hmiss 1). lia.
      * apply (Hmiss 2). lia.
  - intros Hmiss. apply (first_existing_miss [c0; _; c2; _]). exact Hmiss.
Qed.

Lemma find_prometheus_executable_first_hit_witness :
  fst (find_prometheus_executable world_system_prometheus init_state)
  = Ok "C:\prometheus\prometheus.exe"
  /\ fst (find_prometheus_executable world_bare init_state)
     = Ok "C:/monitor/prometheus-3.7.2.windows-amd64/prometheus.exe".
Proof.
  destruct (find_prometheus_executable_first_hit world_system_prometheus init_state)
    as [Hhit _].
  destruct (find_prometheus_executable_first_hit world_bare init_state)
    as [_ Hmiss].
  split.
  - rewrite (Hhit 3); [reflexivity | lia | | reflexivity].
    intros j Hj. destruct j as [| [| [| j]]]; try reflexivity. lia.
  - rewrite Hmiss; [reflexivity |]. intros j Hj. reflexivity.
Defined.

(** X3. [_find_alertmanager_executable] checks its three candidate paths
    in order and returns the first one that exists, without checking the
    ones after it; when none exists it returns the first candidate. *)
Theorem find_alertmanager_executable_first_hit (w : world) (s : state) :
  let c := alertmanager_candidates w in
  (forall k,
      k < 3 ->
      missing_before w (clock s) c k ->
      os_path_exists w (clock s + k) (nth k c EmptyString) = true ->
      find_alertmanager_executable w s
      = (Ok (nth k c EmptyString),
         with_trace s (trace s ++ map EvExists (firstn (S k) c)) (clock s + S k)))
  /\ (missing_before w (clock s) c 3 ->
      find_alertmanager_executable w s
      = (Ok (nth 0 c EmptyString),
         with_trace s (trace s ++ map EvExists c) (clock s + 3))).
Proof.
  intros c.
  assert (Hdef : find_alertmanager_executable w s
                 = first_existing c (nth 0 c EmptyString) w s) by reflexivity.
  rewrite Hdef. unfold c, alertmanager_candidates.
  set (c0 := os_path_join w _ "alertmanager.exe").
  set (c1 := os_path_join w (os_getcwd w) "alertmanager.exe").
  split.
  - intros k Hk Hmiss Hhit. destruct k as [| [| [| k]]]; try lia.
    + apply (first_existing_hit [] c0); [intros j Hj; simpl in Hj; lia | exact Hhit].
    + apply (first_existing_hit [c0] c1 [_]); [| exact Hhit].
      intros j Hj. simpl in Hj. destruct j as [| j]; [| lia].
      apply (Hmiss 0). lia.
    + apply (first_existing_hit [c0; c1] _ []); [| exact Hhit].
      intros j Hj. simpl in Hj. destruct j as [| [| j]]; try lia.
      * apply (Hmiss 0). lia.
      * apply (Hmiss 1). lia.
  - intros Hmiss. apply (first_existing_miss [c0; c1; _]). exact Hmiss.
Qed.

Lemma find_alertmanager_executable_first_hit_witness :
  fst (find_alertmanager_executable world_all_up init_state)
  = Ok "C:/monitor/alertmanager-0.28.1.windows-amd64/alertmanager.exe"
  /\ fst (find_alertmanager_executable world_bare init_state)
     = Ok "C:/monitor/alertmanager-0.28.1.windows-amd64/alertmanager.exe".
Proof.
  destruct (find_alertmanager_executable_first_hit world_all_up init_state)
    as [Hhit _].
  destruct (find_alertmanager_executable_first_hit world_bare init_state)
    as [_ Hmiss].
  split.
  - rewrite (Hhit 0); [reflexivity | lia | | reflexivity].
    intros j Hj. lia.
  - rewrite Hmiss; [reflexivity |]. intros j Hj. reflexivity.
Defined.

(** ** The service query *)

(** X4. [check_service_running] answers [True] exactly when the query
    completed and its output contains [RUNNING].  When the query raises an
    [Exception] the method logs one [ERROR] line naming the service and
    answers [False]; an interrupt is not caught and reaches the caller. *)
Theorem check_service_running_verdict (name : string) (w : world) (s : state) :
  let q := subprocess_run w (clock s) ["sc"; "query"; name] in
  (fst (check_service_running name w s) = Ok true
   <-> exists out, q = Completed out /\ str_in "RUNNING" out = true)
  /\ (forall e,
        q = RunRaises e -> is_Exception e = true ->
        check_service_running name w s
        = (Ok false,
           with_trace s
             (trace s ++ [ EvRun ["sc"; "query"; name];
                           EvLog "ERROR" ("Error checking service " ++ name ++ ": "
                                            ++ str_of_exn e) ])
             (S (clock s))))
  /\ (forall e,
        q = RunRaises e -> is_Exception e = false ->
        fst (check_service_running name w s) = Raise e).
Proof.
  intros q. unfold check_service_running, try_except, bind, subprocess_run_call,
    external, ret, log_message, emit, with_trace. fold q.
  destruct q as [out | e]; simpl.
  - repeat split.
    + intros H. exists out. split; [reflexivity | congruence].
    + intros [out' [Hq Hr]]. injection Hq as <-. now rewrite Hr.
    + intros e He. discriminate He.
    + intros e He. discriminate He.
  - repeat split.
    + destruct (is_Exception e); simpl; intros H; discriminate H.
    + intros [out [Hq _]]. discriminate Hq.
    + intros e' He' Hexc. injection He' as <-. rewrite Hexc. simpl.
      now rewrite <- app_assoc.
    + intros e' He' Hexc. injection He' as <-. now rewrite Hexc.
Qed.

Lemma check_service_running_verdict_witness :
  fst (check_service_running windows_exporter_service world_bare init_state) = Ok false
  /\ fst (check_service_running windows_exporter_service world_all_up init_state)
     = Ok true.
Proof.
  destruct (check_service_running_verdict windows_exporter_service world_bare
              init_state) as [_ [Herr _]].
  destruct (check_service_running_verdict windows_exporter_service world_all_up
              init_state) as [[_ Hrun] _].
  split.
  - rewrite (Herr (Exn OSError "sc: command not found")); reflexivity.
  - apply Hrun. eexists. split; reflexivity.
Defined.

(** ** Fail-fast at the other stages *)

(** X5. If the exporter stage does not succeed, [start_all_services] stops
    there: no probe is sent, no executable is looked up, no process is
    launched, both handles are as before, and the result is [False] (or the
    interrupt of the stage). *)
Theorem exporter_failure_stops_pipeline (self : monitor) (w : world)
    (s s1 : state) (r : result bool) :
  start_windows_exporter w
    (snd (log_message "Starting monitoring system..." "INFO" w s)) = (r, s1) ->
  r <> Ok true ->
  start_all_services self w s
  = (match r with Ok _ => Ok false | Raise e => Raise e end, s1)
  /\ prometheus_process s1 = prometheus_process s
  /\ alertmanager_process s1 = alertmanager_process s
  /\ exists new, trace s1 = trace s ++ new /\ Forall exporter_event new.
Proof.
  intros H1 Hr.
  assert (Hrun : start_all_services self w s
                 = (match r with Ok _ => Ok false | Raise e => Raise e end, s1)).
  { unfold start_all_services.
    rewrite (bind_ok _ _ w s _ _ (log_message_eq _ _ w s)).
    rewrite log_message_eq in H1. cbn [snd] in H1.
    destruct r as [[|] | e].
    - now contradiction Hr.
    - now rewrite (bind_ok _ _ _ _ _ _ H1).
    - now rewrite (bind_raise _ _ _ _ _ _ H1). }
  split; [exact Hrun |].
  assert (E : extends exporter_event false false s s1).
  { eapply extends_trans.
    - apply (respects_emit _ false false
               (EvLog "INFO" "Starting monitoring system...") I w s).
    - eapply extends_of_eq; [apply start_windows_exporter_footprint | exact H1]. }
  destruct E as [Htrace [Hp Ha]].
  repeat split; [now apply handle_step_frozen | now apply handle_step_frozen |].
  exact Htrace.
Qed.

Lemma exporter_failure_stops_pipeline_witness :
  fst (start_all_services sample_monitor world_bare init_state) = Ok false.
Proof.
  pose proof
    (exporter_failure_stops_pipeline sample_monitor world_bare init_state
       (snd (start_windows_exporter world_bare
               (snd (log_message "Starting monitoring system..." "INFO"
                       world_bare init_state))))
       (Ok false)) as H.
  destruct H as [Hrun _].
  - vm_compute. reflexivity.
  - discriminate.
  - rewrite Hrun. reflexivity.
Defined.

(** X6. If the first two stages succeed and the Prometheus stage does not,
    [start_all_services] stops there without verifying anything: its final
    state is the one in which [start_prometheus] returned.  Nothing is rolled
    back: no process is terminated and the Alertmanager handle is the one the
    second stage left. *)
Theorem prometheus_failure_stops_pipeline (self : monitor) (w : world)
    (s s1 s2 s3 : state) (r : result bool) :
  start_windows_exporter w
    (snd (log_message "Starting monitoring system..." "INFO" w s)) = (Ok true, s1) ->
  start_alertmanager self w s1 = (Ok true, s2) ->
  start_prometheus self w s2 = (r, s3) ->
  r <> Ok true ->
  start_all_services self w s
  = (match r with Ok _ => Ok false | Raise e => Raise e end, s3)
  /\ alertmanager_process s3 = alertmanager_process s2
  /\ exists new,
       trace s3 = trace s2 ++ new
       /\ Forall (stage_event (prometheus_path self) prometheus_url) new.
Proof.
  intros H1 H2 H3 Hr.
  assert (Hrun : start_all_services self w s
                 = (match r with Ok _ => Ok false | Raise e => Raise e end, s3)).
  { unfold start_all_services.
    rewrite (bind_ok _ _ w s _ _ (log_message_eq _ _ w s)).
    rewrite log_message_eq in H1. cbn [snd] in H1.
    rewrite (bind_ok _ _ _ _ _ _ H1). cbn [negb].
    rewrite (bind_ok _ _ _ _ _ _ H2). cbn [negb].
    destruct r as [[|] | e].
    - now contradiction Hr.
    - now rewrite (bind_ok _ _ _ _ _ _ H3).
    - now rewrite (bind_raise _ _ _ _ _ _ H3). }
  split; [exact Hrun |].
  destruct (extends_of_eq _ _ _ _ w s2 s3 r (start_prometheus_footprint self) H3)
    as [Htrace [_ Ha]].
  split; [now apply handle_step_frozen | exact Htrace].
Qed.

(** ** What a successful start guarantees *)

(** X7. [start_all_services] returns [True] only at the end of a
    verification pass in which the exporter metrics URL, Prometheus and
    Alertmanager all answered with status 200: the run ends with the three
    probes, their three success lines and the final success line. *)
Theorem success_means_verified (self : monitor) (w : world) (s s' : state) :
  start_all_services self w s = (Ok true, s') ->
  exists s3,
    probe w (clock s3) exporter_url 5 = true
    /\ probe w (clock s3 + 1) prometheus_url 5 = true
    /\ probe w (clock s3 + 2) alertmanager_url 5 = true
    /\ s' = with_trace s3
              (trace s3 ++ verify_events true true true
                 ++ [EvLog "SUCCESS" "All services started successfully!"])
              (clock s3 + 3).
Proof.
  unfold start_all_services. rewrite (bind_ok _ _ w s _ _ (log_message_eq _ _ w s)).
  match goal with
  | |- context [bind start_windows_exporter ?k w ?s0] =>
      destruct (start_windows_exporter w s0) as [[[|] | e] s1] eqn:E1;
      [ rewrite (bind_ok _ k w s0 _ _ E1)
      | rewrite (bind_ok _ k w s0 _ _ E1)
      | rewrite (bind_raise _ k w s0 _ _ E1) ]
  end; cbn [negb]; try discriminate.
  match goal with
  | |- context [bind (start_alertmanager self) ?k w s1] =>
      destruct (start_alertmanager self w s1) as [[[|] | e] s2] eqn:E2;
      [ rewrite (bind_ok _ k w s1 _ _ E2)
      | rewrite (bind_ok _ k w s1 _ _ E2)
      | rewrite (bind_raise _ k w s1 _ _ E2) ]
  end; cbn [negb]; try discriminate.
  match goal with
  | |- context [bind (start_prometheus self) ?k w s2] =>
      destruct (start_prometheus self w s2) as [[[|] | e] s3] eqn:E3;
      [ rewrite (bind_ok _ k w s2 _ _ E3)
      | rewrite (bind_ok _ k w s2 _ _ E3)
      | rewrite (bind_raise _ k w s2 _ _ E3) ]
  end; cbn [negb]; try discriminate.
  rewrite (bind_ok _ _ w s3 _ _ (verify_services_eq w s3)).
  destruct (probe w (clock s3) exporter_url 5) eqn:Ha;
    destruct (probe w (clock s3 + 1) prometheus_url 5) eqn:Hb;
    destruct (probe w (clock s3 + 2) alertmanager_url 5) eqn:Hc;
    cbn [andb]; repeat run_step; intros H; try discriminate H.
  exists s3. split; [exact Ha | split; [exact Hb | split; [exact Hc |]]].
  injection H as <-. reflexivity.
Qed.

Lemma success_means_verified_witness :
  exists s3,
    probe world_all_up (clock s3) exporter_url 5 = true
    /\ clock (snd (start_all_services sample_monitor world_all_up init_state))
       = clock s3 + 3.
Proof.
  destruct (success_means_verified sample_monitor world_all_up init_state
              (snd (start_all_services sample_monitor world_all_up init_state)))
    as [s3 [Ha [_ [_ Hs]]]].
  - vm_compute. reflexivity.
  - exists s3. split; [exact Ha |]. rewrite Hs. reflexivity.
Defined.

Lemma prometheus_failure_stops_pipeline_witness :
  fst (start_all_services sample_monitor world_prometheus_down init_state) = Ok false.
Proof.
  pose proof
    (prometheus_failure_stops_pipeline sample_monitor world_prometheus_down init_state
       (snd (start_windows_exporter world_prometheus_down
               (snd (log_message "Starting monitoring system..." "INFO"
                       world_prometheus_down init_state))))
       (snd (start_alertmanager sample_monitor world_prometheus_down
               (snd (start_windows_exporter world_prometheus_down
                       (snd (log_message "Starting monitoring system..." "INFO"
                               world_prometheus_down init_state))))))
       (snd (start_prometheus sample_monitor world_prometheus_down
               (snd (start_alertmanager sample_monitor world_prometheus_down
                       (snd (start_windows_exporter world_prometheus_down
                               (snd (log_message "Starting monitoring system..." "INFO"
                                       world_prometheus_down init_state))))))))
       (Ok false)) as H.
  destruct H as [Hrun _].
  - vm_compute. reflexivity.
  - vm_compute. reflexivity.
  - vm_compute. reflexivity.
  - discriminate.
  - rewrite Hrun. reflexivity.
Defined.

(** ** The two process stages *)

(** X8. When its URL does not answer and its executable is missing, a
    process stage gives up at once: it logs where it looked, returns
    [False], launches nothing, sleeps never and leaves the handles alone;
    it made two external calls, the probe and the file check.  This holds
    for [start_alertmanager] and for [start_prometheus]. *)
Theorem missing_executable_no_launch (self : monitor) (w : world) (s : state) :
  (probe w (clock s) alertmanager_url 5 = false ->
   os_path_exists w (S (clock s)) (alertmanager_path self) = false ->
   start_alertmanager self w s
   = (Ok false,
      with_trace s
        (trace s ++ [ EvLog "INFO" "Checking Alertmanager...";
                      EvGet alertmanager_url None 5;
                      EvExists (alertmanager_path self);
                      EvLog "ERROR" ("Alertmanager not found at: "
                                       ++ alertmanager_path self) ])
        (clock s + 2)))
  /\ (probe w (clock s) prometheus_url 5 = false ->
      os_path_exists w (S (clock s)) (prometheus_path self) = false ->
      start_prometheus self w s
      = (Ok false,
         with_trace s
           (trace s ++ [ EvLog "INFO" "Checking Prometheus...";
                         EvGet prometheus_url None 5;
                         EvExists (prometheus_path self);
                         EvLog "ERROR" ("Prometheus not found at: "
                                          ++ prometheus_path self) ])
           (clock s + 2))).
Proof.
  split; intros Hdown Hmissing.
  - unfold start_alertmanager. do 2 run_step. rewrite Hdown.
    match goal with
    | |- context [bind (os_path_exists_call ?p) ?k w ?s0] =>
        rewrite (bind_ok _ k w s0 _ _ (os_path_exists_call_eq p w s0))
    end.
    autorewrite with run. rewrite Hmissing. cbn [negb]. repeat run_step.
    replace (clock s + 2) with (S (S (clock s))) by lia. reflexivity.
  - unfold start_prometheus. do 2 run_step. rewrite Hdown.
    match goal with
    | |- context [bind (os_path_exists_call ?p) ?k w ?s0] =>
        rewrite (bind_ok _ k w s0 _ _ (os_path_exists_call_eq p w s0))
    end.
    autorewrite with run. rewrite Hmissing. cbn [negb]. repeat run_step.
    replace (clock s + 2) with (S (S (clock s))) by lia. reflexivity.
Qed.

Lemma missing_executable_no_launch_witness :
  fst (start_alertmanager sample_monitor world_bare init_state) = Ok false
  /\ fst (start_prometheus sample_monitor world_bare init_state) = Ok false.
Proof.
  destruct (missing_executable_no_launch sample_monitor world_bare init_state)
    as [Ham Hprom].
  split.
  - rewrite Ham; reflexivity.
  - rewrite Hprom; reflexivity.
Defined.

Lemma subprocess_Popen_call_eq (cmd : list string) (cwd : string) (w : world) (s : state) :
  subprocess_Popen_call cmd cwd w s
  = (match subprocess_Popen w (clock s) cmd cwd with
     | Launched h => Ok h
     | PopenRaises e => Raise e
     end,
     with_trace s (trace s ++ [EvPopen cmd cwd]) (S (clock s))).
Proof. reflexivity. Qed.

(** X9. When [subprocess.Popen] raises an [Exception], a process stage
    logs the error and returns [False] at once: nothing is polled, nothing is
    slept, and the handle is not written.  An interrupt raised by the launch
    is not caught and reaches the caller.  This holds for
    [start_alertmanager] and for [start_prometheus]. *)
Theorem launch_failure_reported (self : monitor) (w : world) (s : state) (e : exn) :
  let am_dir := os_path_dirname w (alertmanager_path self) in
  let am_cmd := [alertmanager_path self;
                 ("--config.file=" ++ os_path_join w am_dir "alertmanager.yml")%string] in
  let prom_dir := os_path_dirname w (prometheus_path self) in
  let prom_cwd := if (prom_dir =? EmptyString)%string then os_getcwd w else prom_dir in
  let prom_cmd := [prometheus_path self;
                   ("--config.file=" ++ config_file self)%string] in
  (probe w (clock s) alertmanager_url 5 = false ->
   os_path_exists w (S (clock s)) (alertmanager_path self) = true ->
   subprocess_Popen w (S (S (clock s))) am_cmd am_dir = PopenRaises e ->
   start_alertmanager self w s
   = if is_Exception e then
       (Ok false,
        with_trace s
          (trace s ++ [ EvLog "INFO" "Checking Alertmanager...";
                        EvGet alertmanager_url None 5;
                        EvExists (alertmanager_path self);
                        EvLog "INFO" "Starting Alertmanager...";
                        EvPopen am_cmd am_dir;
                        EvLog "ERROR" ("Error starting Alertmanager: " ++ str_of_exn e) ])
          (clock s + 3))
     else
       (Raise e,
        with_trace s
          (trace s ++ [ EvLog "INFO" "Checking Alertmanager...";
                        EvGet alertmanager_url None 5;
                        EvExists (alertmanager_path self);
                        EvLog "INFO" "Starting Alertmanager...";
                        EvPopen am_cmd am_dir ])
          (clock s + 3)))
  /\ (probe w (clock s) prometheus_url 5 = false ->
      os_path_exists w (S (clock s)) (prometheus_path self) = true ->
      subprocess_Popen w (S (S (clock s))) prom_cmd prom_cwd = PopenRaises e ->
      start_prometheus self w s
      = if is_Exception e then
          (Ok false,
           with_trace s
             (trace s ++ [ EvLog "INFO" "Checking Prometheus...";
                           EvGet prometheus_url None 5;
                           EvExists (prometheus_path self);
                           EvLog "INFO" "Starting Prometheus...";
                           EvPopen prom_cmd prom_cwd;
                           EvLog "ERROR" ("Error starting Prometheus: " ++ str_of_exn e) ])
             (clock s + 3))
        else
          (Raise e,
           with_trace s
             (trace s ++ [ EvLog "INFO" "Checking Prometheus...";
                           EvGet prometheus_url None 5;
                           EvExists (prometheus_path self);
                           EvLog "INFO" "Starting Prometheus...";
                           EvPopen prom_cmd prom_cwd ])
             (clock s + 3))).
Proof.
  intros am_dir am_cmd prom_dir prom_cwd prom_cmd.
  replace (clock s + 3) with (S (S (S (clock s)))) by lia.
  split; intros Hdown Hexists Hraise.
  - unfold start_alertmanager. do 2 run_step. rewrite Hdown.
    match goal with
    | |- context [bind (os_path_exists_call ?p) ?k w ?s0] =>
        rewrite (bind_ok _ k w s0 _ _ (os_path_exists_call_eq p w s0))
    end.
    autorewrite with run. rewrite Hexists. cbn [negb]. run_step.
    unfold try_except. do 2 run_step. fold am_dir. fold am_cmd.
    unfold bind at 1. rewrite subprocess_Popen_call_eq. autorewrite with run.
    rewrite Hraise. destruct (is_Exception e); [repeat run_step |]; reflexivity.
  - unfold start_prometheus. do 2 run_step. rewrite Hdown.
    match goal with
    | |- context [bind (os_path_exists_call ?p) ?k w ?s0] =>
        rewrite (bind_ok _ k w s0 _ _ (os_path_exists_call_eq p w s0))
    end.
    autorewrite with run. rewrite Hexists. cbn [negb]. run_step.
    unfold try_except. do 2 run_step. fold prom_dir. fold prom_cwd. fold prom_cmd.
    unfold bind at 1. rewrite subprocess_Popen_call_eq. autorewrite with run.
    rewrite Hraise. destruct (is_Exception e); [repeat run_step |]; reflexivity.
Qed.

Lemma launch_failure_reported_witness :
  fst (start_alertmanager sample_monitor world_launch_denied init_state) = Ok false
  /\ fst (start_prometheus sample_monitor world_launch_denied init_state) = Ok false.
Proof.
  destruct (launch_failure_reported sample_monitor world_launch_denied init_state
              (Exn OSError "access denied")) as [Ham Hprom].
  split.
  - rewrite Ham; reflexivity.
  - rewrite Hprom; reflexivity.
Defined.

Lemma stage_events_never_terminate (exe url : string) (new : list event) :
  Forall (stage_event exe url) new -> count is_terminate new = 0.
Proof.
  induction 1 as [| ev new Hev _ IH]; [reflexivity |].
  unfold count in *. destruct ev; simpl in *; try exact IH. contradiction.
Qed.

(** X10. Once [start_alertmanager] has launched the process, the handle it
    got is stored whatever the readiness poll returns, and the stage never
    terminates the process: when all ten probes fail the stage returns
    [False] after 13 external calls with the handle still populated. *)
Theorem alertmanager_handle_kept (self : monitor) (w : world) (s : state) (h : handle) :
  let dir := os_path_dirname w (alertmanager_path self) in
  let cmd := [alertmanager_path self;
              ("--config.file=" ++ os_path_join w dir "alertmanager.yml")%string] in
  probe w (clock s) alertmanager_url 5 = false ->
  os_path_exists w (S (clock s)) (alertmanager_path self) = true ->
  subprocess_Popen w (S (S (clock s))) cmd dir = Launched h ->
  (exists b s',
      start_alertmanager self w s = (Ok b, s')
      /\ alertmanager_process s' = Some h
      /\ prometheus_process s' = prometheus_process s
      /\ exists new, trace s' = trace s ++ new /\ count is_terminate new = 0)
  /\ ((forall j, j < 10 -> probe w (clock s + 3 + j) alertmanager_url 5 = false) ->
      fst (start_alertmanager self w s) = Ok false
      /\ alertmanager_process (snd (start_alertmanager self w s)) = Some h
      /\ clock (snd (start_alertmanager self w s)) = clock s + 13).
Proof.
  intros dir cmd Hdown Hexists Hlaunch.
  pose proof (start_alertmanager_polls self w s h Hdown Hexists Hlaunch) as Hrun.
  fold dir cmd in Hrun.
  split.
  - destruct (poll_from_total "Alertmanager" alertmanager_url 2 10 w (seq 0 10)
                (State (S (S (S (clock s))))
                   (trace s ++ [ EvLog "INFO" "Checking Alertmanager...";
                                 EvGet alertmanager_url None 5;
                                 EvExists (alertmanager_path self);
                                 EvLog "INFO" "Starting Alertmanager...";
                                 EvPopen cmd dir ])
                   (prometheus_process s) (Some h))) as [b [s' Hpoll]].
    unfold wait_for_start in Hrun. rewrite Hpoll in Hrun.
    exists b, s'. split; [exact Hrun |].
    destruct (extends_of_eq _ _ _ _ _ _ _ _
                (poll_from_footprint (alertmanager_path self) "Alertmanager"
                   alertmanager_url 10 false false (seq 0 10)) Hpoll)
      as [_ [Hp Ha]].
    apply handle_step_frozen in Hp. apply handle_step_frozen in Ha.
    split; [exact Ha | split; [exact Hp |]].
    destruct (extends_of_eq _ _ _ _ _ _ _ _ (start_alertmanager_footprint self) Hrun)
      as [[new [E F]] _].
    exists new. split; [exact E |].
    now apply (stage_events_never_terminate (alertmanager_path self) alertmanager_url).
  - intros Hfail. rewrite Hrun. unfold wait_for_start.
    rewrite poll_from_exhausted.
    + rewrite length_seq. cbn [fst snd]. autorewrite with run.
      cbn [clock alertmanager_process]. repeat split. lia.
    + rewrite length_seq. cbn [clock]. intros j Hj.
      replace (S (S (S (clock s))) + j) with (clock s + 3 + j) by lia.
      now apply Hfail.
Qed.

Lemma alertmanager_handle_kept_witness :
  alertmanager_process (snd (start_alertmanager sample_monitor world_never_up init_state))
  = Some 2.
Proof.
  destruct (alertmanager_handle_kept sample_monitor world_never_up init_state 2)
    as [_ Htimeout]; [reflexivity | reflexivity | reflexivity |].
  destruct Htimeout as [_ [Hh _]]; [intros j Hj; reflexivity |].
  exact Hh.
Defined.

(** X11. Once [start_prometheus] has launched the process, the handle it
    got is stored whatever the readiness poll returns, and the stage never
    terminates the process: when all fifteen probes fail the stage returns
    [False] after 18 external calls with the handle still populated. *)
Theorem prometheus_handle_kept (self : monitor) (w : world) (s : state) (h : handle) :
  let dir := os_path_dirname w (prometheus_path self) in
  let cwd := if (dir =? EmptyString)%string then os_getcwd w else dir in
  let cmd := [prometheus_path self;
              ("--config.file=" ++ config_file self)%string] in
  probe w (clock s) prometheus_url 5 = false ->
  os_path_exists w (S (clock s)) (prometheus_path self) = true ->
  subprocess_Popen w (S (S (clock s))) cmd cwd = Launched h ->
  (exists b s',
      start_prometheus self w s = (Ok b, s')
      /\ prometheus_process s' = Some h
      /\ alertmanager_process s' = alertmanager_process s
      /\ exists new, trace s' = trace s ++ new /\ count is_terminate new = 0)
  /\ ((forall j, j < 15 -> probe w (clock s + 3 + j) prometheus_url 5 = false) ->
      fst (start_prometheus self w s) = Ok false
      /\ prometheus_process (snd (start_prometheus self w s)) = Some h
      /\ clock (snd (start_prometheus self w s)) = clock s + 18).
Proof.
  intros dir cwd cmd Hdown Hexists Hlaunch.
  pose proof (start_prometheus_polls self w s h Hdown Hexists Hlaunch) as Hrun.
  fold dir cwd cmd in Hrun.
  split.
  - destruct (poll_from_total "Prometheus" prometheus_url 2 15 w (seq 0 15)
                (State (S (S (S (clock s))))
                   (trace s ++ [ EvLog "INFO" "Checking Prometheus...";
                                 EvGet prometheus_url None 5;
                                 EvExists (prometheus_path self);
                                 EvLog "INFO" "Starting Prometheus...";
                                 EvPopen cmd cwd ])
                   (Some h) (alertmanager_process s))) as [b [s' Hpoll]].
    unfold wait_for_start in Hrun. rewrite Hpoll in Hrun.
    exists b, s'. split; [exact Hrun |].
    destruct (extends_of_eq _ _ _ _ _ _ _ _
                (poll_from_footprint (prometheus_path self) "Prometheus"
                   prometheus_url 15 false false (seq 0 15)) Hpoll)
      as [_ [Hp Ha]].
    apply handle_step_frozen in Hp. apply handle_step_frozen in Ha.
    split; [exact Hp | split; [exact Ha |]].
    destruct (extends_of_eq _ _ _ _ _ _ _ _ (start_prometheus_footprint self) Hrun)
      as [[new [E F]] _].
    exists new. split; [exact E |].
    now apply (stage_events_never_terminate (prometheus_path self) prometheus_url).
  - intros Hfail. rewrite Hrun. unfold wait_for_start.
    rewrite poll_from_exhausted.
    + rewrite length_seq. cbn [fst snd]. autorewrite with run.
      cbn [clock prometheus_process]. repeat split. lia.
    + rewrite length_seq. cbn [clock]. intros j Hj.
      replace (S (S (S (clock s))) + j) with (clock s + 3 + j) by lia.
      now apply Hfail.
Qed.

Lemma prometheus_handle_kept_witness :
  prometheus_process (snd (start_prometheus sample_monitor world_never_up init_state))
  = Some 2.
Proof.
  destruct (prometheus_handle_kept sample_monitor world_never_up init_state 2)
    as [_ Htimeout]; [reflexivity | reflexivity | reflexivity |].
  destruct Htimeout as [_ [Hh _]]; [intros j Hj; reflexivity |].
  exact Hh.
Defined.

(** ** [main] *)

Lemma startup_events_never_terminate (self : monitor) (new : list event) :
  Forall (startup_event self) new -> count is_terminate new = 0.
Proof.
  induction 1 as [| ev new Hev _ IH]; [reflexivity |].
  unfold count in *. destruct ev; simpl in *; try exact IH.
  destruct Hev as [H | [H | [H | H]]]; contradiction.
Qed.

(** X12. When [start_all_services] returns [False], [main] ends there and
    returns normally: nothing is reported, and [stop_services] is not
    called, so a process that the failed start had launched is neither
    terminated nor forgotten. *)
Theorem failed_start_skips_shutdown (cycles : nat) (self : monitor) (w : world)
    (s s0 s1 : state) :
  init w s = (Ok self, s0) ->
  start_all_services self w
    (with_trace s0
       (trace s0 ++ [ EvPrint (newline ++ str_repeat "=" 60);
                      EvPrint "  SYSTEM MONITORING - AUTOMATED LAUNCHER";
                      EvPrint (str_repeat "=" 60) ])
       (clock s0))
  = (Ok false, s1) ->
  main cycles w s = (Ok tt, s1)
  /\ exists new,
       trace s1 = trace s0 ++ new
       /\ count is_terminate new = 0.
Proof.
  intros Hinit Hstart. split.
  - unfold main. rewrite (bind_ok _ _ w s _ _ Hinit).
    apply try_except_ok. do 3 run_step.
    rewrite (bind_ok _ _ _ _ _ _ Hstart). reflexivity.
  - destruct (extends_of_eq _ _ _ _ _ _ _ _ (start_all_services_footprint self) Hstart)
      as [[new [E F]] _].
    autorewrite with run in E. eexists. split; [exact E |].
    rewrite !count_app, (startup_events_never_terminate self new F). reflexivity.
Qed.

Lemma failed_start_skips_shutdown_witness :
  fst (main 5 world_never_up init_state) = Ok tt
  /\ alertmanager_process (snd (main 5 world_never_up init_state)) = Some 6.
Proof.
  destruct (failed_start_skips_shutdown 5
              (Monitor "C:/monitor/prometheus-3.7.2.windows-amd64/prometheus.exe"
                       "C:/monitor/alertmanager-0.28.1.windows-amd64/alertmanager.exe"
                       "C:/monitor/dashboard.html" "C:/monitor/prometheus.yml"
                       "C:/monitor/monitoring.log")
              world_never_up init_state
              (snd (init world_never_up init_state))
              (snd (main 5 world_never_up init_state)))
    as [Hrun _].
  - vm_compute. reflexivity.
  - vm_compute. reflexivity.
  - rewrite Hrun. split; vm_compute; reflexivity.
Defined.



(** ** Interrupts during a probe *)

Lemma sleep_seconds_waiting_rounds (name url : string) (interval max_retries : nat)
    (range : list nat) :
  sleep_seconds (flat_map (waiting_round name url interval max_retries) range)
  = interval * List.length range.
Proof.
  induction range as [| i range IH]; [simpl; lia |].
  cbn [flat_map]. rewrite sleep_seconds_app, IH. cbn [List.length]. simpl. lia.
Qed.

(** X14. A request that raises inside a readiness probe, an interrupt from
    the keyboard included, does not leave the retry loop of
    [start_alertmanager] or [start_prometheus]: the bare [except] of
    [check_url_accessible] turns it into a failed attempt.  So when every
    probe request after the launch raises, and the sleeps between the probes
    return, the method sleeps all its rounds (20 and 30 seconds), returns
    [False] and keeps the handle. *)
Theorem readiness_poll_swallows_exceptions (self : monitor) (w : world) (s : state)
    (h : handle) :
  (probe w (clock s) alertmanager_url 5 = false ->
   os_path_exists w (S (clock s)) (alertmanager_path self) = true ->
   subprocess_Popen w (S (S (clock s)))
     [alertmanager_path self;
      ("--config.file="
         ++ os_path_join w (os_path_dirname w (alertmanager_path self))
              "alertmanager.yml")%string]
     (os_path_dirname w (alertmanager_path self))
   = Launched h ->
   (forall j, j < 10 ->
              exists e, requests_get w (clock s + 3 + j) alertmanager_url None 5
                        = RequestRaises e) ->
   fst (start_alertmanager self w s) = Ok false
   /\ clock (snd (start_alertmanager self w s)) = clock s + 13
   /\ sleep_seconds (trace (snd (start_alertmanager self w s)))
      = sleep_seconds (trace s) + 20
   /\ alertmanager_process (snd (start_alertmanager self w s)) = Some h)
  /\ (probe w (clock s) prometheus_url 5 = false ->
      os_path_exists w (S (clock s)) (prometheus_path self) = true ->
      subprocess_Popen w (S (S (clock s)))
        [prometheus_path self; ("--config.file=" ++ config_file self)%string]
        (if (os_path_dirname w (prometheus_path self) =? EmptyString)%string
         then os_getcwd w
         else os_path_dirname w (prometheus_path self))
      = Launched h ->
      (forall j, j < 15 ->
                 exists e, requests_get w (clock s + 3 + j) prometheus_url None 5
                           = RequestRaises e) ->
      fst (start_prometheus self w s) = Ok false
      /\ clock (snd (start_prometheus self w s)) = clock s + 18
      /\ sleep_seconds (trace (snd (start_prometheus self w s)))
         = sleep_seconds (trace s) + 30
      /\ prometheus_process (snd (start_prometheus self w s)) = Some h).
Proof.
  split; intros Hdown Hexists Hlaunch Hraise.
  - rewrite (start_alertmanager_polls self w s h Hdown Hexists Hlaunch).
    unfold wait_for_start. rewrite poll_from_exhausted.
    + rewrite length_seq. cbn [fst snd]. autorewrite with run.
      cbn [clock trace alertmanager_process].
      rewrite !sleep_seconds_app, sleep_seconds_waiting_rounds, length_seq.
      simpl. repeat split; lia.
    + rewrite length_seq. cbn [clock]. intros j Hj. unfold probe.
      replace (S (S (S (clock s))) + j) with (clock s + 3 + j) by lia.
      destruct (Hraise j Hj) as [e He]. now rewrite He.
  - rewrite (start_prometheus_polls self w s h Hdown Hexists Hlaunch).
    unfold wait_for_start. rewrite poll_from_exhausted.
    + rewrite length_seq. cbn [fst snd]. autorewrite with run.
      cbn [clock trace prometheus_process].
      rewrite !sleep_seconds_app, sleep_seconds_waiting_rounds, length_seq.
      simpl. repeat split; lia.
    + rewrite length_seq. cbn [clock]. intros j Hj. unfold probe.
      replace (S (S (S (clock s))) + j) with (clock s + 3 + j) by lia.
      destruct (Hraise j Hj) as [e He]. now rewrite He.
Qed.

Lemma readiness_poll_swallows_exceptions_witness :
  fst (start_alertmanager sample_monitor world_interrupted init_state) = Ok false
  /\ fst (start_prometheus sample_monitor world_interrupted init_state) = Ok false.
Proof.
  destruct (readiness_poll_swallows_exceptions sample_monitor world_interrupted
              init_state 2) as [Ham Hprom].
  split.
  - apply Ham; try reflexivity. intros j Hj. eexists. reflexivity.
  - apply Hprom; try reflexivity. intros j Hj. eexists. reflexivity.
Defined.

(** ** The alert display *)

Lemma requests_get_call_eq (url : string) (params : option string) (timeout : nat)
    (w : world) (s : state) :
  requests_get_call url params timeout w s
  = (match requests_get w (clock s) url params timeout with
     | Responded r => Ok r
     | RequestRaises e => Raise e
     end,
     with_trace s (trace s ++ [EvGet url params timeout]) (S (clock s))).
Proof. reflexivity. Qed.

Lemma requests_get_call_responded (url : string) (params : option string)
    (timeout : nat) (w : world) (s : state) (r : response) :
  requests_get w (clock s) url params timeout = Responded r ->
  requests_get_call url params timeout w s
  = (Ok r, with_trace s (trace s ++ [EvGet url params timeout]) (S (clock s))).
Proof. intros H. now rewrite requests_get_call_eq, H. Qed.

Lemma bind_lift_ok {A B} (r : result A) (a : A) (k : A -> M B) (w : world) (s : state) :
  r = Ok a -> bind (lift r) k w s = k a w s.
Proof. intros ->. reflexivity. Qed.

Lemma bind_lift_raise {A B} (r : result A) (e : exn) (k : A -> M B)
    (w : world) (s : state) :
  r = Raise e -> bind (lift r) k w s = (Raise e, s).
Proof. intros ->. reflexivity. Qed.

Lemma print_alert_eq (alert : json) (w : world) (s : state) :
  print_alert alert w s
  = match render_alert w alert with
    | Ok line => (Ok tt, with_trace s (trace s ++ [EvPrint line]) (clock s))
    | Raise e => (Raise e, s)
    end.
Proof.
  unfold print_alert, render_alert, bind, lift, ask, ask_result, print, emit, rbind,
    with_trace.
  destruct (subscript alert "state") as [status | e]; [| reflexivity].
  destruct (subscript alert "labels") as [labels | e]; [| reflexivity].
  destruct (subscript labels "alertname") as [name | e]; [| reflexivity].
  destruct (dot_get labels "severity" (JStr "unknown")) as [severity | e];
    [| reflexivity].
  destruct (format_ljust20 name) as [name_text | e]; [| reflexivity].
  destruct (dot_upper w status) as [status_text | e]; reflexivity.
Qed.

Lemma render_plain_alert (w : world) (alert : json) :
  is_plain alert -> render_alert w alert = Ok (alert_row w alert).
Proof.
  unfold is_plain, alert_row, plain_alert, render_alert.
  destruct alert as [| | | | | | fields]; try congruence.
  simpl. destruct (dict_get "state" fields) as [[| | | | state | |] |]; try congruence.
  destruct (dict_get "labels" fields) as [[| | | | | | labels] |]; try congruence.
  simpl. destruct (dict_get "alertname" labels) as [[| | | | name | |] |];
    try congruence.
  intros _. simpl. destruct (dict_get "severity" labels); reflexivity.
Qed.

Lemma alerts_loop_plain (w : world) (alerts : list json) :
  Forall is_plain alerts ->
  forall s,
    alerts_loop alerts w s
    = (Ok tt,
       with_trace s (trace s ++ map (fun a => EvPrint (alert_row w a)) alerts)
         (clock s)).
Proof.
  induction 1 as [| alert alerts Hplain _ IH]; intros s; cbn [alerts_loop map].
  - run_step. rewrite app_nil_r. now destruct s.
  - unfold bind at 1. rewrite print_alert_eq, (render_plain_alert w alert Hplain).
    rewrite IH. autorewrite with run. reflexivity.
Qed.

Lemma alerts_loop_broken (w : world) (good : list json) (bad : json)
    (rest : list json) (e : exn) :
  Forall is_plain good ->
  render_alert w bad = Raise e ->
  forall s,
    alerts_loop (good ++ bad :: rest) w s
    = (Raise e,
       with_trace s (trace s ++ map (fun a => EvPrint (alert_row w a)) good)
         (clock s)).
Proof.
  intros Hgood Hbad. induction Hgood as [| alert good Hplain _ IH]; intros s;
    cbn [app alerts_loop map].
  - unfold bind at 1. rewrite print_alert_eq, Hbad. rewrite app_nil_r.
    now destruct s.
  - unfold bind at 1. rewrite print_alert_eq, (render_plain_alert w alert Hplain).
    rewrite IH. autorewrite with run. reflexivity.
Qed.

(** X15. When the alerts endpoint answers 200 with a list of alerts of the
    usual shape, [check_alerts] prints the heading, then one line per alert
    in the order received (name padded with spaces to 20 characters, state
    through [upper()], severity when the labels give one and [unknown]
    otherwise) or the
    single line [No active alerts] when the list is empty, then the closing
    rule; it logs nothing. *)
Theorem check_alerts_displays (w : world) (s : state) (r : response)
    (data d : json) (alerts : list json) :
  requests_get w (clock s) alerts_endpoint None 5 = Responded r ->
  status_code r = 200%Z ->
  body r = Some data ->
  subscript data "data" = Ok d ->
  subscript d "alerts" = Ok (JArr alerts) ->
  Forall is_plain alerts ->
  check_alerts w s
  = (Ok tt,
     with_trace s
       (trace s ++ [EvGet alerts_endpoint None 5] ++ alerts_header
          ++ match alerts with
             | [] => [EvPrint "  No active alerts"]
             | _ => map (fun a => EvPrint (alert_row w a)) alerts
             end
          ++ [EvPrint (str_repeat "=" 60)])
       (S (clock s))).
Proof.
  intros Hget Hstatus Hbody Hdata Halerts Hplain.
  unfold check_alerts. apply try_except_ok.
  rewrite (bind_ok _ _ w s _ _ (requests_get_call_responded _ _ _ w s r Hget)).
  rewrite Hstatus. cbn [Z.eqb Pos.eqb].
  rewrite (bind_lift_ok _ data); [| unfold response_json; now rewrite Hbody].
  rewrite (bind_lift_ok _ d _ _ _ Hdata).
  rewrite (bind_lift_ok _ (JArr alerts) _ _ _ Halerts).
  do 3 run_step. unfold alerts_header.
  destruct alerts as [| alert alerts].
  - cbn [truthy negb]. unfold bind at 1. rewrite print_eq. run_step.
    reflexivity.
  - cbn [truthy negb]. unfold bind at 1. unfold bind at 1. unfold lift at 1.
    cbn [iterate]. rewrite (alerts_loop_plain w (alert :: alerts) Hplain).
    run_step. reflexivity.
Qed.

Lemma check_alerts_displays_witness :
  trace (snd (check_alerts world_alerting init_state))
  = [ EvGet alerts_endpoint None 5;
      EvPrint (newline ++ str_repeat "=" 60);
      EvPrint "  ALERT STATUS";
      EvPrint (str_repeat "=" 60);
      EvPrint "  HighCPUUsage        : FIRING (warning)";
      EvPrint (str_repeat "=" 60) ].
Proof.
  rewrite (check_alerts_displays world_alerting init_state
             (Response 200 (Some alerts_payload) EmptyString) alerts_payload
             (JObj [ ("alerts",
                      JArr [ JObj [ ("labels", JObj [ ("alertname", JStr "HighCPUUsage");
                                                      ("severity", JStr "warning") ]);
                                    ("state", JStr "firing") ] ]) ])
             [ JObj [ ("labels", JObj [ ("alertname", JStr "HighCPUUsage");
                                        ("severity", JStr "warning") ]);
                      ("state", JStr "firing") ] ]);
    try reflexivity.
  repeat constructor. discriminate.
Defined.

(** X16. When an alert of the list cannot be shown (it has no [state], no
    [labels] or no [alertname], or one of them has the wrong type), the
    alerts before it have already been printed under the heading; the loop
    stops there: the remaining alerts and the closing rule are not printed,
    one [ERROR] line is logged, carrying [str(e)] of the exception the alert
    raised, and [check_alerts] returns normally. *)
Theorem check_alerts_stops_at_bad_alert (w : world) (s : state) (r : response)
    (data d : json) (good : list json) (bad : json) (rest : list json) (e : exn) :
  requests_get w (clock s) alerts_endpoint None 5 = Responded r ->
  status_code r = 200%Z ->
  body r = Some data ->
  subscript data "data" = Ok d ->
  subscript d "alerts" = Ok (JArr (good ++ bad :: rest)) ->
  Forall is_plain good ->
  render_alert w bad = Raise e ->
  check_alerts w s
  = (Ok tt,
     with_trace s
       (trace s ++ [EvGet alerts_endpoint None 5] ++ alerts_header
          ++ map (fun a => EvPrint (alert_row w a)) good
          ++ [EvLog "ERROR" ("Error checking alerts: " ++ str_of_exn e)])
       (S (clock s))).
Proof.
  intros Hget Hstatus Hbody Hdata Halerts Hgood Hbad.
  assert (Hexc : is_Exception e = true).
  { pose proof (safe_print_alert bad w s) as Hs.
    rewrite print_alert_eq, Hbad in Hs. exact Hs. }
  unfold check_alerts.
  match goal with
  | |- try_except ?m ?c ?h w s = _ =>
      assert (Hbody' : m w s
                = (Raise e,
                   with_trace s
                     (trace s ++ [EvGet alerts_endpoint None 5] ++ alerts_header
                        ++ map (fun a => EvPrint (alert_row w a)) good)
                     (S (clock s))))
  end.
  { rewrite (bind_ok _ _ w s _ _ (requests_get_call_responded _ _ _ w s r Hget)).
    rewrite Hstatus. cbn [Z.eqb Pos.eqb].
    rewrite (bind_lift_ok _ data); [| unfold response_json; now rewrite Hbody].
    rewrite (bind_lift_ok _ d _ _ _ Hdata).
    rewrite (bind_lift_ok _ (JArr (good ++ bad :: rest)) _ _ _ Halerts).
    do 3 run_step. unfold alerts_header.
    assert (Htruthy : truthy (JArr (good ++ bad :: rest)) = true)
      by (destruct good; reflexivity).
    rewrite Htruthy. cbn [negb]. unfold bind at 1. unfold bind at 1.
    unfold lift at 1. cbn [iterate].
    rewrite (alerts_loop_broken w good bad rest e Hgood Hbad).
    autorewrite with run. reflexivity. }
  unfold try_except. rewrite Hbody', Hexc. run_step. reflexivity.
Qed.

Lemma check_alerts_stops_at_bad_alert_witness :
  trace (snd (check_alerts world_broken_alert init_state))
  = [ EvGet alerts_endpoint None 5;
      EvPrint (newline ++ str_repeat "=" 60);
      EvPrint "  ALERT STATUS";
      EvPrint (str_repeat "=" 60);
      EvPrint "  HighCPUUsage        : FIRING (warning)";
      EvLog "ERROR" "Error checking alerts: 'state'" ].
Proof.
  rewrite (check_alerts_stops_at_bad_alert world_broken_alert init_state
             (Response 200 (Some broken_alerts_payload) EmptyString) broken_alerts_payload
             (JObj [ ("alerts",
                      JArr [ firing_alert;
                             JObj [ ("labels", JObj [ ("alertname", JStr "DiskFull") ]) ];
                             firing_alert ]) ])
             [firing_alert]
             (JObj [ ("labels", JObj [ ("alertname", JStr "DiskFull") ]) ])
             [firing_alert]
             (Exn KeyError "'state'"));
    try reflexivity.
  repeat constructor. discriminate.
Defined.

(** ** The dashboard *)

(** X17. [open_dashboards] makes one browser call, for the [file:///] URL
    of the absolute dashboard path.  A browser that raises an [Exception]
    does not abort the launcher: the failure is logged and the method returns
    normally; only an interrupt reaches the caller. *)
Theorem open_dashboards_logs_failure (self : monitor) (w : world) (s : state) :
  let url := ("file:///" ++ os_path_abspath w (dashboard_path self))%string in
  let opening := [ EvLog "INFO" "Opening monitoring dashboards..."; EvBrowser url ] in
  (webbrowser_open w (clock s) url = None ->
   open_dashboards self w s
   = (Ok tt,
      with_trace s
        (trace s ++ opening
           ++ [EvLog "SUCCESS" ("Opened HTML Dashboard: " ++ url)])
        (S (clock s))))
  /\ (forall e,
        webbrowser_open w (clock s) url = Some e ->
        open_dashboards self w s
        = if is_Exception e then
            (Ok tt,
             with_trace s
               (trace s ++ opening
                  ++ [EvLog "ERROR" ("Failed to open HTML dashboard: " ++ str_of_exn e)])
               (S (clock s)))
          else
            (Raise e, with_trace s (trace s ++ opening) (S (clock s)))).
Proof.
  intros url opening. unfold opening.
  split; [intros Hopen | intros e Hopen];
    unfold open_dashboards; run_step; unfold try_except; run_step; fold url;
    unfold bind at 1, webbrowser_open_call, external; autorewrite with run;
    rewrite Hopen.
  - run_step. unfold with_trace. cbn [trace clock prometheus_process
      alertmanager_process]. rewrite <- ?app_assoc. reflexivity.
  - destruct (is_Exception e); [run_step |]; unfold with_trace;
      cbn [trace clock prometheus_process alertmanager_process];
      rewrite <- ?app_assoc; reflexivity.
Qed.

Lemma open_dashboards_logs_failure_witness :
  fst (open_dashboards sample_monitor world_no_browser init_state) = Ok tt
  /\ fst (open_dashboards sample_monitor world_all_up init_state) = Ok tt.
Proof.
  destruct (open_dashboards_logs_failure sample_monitor world_no_browser init_state)
    as [_ Hfail].
  destruct (open_dashboards_logs_failure sample_monitor world_all_up init_state)
    as [Hok _].
  split.
  - rewrite (Hfail (Exn OtherException "could not locate runnable browser"));
      reflexivity.
  - rewrite Hok; reflexivity.
Defined.

(** ** Metric answers that cannot be read *)

(** X18. A metric answer that is JSON but lacks what the display needs
    gives [Unable to fetch] for its entry: no [status], a success without
    [data] or without [result], a first result without [value], or a value
    that is not the text of a number. *)
Theorem unreadable_metric_unavailable (name query : string) (w : world) (s : state)
    (response : response) (data : json) :
  requests_get w (clock s) query_endpoint (Some query) 5 = Responded response ->
  body response = Some data ->
  (exists e, subscript data "status" = Raise e)
  \/ (subscript data "status" = Ok (JStr "success")
      /\ ((exists e, subscript data "data" = Raise e)
          \/ exists d,
               subscript data "data" = Ok d
               /\ ((exists e, subscript d "result" = Raise e)
                   \/ exists r0 more,
                        subscript d "result" = Ok (JArr (r0 :: more))
                        /\ ((exists e, subscript r0 "value" = Raise e)
                            \/ exists ts text,
                                 subscript r0 "value" = Ok (JArr [ts; JStr text])
                                 /\ float_of_string w text = None)))) ->
  fetch_metric name query w s
  = (Ok tt,
     with_trace s
       (trace s ++ [ EvGet query_endpoint (Some query) 5;
                     EvPrint ("  " ++ name ++ ": Unable to fetch") ])
       (S (clock s))).
Proof.
  intros Hget Hbody Hbad.
  assert (Hline : metric_line w name (Responded response)
                  = [EvPrint ("  " ++ name ++ ": Unable to fetch")]).
  { unfold metric_line, read_metric, response_json. rewrite Hbody. cbn [rbind].
    destruct Hbad as [[e Hs] | [Hs Hbad]]; rewrite Hs; cbn [rbind eq_str];
      [reflexivity |].
    cbn [String.eqb Ascii.eqb Bool.eqb].
    destruct Hbad as [[e Hd] | [d [Hd Hbad]]]; rewrite Hd; cbn [rbind];
      [reflexivity |].
    destruct Hbad as [[e Hr] | [r0 [more [Hr Hbad]]]]; rewrite Hr; cbn [rbind];
      [reflexivity |].
    cbn [truthy index nth_error rbind].
    destruct Hbad as [[e Hv] | [ts [text [Hv Hf]]]]; rewrite Hv; cbn [rbind];
      [reflexivity |].
    cbn [index nth_error rbind py_float]. rewrite Hf. reflexivity. }
  rewrite fetch_metric_eq, Hget, Hline. reflexivity.
Qed.

Lemma unreadable_metric_unavailable_witness :
  trace (snd (fetch_metric "CPU Usage" "up" world_bad_value init_state))
  = [ EvGet query_endpoint (Some "up") 5; EvPrint "  CPU Usage: Unable to fetch" ].
Proof.
  rewrite (unreadable_metric_unavailable "CPU Usage" "up" world_bad_value init_state
             (Response 200 (Some (metric_payload "n/a")) EmptyString) (metric_payload "n/a"));
    try reflexivity.
  right. split; [reflexivity |]. right. eexists. split; [reflexivity |].
  right. eexists. eexists. split; [reflexivity |].
  right. eexists. eexists. split; reflexivity.
Defined.

(** ** The reporting loop and the shutdown *)

Lemma filter_none (f : event -> bool) (l : list event) :
  Forall (fun ev => f ev = false) l -> filter f l = [].
Proof.
  induction 1 as [| ev l Hev _ IH]; [reflexivity |].
  cbn [filter]. now rewrite Hev.
Qed.

Lemma check_alerts_round (w : world) (s : state) :
  handled_http (requests_get w (clock s) alerts_endpoint None 5) = true ->
  exists s' rest,
    check_alerts w s = (Ok tt, s')
    /\ trace s' = trace s ++ EvGet alerts_endpoint None 5 :: rest
    /\ Forall quiet_event rest
    /\ prometheus_process s' = prometheus_process s
    /\ alertmanager_process s' = alertmanager_process s.
Proof.
  intros Hh. pose proof (check_alerts_total w s Hh) as Hok.
  destruct (respects_leaves_handles _ _ check_alerts_footprint w s) as [Hp Ha].
  assert (Hshape : exists rest,
             trace (snd (check_alerts w s))
             = trace s ++ EvGet alerts_endpoint None 5 :: rest
             /\ Forall quiet_event rest).
  { unfold check_alerts, requests_get_call. apply external_first.
    - intros response. footprint; try (split; reflexivity).
      use_footprint alerts_loop_footprint. intros ev Hev. now destruct ev.
    - intros e. footprint. split; reflexivity. }
  destruct Hshape as [rest [Ht Hq]].
  destruct (check_alerts w s) as [r s'] eqn:E. cbn [fst snd] in *. subst r.
  exists s', rest. repeat split; assumption.
Qed.

Lemma report_loop_shape (cycles : nat) (w : world) :
  (forall t, handled_http (requests_get w t alerts_endpoint None 5) = true) ->
  forall s,
    exists s' new,
      report_loop cycles w s = (Raise (Exn KeyboardInterrupt EmptyString), s')
      /\ trace s' = trace s ++ new
      /\ filter is_sleep_or_get new
         = concat (repeat report_round cycles) ++ [EvSleep 30]
      /\ filter is_terminate new = []
      /\ prometheus_process s' = prometheus_process s
      /\ alertmanager_process s' = alertmanager_process s.
Proof.
  intros Hh. induction cycles as [| cycles IH]; intros s; cbn [report_loop].
  - run_step. eexists. exists [EvSleep 30]. repeat split.
  - run_step.
    match goal with
    | |- context [bind check_alerts ?k w ?s0] =>
        destruct (check_alerts_round w s0 (Hh _)) as [s1 [rest [E [Ht [Hq [Hp Ha]]]]]];
        rewrite (bind_ok _ k w s0 _ _ E)
    end.
    autorewrite with run in Ht, Hp, Ha.
    destruct (IH s1) as [s' [new [Erun [Et [Hf [Hterm [Hp' Ha']]]]]]].
    exists s', (EvSleep 30 :: EvGet alerts_endpoint None 5 :: rest ++ new).
    split; [exact Erun |].
    split; [rewrite Et, Ht, <- !app_assoc; reflexivity |].
    split.
    { cbn [filter is_sleep_or_get is_sleep is_get orb].
      rewrite filter_app, Hf.
      rewrite (filter_none is_sleep_or_get rest)
        by (eapply Forall_impl; [| exact Hq]; intros ev [H _]; exact H).
      reflexivity. }
    split.
    { cbn [filter is_terminate]. rewrite filter_app, Hterm.
      rewrite (filter_none is_terminate rest)
        by (eapply Forall_impl; [| exact Hq]; intros ev [_ H]; exact H).
      reflexivity. }
    split; congruence.
Qed.

(** X19. As long as no alert request is interrupted, every round of the
    reporting loop of [main] sleeps 30 seconds and then fetches the alerts
    exactly once; the loop touches no handle and terminates no process, and
    it ends only by the interrupt. *)
Theorem report_loop_rounds (cycles : nat) (w : world) (s : state) :
  (forall t, handled_http (requests_get w t alerts_endpoint None 5) = true) ->
  exists new,
    fst (report_loop cycles w s) = Raise (Exn KeyboardInterrupt EmptyString)
    /\ trace (snd (report_loop cycles w s)) = trace s ++ new
    /\ filter is_sleep_or_get new
       = concat (repeat report_round cycles) ++ [EvSleep 30]
    /\ count is_terminate new = 0
    /\ prometheus_process (snd (report_loop cycles w s)) = prometheus_process s
    /\ alertmanager_process (snd (report_loop cycles w s)) = alertmanager_process s.
Proof.
  intros Hh.
  destruct (report_loop_shape cycles w Hh s) as [s' [new [E [Ht [Hf [Hterm [Hp Ha]]]]]]].
  exists new. rewrite E. cbn [fst snd]. unfold count. rewrite Hterm.
  repeat split; assumption.
Qed.

Lemma report_loop_rounds_witness :
  fst (report_loop 3 world_alerting init_state)
  = Raise (Exn KeyboardInterrupt EmptyString).
Proof.
  destruct (report_loop_rounds 3 world_alerting init_state) as [new [Hres _]].
  - intros t. reflexivity.
  - exact Hres.
Defined.






